(** * Bio.TogoWS: a shallow embedding of the TogoWS client

    The module [Bio/TogoWS/__init__.py] is a small Python 2 client of the
    TogoWS REST service.  All of its network traffic goes through one
    private function, [_open], which throttles, dispatches and sniffs the
    response body.  The public functions [tfetch], [tsearch],
    [tsearch_count] and the generator [tsearch_iter] build a URL, consult
    module-level caches and call [_open].

    The embedding keeps the module-level variables in an explicit [World]
    record that is threaded through every function, together with the
    wall clock, the machine's timer, the list of dispatched requests and
    the warnings issued.  Times are Python floats, that is binary64
    numbers.  Python exceptions are the [Raised] results of a
    state-and-error monad. *)

From Stdlib Require Import ZArith QArith Floats Ascii String DecimalString Lia Lqa.
From stdpp Require Import gmap strings list fin_maps.

Local Open Scope Z_scope.

(** ** Python string primitives *)

Module PyStr.

(** [s.startswith(p)] *)
Definition startswith (s p : string) : bool := String.prefix p s.

(** [needle in hay] on strings: substring test. *)
Fixpoint str_in (needle hay : string) : bool :=
  String.prefix needle hay ||
  match hay with
  | EmptyString => false
  | String _ rest => str_in needle rest
  end.

(** The characters that [str.strip()] and [str.split()] treat as white
    space: space, tab, line feed, vertical tab, form feed, carriage return. *)
Definition is_space (c : ascii) : bool :=
  let n := nat_of_ascii c in
  (Nat.eqb n 32 || (Nat.leb 9 n && Nat.leb n 13))%bool.

Fixpoint lstrip (s : string) : string :=
  match s with
  | EmptyString => EmptyString
  | String c rest => if is_space c then lstrip rest else s
  end.

Fixpoint rstrip (s : string) : string :=
  match s with
  | EmptyString => EmptyString
  | String c rest =>
      match rstrip rest with
      | EmptyString => if is_space c then EmptyString else String c EmptyString
      | r => String c r
      end
  end.

(** [s.strip()] *)
Definition strip (s : string) : string := rstrip (lstrip s).

Definition cons_token (t : string) (ts : list string) : list string :=
  match t with
  | EmptyString => ts
  | _ => t :: ts
  end.

(** [words s] is the token that starts at the head of [s] (empty when [s]
    starts with white space) and the tokens after it. *)
Fixpoint words (s : string) : string * list string :=
  match s with
  | EmptyString => (EmptyString, [])
  | String c rest =>
      let '(t, ts) := words rest in
      if is_space c then (EmptyString, cons_token t ts) else (String c t, ts)
  end.

(** [s.split()]: the maximal runs of non-space characters, in order. *)
Definition split (s : string) : list string :=
  let '(t, ts) := words s in cons_token t ts.

(** [sep.join(l)] *)
Definition join (sep : string) (l : list string) : string := String.concat sep l.

(** ["%i" % z] *)
Definition str_of_int (z : Z) : string := NilZero.string_of_int (Z.to_int z).

Definition digit_of (c : ascii) : option Z :=
  let n := nat_of_ascii c in
  if (Nat.leb 48 n && Nat.leb n 57)%bool then Some (Z.of_nat n - 48) else None.

Fixpoint digits (acc : Z) (s : string) : option Z :=
  match s with
  | EmptyString => Some acc
  | String c rest =>
      match digit_of c with
      | Some d => digits (10 * acc + d) rest
      | None => None
      end
  end.

(** One or more decimal digits, with white space before and after. *)
Definition unsigned (s : string) : option Z :=
  match strip s with
  | EmptyString => None
  | t => digits 0 t
  end.

(** [int(s)] of Python 2 in base ten: optional white space, an optional
    sign, optional white space again (Python 2 skips it after the sign,
    so [int("- 5")] is [-5]), one or more decimal digits, optional white
    space.  [None] stands for the [ValueError] that [int] raises on any
    other text. *)
Definition int (s : string) : option Z :=
  match lstrip s with
  | String "-" r => Z.opp <$> unsigned r
  | String "+" r => unsigned r
  | t => unsigned t
  end.

Definition hex_digit (n : nat) : ascii :=
  ascii_of_nat (if Nat.ltb n 10 then 48 + n else 87 + n).

(** One character of [repr] of a [str] whose quote character is [q]. *)
Definition repr_char (q c : ascii) : string :=
  let n := nat_of_ascii c in
  if (Ascii.eqb c q || Ascii.eqb c "\")%bool then String "\" (String c EmptyString)
  else if Nat.eqb n 9 then "\t"
  else if Nat.eqb n 10 then "\n"
  else if Nat.eqb n 13 then "\r"
  else if (Nat.ltb n 32 || Nat.leb 127 n)%bool then
    String "\" (String "x" (String (hex_digit (n / 16)%nat)
      (String (hex_digit (n mod 16)%nat) EmptyString)))
  else String c EmptyString.

Fixpoint repr_body (q : ascii) (s : string) : string :=
  match s with
  | EmptyString => EmptyString
  | String c rest => repr_char q c +:+ repr_body q rest
  end.

Fixpoint has_char (c : ascii) (s : string) : bool :=
  match s with
  | EmptyString => false
  | String d rest => (Ascii.eqb c d || has_char c rest)%bool
  end.

(** [repr(s)] of a [str]: single quotes, unless the text has a single
    quote and no double quote. *)
Definition repr (s : string) : string :=
  let dq : ascii := ascii_of_nat 34 in
  let q : ascii := if (has_char "'" s && negb (has_char dq s))%bool
                   then dq else "'"%char in
  String q (repr_body q s) +:+ String q EmptyString.

(** [str(t)] of a tuple of [str]. *)
Definition str_of_tuple (l : list string) : string :=
  match l with
  | [x] => "(" +:+ repr x +:+ ",)"
  | _ => "(" +:+ join ", " (repr <$> l) +:+ ")"
  end.

End PyStr.

(** The line feed character, written [\n] in the Python source. *)
Definition nl : string := String (ascii_of_nat 10) EmptyString.

(** ** Exceptions and the state-and-error monad *)

Inductive Exn : Type :=
| ValueError (msg : string)
| IOError (msg : string)
| AssertionError (msg : string).

Inductive Result (A : Type) : Type :=
| Ok (a : A)
| Raised (e : Exn).
Arguments Ok {A} a.
Arguments Raised {A} e.

(** The message an exception carries, [str(e)]. *)
Definition message (e : Exn) : string :=
  match e with
  | ValueError m | IOError m | AssertionError m => m
  end.

(** An HTTP request as handed to [urllib.urlopen]: the URL and, for a POST,
    the form fields. *)
Record Request : Type := mkRequest {
  req_url : string;
  req_post : option (list (string * string))
}.

Definition GET (url : string) : Request := mkRequest url None.

(** ** Time

    [time.time()] returns a Python float, an IEEE 754 binary64 number, and
    the throttle computes with [+], [-] and [>] on such numbers.  The
    kernel's [float] is the same format with the same rounding. *)


(** The number that a finite float stands for, as a fraction; [0] for
    the infinities and NaN. *)
Definition real (x : float) : Q :=
  match Prim2SF x with
  | S754_finite s m e =>
      let n := if s then Z.neg m else Z.pos m in
      if 0 <=? e then inject_Z (n * 2 ^ e) else Qmake n (Z.to_pos (2 ^ (- e)))
  | _ => 0%Q
  end.

(** A timer that wakes a sleeper exactly when asked, as far as the clock
    can tell. *)
Definition punctual (now d : float) : float := (now + d)%float.

(** What the remote service answers: the body, and the time (in seconds)
    that [urlopen] takes to return. *)
Record Reply : Type := mkReply {
  latency : float;
  body : string
}.

(** The module-level state of [Bio.TogoWS] and the part of the outside
    world it touches. *)
Record World : Type := mkWorld {
  _search_db_names : option (list string);
  _fetch_db_names : option (list string);
  _fetch_db_fields : gmap string (list string);
  _fetch_db_formats : gmap string (list string);
  previous : float;                   (* [_open.previous] *)
  clock : float;                      (* what [time.time()] returns *)
  timer : float -> float -> float;    (* [timer now d]: what the clock shows when a
                                         [time.sleep(d)] begun at [now] returns *)
  slept : list float;                 (* the arguments of the calls of [time.sleep], oldest first *)
  dispatched : list (float * Request);(* requests sent, oldest first, with the time of sending *)
  warned : list string                (* messages given to [warnings.warn], oldest first *)
}.

(** The state right after the module is imported (lines 37-41 and 299),
    at wall-clock time [t], on a machine with a punctual timer.  Line 299
    sets [_open.previous] to the integer [0], which the first sum of line
    253 turns into the float [0.0]. *)
Definition boot (t : float) : World :=
  mkWorld None None ∅ ∅ 0 t punctual [] [] [].

Definition M (A : Type) : Type := World -> Result A * World.

Definition ret {A} (a : A) : M A := fun w => (Ok a, w).

Definition raise {A} (e : Exn) : M A := fun w => (Raised e, w).

Definition bind {A B} (c : M A) (k : A -> M B) : M B :=
  fun w =>
    match c w with
    | (Ok a, w') => k a w'
    | (Raised e, w') => (Raised e, w')
    end.

Declare Scope py_scope.
Delimit Scope py_scope with py.
Notation "'let*' x ':=' c 'in' k" := (bind c (fun x => k))
  (at level 10, x pattern, c at level 100, k at level 200) : py_scope.
Notation "c1 '>>' c2" := (bind c1 (fun _ => c2))
  (at level 100, c2 at level 200, right associativity) : py_scope.
Local Open Scope py_scope.

Definition gets {A} (f : World -> A) : M A := fun w => (Ok (f w), w).

Definition modify (f : World -> World) : M unit := fun w => (Ok tt, f w).

Definition set_search_db_names (v : option (list string)) (w : World) : World :=
  mkWorld v (_fetch_db_names w) (_fetch_db_fields w) (_fetch_db_formats w)
          (previous w) (clock w) (timer w) (slept w) (dispatched w) (warned w).

Definition set_fetch_db_names (v : option (list string)) (w : World) : World :=
  mkWorld (_search_db_names w) v (_fetch_db_fields w) (_fetch_db_formats w)
          (previous w) (clock w) (timer w) (slept w) (dispatched w) (warned w).

Definition set_fetch_db_fields (v : gmap string (list string)) (w : World) : World :=
  mkWorld (_search_db_names w) (_fetch_db_names w) v (_fetch_db_formats w)
          (previous w) (clock w) (timer w) (slept w) (dispatched w) (warned w).

Definition set_previous (v : float) (w : World) : World :=
  mkWorld (_search_db_names w) (_fetch_db_names w) (_fetch_db_fields w)
          (_fetch_db_formats w) v (clock w) (timer w) (slept w) (dispatched w) (warned w).

Definition set_clock (v : float) (w : World) : World :=
  mkWorld (_search_db_names w) (_fetch_db_names w) (_fetch_db_fields w)
          (_fetch_db_formats w) (previous w) v (timer w) (slept w) (dispatched w) (warned w).

Definition set_timer (v : float -> float -> float) (w : World) : World :=
  mkWorld (_search_db_names w) (_fetch_db_names w) (_fetch_db_fields w)
          (_fetch_db_formats w) (previous w) (clock w) v (slept w) (dispatched w) (warned w).

Definition set_slept (v : list float) (w : World) : World :=
  mkWorld (_search_db_names w) (_fetch_db_names w) (_fetch_db_fields w)
          (_fetch_db_formats w) (previous w) (clock w) (timer w) v (dispatched w) (warned w).

Definition set_dispatched (v : list (float * Request)) (w : World) : World :=
  mkWorld (_search_db_names w) (_fetch_db_names w) (_fetch_db_fields w)
          (_fetch_db_formats w) (previous w) (clock w) (timer w) (slept w) v (warned w).

Definition set_warned (v : list string) (w : World) : World :=
  mkWorld (_search_db_names w) (_fetch_db_names w) (_fetch_db_fields w)
          (_fetch_db_formats w) (previous w) (clock w) (timer w) (slept w) (dispatched w) v.

(** [time.time()] *)
Definition time_time : M float := gets clock.

(** [time.sleep(d)]: the call is recorded, and when it returns the clock
    shows what the machine's timer makes of a sleep of [d] seconds.  The
    library promises no more: a sleep may end late by any amount, and a
    signal may end it early. *)
Definition time_sleep (d : float) : M unit :=
  modify (fun w => set_clock (timer w (clock w) d) (set_slept (slept w ++ [d]) w)).

(** [warnings.warn(msg)] *)
Definition warnings_warn (msg : string) : M unit :=
  modify (fun w => set_warned (warned w ++ [msg]) w).

(** The URLs requested so far, oldest first. *)
Definition urls (w : World) : list string := (fun p => req_url (snd p)) <$> dispatched w.

(** The times at which the requests were sent, oldest first. *)
Definition dispatch_times (w : World) : list float := fst <$> dispatched w.

(** ** The pushback reader *)

Module UndoHandle.

(** Modelled from the spec: the class [Bio.File.UndoHandle], which the
    module imports from [Bio/File.py].  The spec describes it as a
    readable stream with a push-back-a-line capability: lines pushed back
    are read again, in order, before the rest of the stream.  [saved] are
    the lines pushed back and [stream] is the unread rest of the wrapped
    handle. *)
Record t : Type := mk {
  saved : list string;
  stream : string
}.

(** Modelled from the spec: [UndoHandle(handle)], a reader with nothing
    pushed back. *)
Definition wrap (content : string) : t := mk [] content.

(** [readline] of the wrapped handle: the text up to and including the
    first line feed, or all that is left; empty at the end of the stream. *)
Fixpoint cut_line (s : string) : string * string :=
  match s with
  | EmptyString => (EmptyString, EmptyString)
  | String c rest =>
      if Ascii.eqb c (ascii_of_nat 10) then (String c EmptyString, rest)
      else let '(l, r) := cut_line rest in (String c l, r)
  end.

(** Modelled from the spec: [readline] of the reader, which hands out the
    lines pushed back before it reads on in the wrapped handle. *)
Definition readline (h : t) : string * t :=
  match saved h with
  | l :: ls => (l, mk ls (stream h))
  | [] => let '(l, r) := cut_line (stream h) in (l, mk [] r)
  end.

(** Modelled from the spec: [saveline] pushes a line back in front of the
    others; an empty line is not kept. *)
Definition saveline (line : string) (h : t) : t :=
  match line with
  | EmptyString => h
  | _ => mk (line :: saved h) (stream h)
  end.

(** Modelled from the spec: [read()] returns everything that is left, the
    lines pushed back first. *)
Definition read (h : t) : string * t :=
  (PyStr.join "" (saved h) +:+ stream h, mk [] EmptyString).

End UndoHandle.

Abbreviation UndoHandle := UndoHandle.t.

(** ** The module's functions *)

(** [delay = 0.333333333], which the source comments as one third of a
    second: the literal denotes the binary64 number nearest to it, which
    is [0x1.5555554f9b516p-2]. *)
Definition delay : float := 0x1.5555554f9b516p-2%float.

(** The error-page marker looked for at line 292. *)
Definition sorry_title : string :=
  "<title>We're sorry, but something went wrong</title>".

(** The argument [id] of [tfetch]: one string, a list of strings, or some
    other value; of the other values the model has tuples of strings and
    integers. *)
Inductive PyId : Type :=
| IdStr (s : string)
| IdList (l : list string)
| IdTuple (l : list string)
| IdInt (z : Z).

(** What ["%s" % id] puts into the text: [str(id)]. *)
Definition str_of_id (id : PyId) : string :=
  match id with
  | IdStr s => s
  | IdList l => "[" +:+ PyStr.join ", " (PyStr.repr <$> l) +:+ "]"
  | IdTuple l => PyStr.str_of_tuple l
  | IdInt z => PyStr.str_of_int z
  end.

(** A string argument that may be [None]; it counts as true when it is a
    non-empty string. *)
Definition truthy (o : option string) : bool :=
  match o with
  | Some (String _ _) => true
  | _ => false
  end.

Definition text (o : option string) : string := default EmptyString o.

Section Service.

(** The remote service: the answer to a request, which may depend on how
    many requests were sent before it. *)
Variable net : nat -> Request -> Reply.

(** [urllib.urlopen]: the request is recorded with the time of sending,
    the clock moves on by the latency and the body comes back. *)
Definition urlopen (url : string) (data : option (list (string * string))) : M string :=
  fun w =>
    let rq := mkRequest url data in
    let rp := net (length (dispatched w)) rq in
    (Ok (body rp),
     set_clock (clock w + latency rp)%float
               (set_dispatched (dispatched w ++ [(clock w, rq)]) w)).

(** Lines 251-258: [wait = _open.previous + delay - current], and when
    [wait > 0] the call sleeps for [wait] and stores [current + wait]. *)
Definition throttle : M unit :=
  let* current := time_time in
  let* prev := gets previous in
  let wait := (prev + delay - current)%float in
  if (0 <? wait)%float then
    time_sleep wait >>
    modify (set_previous (current + wait)%float)
  else
    modify (set_previous current).

(** Lines 271-273: [for i in range(n): lines.append(uhandle.readline())] *)
Fixpoint readlines (n : nat) (h : UndoHandle) : list string * UndoHandle :=
  match n with
  | O => ([], h)
  | S n' =>
      let '(l, h1) := UndoHandle.readline h in
      let '(ls, h2) := readlines n' h1 in
      (l :: ls, h2)
  end.

(** Lines 274-275: the lines are pushed back last line first. *)
Definition savelines (lines : list string) (h : UndoHandle) : UndoHandle :=
  foldl (fun h l => UndoHandle.saveline l h) h (rev lines).

(** Lines 278-297: the checks on the first ten lines. *)
Definition check (url : string) (data : string) (uhandle : UndoHandle) : M UndoHandle :=
  if bool_decide (data = EmptyString) then
    raise (IOError ("TogoWS replied with no data:" +:+ nl +:+ "%s % url"))
  else if bool_decide (data = " ") then
    raise (IOError ("TogoWS replied with just a single space:" +:+ nl +:+ url))
  else if PyStr.startswith data "Error: " then
    raise (IOError ("TogoWS replied with an error message:" +:+ nl +:+ nl
                    +:+ data +:+ nl +:+ nl +:+ url))
  else if PyStr.str_in sorry_title data then
    raise (IOError ("TogoWS replied: We're sorry, but something went wrong:"
                    +:+ nl +:+ url))
  else ret uhandle.

Definition _open (url : string) (post : option (list (string * string))) : M UndoHandle :=
  throttle >>
  let* handle :=
    match post with
    | Some (_ :: _) => urlopen url post
    | _ => urlopen url None
    end in
  let uhandle := UndoHandle.wrap handle in
  let '(lines, uhandle) := readlines 10 uhandle in
  let uhandle := savelines lines uhandle in
  let data := PyStr.join "" lines in
  check url data uhandle.

Definition _get_fields (url : string) : M (list string) :=
  let* handle := _open url None in
  let fields := PyStr.split (PyStr.strip (fst (UndoHandle.read handle))) in
  ret fields.

Definition _get_entry_dbs : M (list string) :=
  _get_fields "http://togows.dbcls.jp/entry".

Definition _get_entry_fields (db : string) : M (list string) :=
  _get_fields ("http://togows.dbcls.jp/entry/" +:+ db +:+ "?fields").

Definition _get_entry_formats (db : string) : M (list string) :=
  _get_fields ("http://togows.dbcls.jp/entry/" +:+ db +:+ "?formats").

(** Lines 88-89: the list of entry databases, asked for once. *)
Definition fetch_db_names : M (list string) :=
  let* cached := gets _fetch_db_names in
  match cached with
  | None =>
      let* l := _get_entry_dbs in
      modify (set_fetch_db_names (Some l)) >> ret l
  | Some l => ret l
  end.

(** Lines 94-98: [try: fields = _fetch_db_fields[db]], with the remote
    call in the [except KeyError] branch. *)
Definition fetch_db_fields (db : string) : M (list string) :=
  let* cache := gets _fetch_db_fields in
  match cache !! db with
  | Some fields => ret fields
  | None =>
      let* fields := _get_entry_fields db in
      modify (fun w => set_fetch_db_fields (<[db := fields]> (_fetch_db_fields w)) w) >>
      ret fields
  end.

(** Lines 106-110: [try: formats = _fetch_db_formats[db]]; the [except
    KeyError] branch stores the answer with [_fetch_db_fields[db] = formats]. *)
Definition fetch_db_formats (db : string) : M (list string) :=
  let* cache := gets _fetch_db_formats in
  match cache !! db with
  | Some formats => ret formats
  | None =>
      let* formats := _get_entry_formats db in
      modify (fun w => set_fetch_db_fields (<[db := formats]> (_fetch_db_fields w)) w) >>
      ret formats
  end.

(** Lines 88-92 *)
Definition check_db (db : string) : M unit :=
  let* names := fetch_db_names in
  if negb (bool_decide (db ∈ names)) then
    raise (ValueError ("TogoWS entry fetch does not officially support "
                       +:+ "database '" +:+ db +:+ "'."))
  else ret tt.

(** Lines 93-104 *)
Definition check_field (db : string) (field : option string) : M unit :=
  if truthy field then
    let* fields := fetch_db_fields db in
    if negb (bool_decide (text field ∈ fields)) then
      warnings_warn ("TogoWS entry fetch does not explicitly support "
                     +:+ "field '" +:+ text field +:+ "' for database '" +:+ db +:+ "'.")
    else ret tt
  else ret tt.

(** Lines 105-113 *)
Definition check_format (db : string) (format : option string) : M unit :=
  if truthy format then
    let* formats := fetch_db_formats db in
    if negb (bool_decide (text format ∈ formats)) then
      raise (ValueError ("TogoWS entry fetch does not explicitly support "
                         +:+ "format '" +:+ text format +:+ "' for database '" +:+ db +:+ "'."))
    else ret tt
  else ret tt.

(** Lines 115-121: the URL of the entry. *)
Definition fetch_url (db : string) (id : PyId) (format field : option string) : string :=
  let id := match id with
            | IdList l => IdStr (PyStr.join "," l)   (* [isinstance(id, list)] *)
            | _ => id
            end in
  let url := "http://togows.dbcls.jp/entry/" +:+ db +:+ "/" +:+ str_of_id id in
  let url := if truthy field then url +:+ "/" +:+ text field else url in
  let url := if truthy format then url +:+ "." +:+ text format else url in
  url.

Definition tfetch (db : string) (id : PyId) (format field : option string) : M UndoHandle :=
  check_db db >>
  check_field db field >>
  check_format db format >>
  _open (fetch_url db id format field) None.

(** Lines 134-135 and 199-200: the list of search databases, asked for once. *)
Definition search_db_names : M (list string) :=
  let* cached := gets _search_db_names in
  match cached with
  | None =>
      let* l := _get_fields "http://togows.dbcls.jp/search" in
      modify (set_search_db_names (Some l)) >> ret l
  | Some l => ret l
  end.

Definition count_url (db query : string) : string :=
  "http://togows.dbcls.jp/search/" +:+ db +:+ "/" +:+ query +:+ "/count".

Definition tsearch_count (db query : string) : M Z :=
  let* names := search_db_names in
  (if negb (bool_decide (db ∈ names)) then
     warnings_warn ("TogoWS search does not officially support database '" +:+ db +:+ "'. "
                    +:+ "See http://togows.dbcls.jp/search/ for options.")
   else ret tt) >>
  let* handle := _open (count_url db query) None in
  let answer := PyStr.strip (fst (UndoHandle.read handle)) in
  match PyStr.int answer with
  | Some count => ret count
  | None => raise (ValueError ("invalid literal for int() with base 10: " +:+ PyStr.repr answer))
  end.

(** Line 214: the URL of a window of search results. *)
Definition window_url (db query : string) (offset count : Z) : string :=
  "http://togows.dbcls.jp/search/" +:+ db +:+ "/" +:+ query
  +:+ "/" +:+ PyStr.str_of_int offset +:+ "," +:+ PyStr.str_of_int count.

Definition tsearch (db query : string) (offset count : option Z) (format : option string)
  : M UndoHandle :=
  let* names := search_db_names in
  (if negb (bool_decide (db ∈ names)) then
     warnings_warn ("TogoWS search does not explicitly support database '" +:+ db +:+ "'. "
                    +:+ "See http://togows.dbcls.jp/search/ for options.")
   else ret tt) >>
  let url := "http://togows.dbcls.jp/search/" +:+ db +:+ "/" +:+ query in
  let* url :=
    match offset, count with
    | Some offset, Some count =>
        if bool_decide (offset <= 0) then
          raise (ValueError "Offset should be at least one")
        else if bool_decide (count <= 0) then
          raise (ValueError "Count should be at least one")
        else ret (window_url db query offset count)
    | None, None => ret url
    | _, _ => raise (ValueError "Expect BOTH offset AND count to be provided (or neither)")
    end in
  let url := if truthy format then url +:+ "." +:+ text format else url in
  _open url None.

(** [data] is the text of the record(s), read from the handle when a
    handle is given. *)
Definition tconvert (data in_format out_format : string) : M UndoHandle :=
  let url := "http://togows.dbcls.jp/convert/" +:+ in_format +:+ "." +:+ out_format in
  _open url (Some [("data", data)]).

(** *** The generator [tsearch_iter]

    A generator object is a state machine: each state is a point of the
    body at which control can rest, with the values of the local
    variables. *)
Inductive Gen : Type :=
| GStart (db query : string) (batch : Z)
    (* not started yet *)
| GWhile (db query : string) (batch remain offset : Z)
    (* at the test of [while remain:] *)
| GFor (db query : string) (batch remain offset : Z) (ids : list string)
    (* in [for identifier in ids:], with the identifiers still to come *)
| GEnd.

(** What one step of the body does. *)
Inductive Step : Type :=
| Yield (identifier : string)
| Silent
| Stop
| Throw (e : Exn).

(** Calling the generator function only creates the generator. *)
Definition tsearch_iter (db query : string) (batch : Z) : Gen := GStart db query batch.

Definition gen_step (g : Gen) (w : World) : Step * Gen * World :=
  match g with
  | GStart db query batch =>
      match tsearch_count db query w with
      | (Raised e, w1) => (Throw e, GEnd, w1)
      | (Ok count, w1) =>
          if bool_decide (count = 0) then (Stop, GEnd, w1)
          else (Silent, GWhile db query batch count 1, w1)
      end
  | GWhile db query batch remain offset =>
      if bool_decide (remain = 0) then (Stop, GEnd, w)
      else
        let batch := Z.min batch remain in
        match tsearch db query (Some offset) (Some batch) None w with
        | (Raised e, w1) => (Throw e, GEnd, w1)
        | (Ok handle, w1) =>
            let ids := PyStr.split (PyStr.strip (fst (UndoHandle.read handle))) in
            if bool_decide (Z.of_nat (length ids) = batch)
            then (Silent, GFor db query batch remain offset ids, w1)
            else (Throw (AssertionError ("Got " +:+ PyStr.str_of_int (Z.of_nat (length ids))
                                         +:+ ", expected " +:+ PyStr.str_of_int batch)),
                  GEnd, w1)
        end
  | GFor db query batch remain offset ids =>
      match ids with
      | identifier :: rest => (Yield identifier, GFor db query batch remain offset rest, w)
      | [] => (Silent, GWhile db query batch (remain - batch) (offset + batch), w)
      end
  | GEnd => (Stop, GEnd, w)
  end.

(** How a full iteration over a generator ends. *)
Inductive Outcome : Type :=
| Exhausted            (* the generator stopped *)
| Failed (e : Exn)     (* an exception came out of it *)
| Unfinished.          (* the step budget ran out *)

(** [list(g)]: the identifiers the generator yields, with the way the
    iteration ended and the state of the world then. *)
Fixpoint drain (fuel : nat) (g : Gen) (w : World) : list string * Outcome * World :=
  match fuel with
  | O => ([], Unfinished, w)
  | S fuel' =>
      match gen_step g w with
      | (Yield x, g1, w1) =>
          let '(xs, out, w2) := drain fuel' g1 w1 in (x :: xs, out, w2)
      | (Silent, g1, w1) => drain fuel' g1 w1
      | (Stop, _, w1) => ([], Exhausted, w1)
      | (Throw e, _, w1) => ([], Failed e, w1)
      end
  end.

(** ** Notions used in the statements *)

(** The request that [_open url post] hands to [urllib.urlopen]: a POST
    only when [post] is a non-empty dictionary. *)
Definition request_of (url : string) (post : option (list (string * string))) : Request :=
  match post with
  | Some (_ :: _) => mkRequest url post
  | _ => GET url
  end.

(** The body that the service sends back when [_open url post] is called
    in the world [w]. *)
Definition answer (url : string) (post : option (list (string * string))) (w : World) : string :=
  body (net (length (dispatched w)) (request_of url post)).

(** What line 253 computes in the world [w]: the part of the interval
    since [_open.previous] that is still to run. *)
Definition deficit (w : World) : float := (previous w + delay - clock w)%float.

(** Whether a call of [_open] in the world [w] sleeps (line 254). *)
Definition waits (w : World) : bool := (0 <? deficit w)%float.

(** The time at which a request made in the world [w] leaves: at once, or
    when the sleep returns. *)
Definition dispatch_time (w : World) : float :=
  if waits w then timer w (clock w) (deficit w) else clock w.

(** What a call of [_open] in the world [w] stores in [_open.previous]. *)
Definition planned (w : World) : float :=
  if waits w then (clock w + deficit w)%float else clock w.

(** The world after [_open url post]: the request has been sent at
    [dispatch_time w], and [urlopen] has returned. *)
Definition sent (url : string) (post : option (list (string * string))) (w : World) : World :=
  let rq := request_of url post in
  mkWorld (_search_db_names w) (_fetch_db_names w) (_fetch_db_fields w) (_fetch_db_formats w)
          (planned w)
          (dispatch_time w + latency (net (length (dispatched w)) rq))%float
          (timer w)
          (if waits w then slept w ++ [deficit w] else slept w)
          (dispatched w ++ [(dispatch_time w, rq)])
          (warned w).

(** The text of the first [n] lines of [s]. *)
Fixpoint first_lines (n : nat) (s : string) : string :=
  match n with
  | O => EmptyString
  | S n' => let '(l, r) := UndoHandle.cut_line s in l +:+ first_lines n' r
  end.

(** The reader over [s] after its first ten lines were read and pushed back. *)
Definition pushed_back (s : string) : UndoHandle :=
  let '(lines, h) := readlines 10 (UndoHandle.wrap s) in savelines lines h.

(** A body in which the checks of lines 278-295 find nothing. *)
Definition passes (s : string) : bool :=
  negb (bool_decide (s = EmptyString) || bool_decide (s = " ")
        || PyStr.startswith s "Error: "
        || PyStr.str_in sorry_title (first_lines 10 s)).

(** What [_open] returns for a body [s]. *)
Definition gate (url s : string) : Result UndoHandle :=
  if bool_decide (s = EmptyString) then
    Raised (IOError ("TogoWS replied with no data:" +:+ nl +:+ "%s % url"))
  else if bool_decide (s = " ") then
    Raised (IOError ("TogoWS replied with just a single space:" +:+ nl +:+ url))
  else if PyStr.startswith s "Error: " then
    Raised (IOError ("TogoWS replied with an error message:" +:+ nl +:+ nl
                     +:+ first_lines 10 s +:+ nl +:+ nl +:+ url))
  else if PyStr.str_in sorry_title (first_lines 10 s) then
    Raised (IOError ("TogoWS replied: We're sorry, but something went wrong:"
                     +:+ nl +:+ url))
  else Ok (pushed_back s).

(** The identifiers in a body, as lines 46 and 167 extract them. *)
Definition ids_of (s : string) : list string := PyStr.split (PyStr.strip s).

(** Successive times at least [delay] apart, as the numbers they are. *)
Fixpoint spaced (ts : list float) : Prop :=
  match ts with
  | t1 :: ((t2 :: _) as rest) => (real t1 + real delay <= real t2)%Q /\ spaced rest
  | _ => True
  end.

(** The worlds that the module can be in: it is imported at some time,
    and then its functions are called; between the calls the clock may
    come to show any time, and the timer may come to behave in any way. *)
Inductive reachable : World -> Prop :=
| reach_boot t : reachable (boot t)
| reach_elapse w t tm : reachable w -> reachable (set_timer tm (set_clock t w))
| reach_open w url post : reachable w -> reachable (snd (_open url post w))
| reach_tfetch w db id format field :
    reachable w -> reachable (snd (tfetch db id format field w))
| reach_tsearch_count w db query :
    reachable w -> reachable (snd (tsearch_count db query w))
| reach_tsearch w db query offset count format :
    reachable w -> reachable (snd (tsearch db query offset count format w))
| reach_tconvert w data in_format out_format :
    reachable w -> reachable (snd (tconvert data in_format out_format w))
| reach_gen_step w g : reachable w -> reachable (snd (gen_step g w)).



(** A property of worlds that no step of the computation [c] destroys. *)
Definition preserves {A} (P : World -> Prop) (c : M A) : Prop :=
  forall w, P w -> P (snd (c w)).

(** A property of worlds that the elementary updates of the module keep:
    filling a cache, warning, and sending a request. *)
Record stable (P : World -> Prop) : Prop := mkStable {
  stable_search_db_names : forall l w, P w -> P (set_search_db_names (Some l) w);
  stable_fetch_db_names : forall l w, P w -> P (set_fetch_db_names (Some l) w);
  stable_fetch_db_fields :
    forall db l w, P w -> P (set_fetch_db_fields (<[db := l]> (_fetch_db_fields w)) w);
  stable_warned : forall msg w, P w -> P (set_warned (warned w ++ [msg]) w);
  stable_sent : forall url post w, P w -> P (sent url post w)
}.

(** A search call whose window is refused: one of [offset] and [count]
    without the other, or a value that is not positive. *)
Definition bad_window (offset count : option Z) : Prop :=
  match offset, count with
  | Some o, Some c => o <= 0 \/ c <= 0
  | None, None => False
  | _, _ => True
  end.

(** The world after lines 201-206 of [tsearch], which warn when [db] is
    not among the search databases [names]. *)
Definition search_warned (db : string) (names : list string) (w : World) : World :=
  if bool_decide (db ∈ names) then w
  else set_warned
         (warned w ++ ["TogoWS search does not explicitly support database '" +:+ db +:+ "'. "
                       +:+ "See http://togows.dbcls.jp/search/ for options."]) w.

(** The computation [c] sends only requests whose URL satisfies [S]. *)
Definition emits {A} (S : string -> Prop) (c : M A) : Prop :=
  forall w, exists extra, urls (snd (c w)) = urls w ++ extra /\ Forall S extra.

(** The URLs of the discovery calls that [tfetch] can make for [db]. *)
Definition entry_discovery (db : string) : list string :=
  [ "http://togows.dbcls.jp/entry";
    "http://togows.dbcls.jp/entry/" +:+ db +:+ "?fields";
    "http://togows.dbcls.jp/entry/" +:+ db +:+ "?formats" ].

End Service.

(** ** Services to run the functions against *)

Module Mock.

(** A service that answers every request with the same body. *)
Definition constant (b : string) : nat -> Request -> Reply :=
  fun _ _ => mkReply 0 b.

(** A service that answers by URL, from a table; the empty body for a URL
    that is not in the table. *)
Fixpoint lookup_url (table : list (string * string)) (url : string) : string :=
  match table with
  | [] => EmptyString
  | (u, b) :: rest => if bool_decide (u = url) then b else lookup_url rest url
  end.

Definition by_url (table : list (string * string)) : nat -> Request -> Reply :=
  fun _ rq => mkReply 0 (lookup_url table (req_url rq)).

(** [k] lines, each with the one identifier [x]. *)
Fixpoint lines_of (k : nat) (x : string) : string :=
  match k with
  | O => EmptyString
  | S k' => x +:+ nl +:+ lines_of k' x
  end.

(** Ten lines of text and then, on the eleventh line, the title of the
    error page. *)
Definition late_title : string := lines_of 10 "x" +:+ sorry_title.

(** The entry service with the one database [pubmed]. *)
Definition entry_service : nat -> Request -> Reply :=
  by_url [("http://togows.dbcls.jp/entry", "pubmed");
          ("http://togows.dbcls.jp/entry/pubmed?fields", "au ti");
          ("http://togows.dbcls.jp/entry/pubmed?formats", "xml json");
          ("http://togows.dbcls.jp/entry/pubmed/16381885", "PMID- 16381885");
          ("http://togows.dbcls.jp/entry/pubmed/16381885.xml", "<PubmedArticle/>");
          ("http://togows.dbcls.jp/entry/pubmed/16381885/length", "42")].

(** A search service whose second window for the query [cancer] is
    short: 90 identifiers instead of 100. *)
Definition short_service : nat -> Request -> Reply :=
  by_url [("http://togows.dbcls.jp/search", "pubmed uniprot");
          ("http://togows.dbcls.jp/search/pubmed/cancer/count", "250");
          ("http://togows.dbcls.jp/search/pubmed/cancer/1,100", lines_of 100 "a");
          ("http://togows.dbcls.jp/search/pubmed/cancer/101,100", lines_of 90 "b");
          ("http://togows.dbcls.jp/search/pubmed/cancer/201,50", lines_of 50 "c")].

(** The search service: the query [nothing] has no results, the query
    [cancer] has 250. *)
Definition search_service : nat -> Request -> Reply :=
  by_url [("http://togows.dbcls.jp/search", "pubmed uniprot");
          ("http://togows.dbcls.jp/search/pubmed/nothing/count", "0");
          ("http://togows.dbcls.jp/search/pubmed/cancer/count", "250");
          ("http://togows.dbcls.jp/search/pubmed/cancer/1,100", lines_of 100 "a");
          ("http://togows.dbcls.jp/search/pubmed/cancer/101,100", lines_of 100 "b");
          ("http://togows.dbcls.jp/search/pubmed/cancer/201,50", lines_of 50 "c")].

End Mock.

(** ** Notions for the rest of the module *)

(** A text with a white-space character in it. *)
Fixpoint has_space (s : string) : bool :=
  match s with
  | EmptyString => false
  | String c rest => PyStr.is_space c || has_space rest
  end.

(** A name as a discovery list holds it: not empty, no white space. *)
Definition is_name (x : string) : Prop := x <> EmptyString /\ has_space x = false.

(** A body that lists names one per line. *)
Fixpoint listing (names : list string) : string :=
  match names with
  | [] => EmptyString
  | x :: rest => x +:+ nl +:+ listing rest
  end.

(** The URL of a search, as lines 208-218 of [tsearch] build it. *)
Definition search_url (db query : string) (offset count : option Z) (format : option string)
  : string :=
  let url :=
    match offset, count with
    | Some o, Some c => window_url db query o c
    | _, _ => "http://togows.dbcls.jp/search/" +:+ db +:+ "/" +:+ query
    end in
  if truthy format then url +:+ "." +:+ text format else url.

(** The world after lines 136-141 of [tsearch_count], which warn when
    [db] is not among the search databases [names]. *)
Definition count_warned (db : string) (names : list string) (w : World) : World :=
  if bool_decide (db ∈ names) then w
  else set_warned
         (warned w ++ ["TogoWS search does not officially support database '" +:+ db +:+ "'. "
                       +:+ "See http://togows.dbcls.jp/search/ for options."]) w.

(** The windows, as pairs of an offset and a size, that the loop of lines
    165-173 asks for when it starts with [batch], [remain] and [offset];
    [n] bounds the number of turns. *)
Fixpoint windows (n : nat) (batch remain offset : Z) : list (Z * Z) :=
  match n with
  | O => []
  | S n' =>
      if bool_decide (remain = 0) then []
      else
        let k := Z.min batch remain in
        (offset, k) :: windows n' k (remain - k) (offset + k)
  end.

(** The windows of a search with [count] results, paged by [batch]. *)
Definition plan (batch count : Z) : list (Z * Z) :=
  windows (Z.to_nat count) batch count 1.

Section Paging.

Variable net : nat -> Request -> Reply.
Variables db query : string.

(** The service answers each of the windows [ws], asked one after the
    other from the request number [n] on, with a body that passes the
    checks of [_open] and has as many identifiers as the window asks for. *)
Fixpoint served (n : nat) (ws : list (Z * Z)) : Prop :=
  match ws with
  | [] => True
  | (o, k) :: rest =>
      let b := body (net n (GET (window_url db query o k))) in
      passes b = true /\ Z.of_nat (length (ids_of b)) = k /\ served (S n) rest
  end.

(** The identifiers in the bodies of these windows, in order. *)
Fixpoint harvest (n : nat) (ws : list (Z * Z)) : list string :=
  match ws with
  | [] => []
  | (o, k) :: rest =>
      ids_of (body (net n (GET (window_url db query o k)))) ++ harvest (S n) rest
  end.

End Paging.

Section Histories.

Variable net : nat -> Request -> Reply.

(** The worlds that come after [w0]: the functions of the module are
    called; between the calls the clock may come to show any time, and
    the timer may come to behave in any way. *)
Inductive evolves (w0 : World) : World -> Prop :=
| ev_here : evolves w0 w0
| ev_elapse w t tm : evolves w0 w -> evolves w0 (set_timer tm (set_clock t w))
| ev_open w url post : evolves w0 w -> evolves w0 (snd (_open net url post w))
| ev_tfetch w db id format field :
    evolves w0 w -> evolves w0 (snd (tfetch net db id format field w))
| ev_tsearch_count w db query :
    evolves w0 w -> evolves w0 (snd (tsearch_count net db query w))
| ev_tsearch w db query offset count format :
    evolves w0 w -> evolves w0 (snd (tsearch net db query offset count format w))
| ev_tconvert w data in_format out_format :
    evolves w0 w -> evolves w0 (snd (tconvert net data in_format out_format w))
| ev_gen_step w g : evolves w0 w -> evolves w0 (snd (gen_step net g w)).

End Histories.

(** What a later world [w'] keeps of an earlier world [w]: the cached
    lists of databases, an entry for every database whose fields are
    cached, the requests sent and the warnings given. *)
Definition keeps (w w' : World) : Prop :=
  (forall l, _search_db_names w = Some l -> _search_db_names w' = Some l) /\
  (forall l, _fetch_db_names w = Some l -> _fetch_db_names w' = Some l) /\
  (forall db, is_Some (_fetch_db_fields w !! db) -> is_Some (_fetch_db_fields w' !! db)) /\
  (exists extra, dispatched w' = dispatched w ++ extra) /\
  (exists extra, warned w' = warned w ++ extra).

(** A computation that keeps, in this sense, the world it starts in. *)
Definition keeping {A} (c : M A) : Prop := forall w, keeps w (snd (c w)).

(** The URLs of the requests for the windows [ws]. *)
Definition window_urls (db query : string) (ws : list (Z * Z)) : list string :=
  (fun p => window_url db query (fst p) (snd p)) <$> ws.

(** Windows that follow one another without a gap from [offset] on. *)
Fixpoint tiles (offset : Z) (ws : list (Z * Z)) : Prop :=
  match ws with
  | [] => True
  | (o, k) :: rest => o = offset /\ tiles (offset + k) rest
  end.

(** A search service with seven results for the query [flu]. *)
Definition flu_service : nat -> Request -> Reply :=
  Mock.by_url [("http://togows.dbcls.jp/search", listing ["pubmed"; "uniprot"]);
               ("http://togows.dbcls.jp/search/pubmed/flu/count", "7");
               ("http://togows.dbcls.jp/search/pubmed/flu/1,3", listing ["a"; "b"; "c"]);
               ("http://togows.dbcls.jp/search/pubmed/flu/4,3", listing ["d"; "e"; "f"]);
               ("http://togows.dbcls.jp/search/pubmed/flu/7,1", listing ["g"])].

(** ** Bio.Ontology.IO

    The module [Bio/Ontology/IO/__init__.py] maps a format name to a
    reader, a writer or a printer class and runs it on a handle.  The
    classes, and [Bio.File.as_handle], live in other files: here they are
    parameters, and what the functions of the module do with them is
    recorded as a list of events. *)

Module OntologyIO.

Inductive Error : Type :=
| TypeError (msg : string)
| ValueError (msg : string)
| Foreign (what : string).   (* an exception raised by one of the parameters *)

Inductive Res (A : Type) : Type :=
| Good (a : A)
| Bad (e : Error).
Arguments Good {A} a.
Arguments Bad {A} e.

(** The argument [file_format]: a string, or some other value. *)
Inductive PyObj : Type :=
| Text (s : string)
| NotText.

(** [s.lower()] for the letters A-Z. *)
Definition lower_char (c : ascii) : ascii :=
  let n := nat_of_ascii c in
  if (Nat.leb 65 n && Nat.leb n 90)%bool then ascii_of_nat (n + 32) else c.

Fixpoint lower (s : string) : string :=
  match s with
  | EmptyString => EmptyString
  | String c rest => String (lower_char c) (lower rest)
  end.

Inductive Iterator : Type := OboIterator | TsvIterator | GafIterator.
Inductive Writer : Type := OboWriter | GmlWriter.
Inductive Printer : Type := GmlPrinter | GraphVizPrinter | TxtPrinter | HtmlPrinter.

(** Lines 13-15 *)
Definition _FormatToIterator : gmap string Iterator :=
  <["obo" := OboIterator]> (<["tsv" := TsvIterator]> (<["gaf" := GafIterator]> ∅)).

(** Lines 17-18 *)
Definition _FormatToWriter : gmap string Writer :=
  <["obo" := OboWriter]> (<["gml" := GmlWriter]> ∅).

(** Lines 20-23 *)
Definition _FormatToPrinter : gmap string Printer :=
  <["gml" := GmlPrinter]> (<["png" := GraphVizPrinter]>
    (<["txt" := TxtPrinter]> (<["html" := HtmlPrinter]> ∅))).

Section WithClasses.

(** The values that the module only passes on: data, versions, handles,
    enrichments, graphs, parameters and parsed elements. *)
Variable Obj : Type.

Inductive Event : Type :=
| Enter (handle : Obj) (mode : string)      (* [with as_handle(handle, mode) as fp] is entered *)
| Exit (handle : Obj)                       (* and left *)
| WriteFile (c : Writer) (data : Obj) (version : option Obj)
| PrettyPrint (c : Printer) (params : option Obj) (enrichment graph : Obj).

(** [as_handle(handle, mode)]: the file object, or the exception of
    opening it. *)
Variable as_handle : Obj -> string -> Res Obj.

(** [writer_class(fp).write_file(data, version)]: the exception it raises,
    if any. *)
Variable write_file : Writer -> Obj -> Obj -> option Obj -> option Error.

(** [writer_class(fp[, params]).pretty_print(enrichment, graph)] *)
Variable print_with : Printer -> Obj -> option Obj -> Obj -> Obj -> option Error.

(** [iterator_generator(fp)]: the elements it yields and the exception,
    if any, that ends it. *)
Variable iterate : Iterator -> Obj -> list Obj * option Error.

Definition IO (A : Type) : Type := list Event -> Res A * list Event.

(** [with as_handle(handle, mode) as fp: body] *)
Definition with_handle {A} (handle : Obj) (mode : string) (body : Obj -> IO A) : IO A :=
  fun tr =>
    match as_handle handle mode with
    | Bad e => (Bad e, tr)
    | Good fp =>
        let '(r, tr1) := body fp (tr ++ [Enter handle mode]) in
        (r, tr1 ++ [Exit handle])
    end.

Definition of_option (o : option Error) : Res unit :=
  match o with
  | None => Good tt
  | Some e => Bad e
  end.

(** Lines 25-54 *)
Definition write (data handle : Obj) (file_format : PyObj) (version : option Obj) : IO unit :=
  match file_format with
  | NotText => fun tr => (Bad (TypeError "Need a string for the file format (lower case)"), tr)
  | Text fmt =>
      if bool_decide (fmt = EmptyString) then
        fun tr => (Bad (ValueError "Format required (lower case string)"), tr)
      else
        with_handle handle "w" (fun fp tr =>
          match _FormatToWriter !! fmt with
          | Some writer_class =>
              (of_option (write_file writer_class fp data version),
               tr ++ [WriteFile writer_class data version])
          | None => (Bad (ValueError ("Unknown format '" +:+ fmt +:+ "'")), tr)
          end)
  end.

(** Lines 85-116 *)
Definition pretty_print (enrichment graph handle : Obj) (file_format : PyObj)
    (params : option Obj) : IO unit :=
  match file_format with
  | NotText => fun tr => (Bad (TypeError "Need a string for the file format (lower case)"), tr)
  | Text fmt =>
      if bool_decide (fmt = EmptyString) then
        fun tr => (Bad (ValueError "Format required (lower case string)"), tr)
      else
        with_handle handle "w" (fun fp tr =>
          match _FormatToPrinter !! fmt with
          | Some writer_class =>
              (of_option (print_with writer_class fp params enrichment graph),
               tr ++ [PrettyPrint writer_class params enrichment graph])
          | None => (Bad (ValueError ("Unknown format '" +:+ fmt +:+ "'")), tr)
          end)
  end.

(** *** The generator [parse] (lines 56-83) *)
Inductive ParseGen : Type :=
| PStart (handle : Obj) (file_format : PyObj)
    (* not started yet *)
| PLoop (handle : Obj) (rest : list Obj) (ending : option Error)
    (* in [for el in it:], inside the [with] block *)
| PDone.

Inductive PStep : Type :=
| PYield (el : Obj)
| PStop
| PThrow (e : Error).

(** Calling the generator function only creates the generator. *)
Definition parse (handle : Obj) (file_format : PyObj) : ParseGen := PStart handle file_format.

(** The [for] loop over the elements still to come. *)
Definition loop_step (handle : Obj) (rest : list Obj) (ending : option Error)
    (tr : list Event) : PStep * ParseGen * list Event :=
  match rest with
  | el :: rest' => (PYield el, PLoop handle rest' ending, tr)
  | [] =>
      match ending with
      | None => (PStop, PDone, tr ++ [Exit handle])
      | Some e => (PThrow e, PDone, tr ++ [Exit handle])
      end
  end.

Definition parse_step (g : ParseGen) (tr : list Event) : PStep * ParseGen * list Event :=
  match g with
  | PStart handle file_format =>
      match file_format with
      | NotText =>
          (PThrow (TypeError "Need a string for the file format (lower case)"), PDone, tr)
      | Text fmt =>
          if bool_decide (fmt = EmptyString) then
            (PThrow (ValueError "Format required (lower case string)"), PDone, tr)
          else if negb (bool_decide (fmt = lower fmt)) then
            (* ["..." % format], with the builtin [format] for the string *)
            (PThrow (ValueError ("Format string '" +:+ "<built-in function format>"
                                 +:+ "' should be lower case")), PDone, tr)
          else
            match as_handle handle "rU" with
            | Bad e => (PThrow e, PDone, tr)
            | Good fp =>
                match _FormatToIterator !! fmt with
                | Some iterator_generator =>
                    let '(els, ending) := iterate iterator_generator fp in
                    loop_step handle els ending (tr ++ [Enter handle "rU"])
                | None =>
                    (PThrow (ValueError ("Unknown format '" +:+ fmt +:+ "'")), PDone,
                     tr ++ [Enter handle "rU"; Exit handle])
                end
            end
      end
  | PLoop handle rest ending => loop_step handle rest ending tr
  | PDone => (PStop, PDone, tr)
  end.

(** [list(g)], with the way the iteration ended; [None] when the step
    budget ran out. *)
Fixpoint collect (fuel : nat) (g : ParseGen) (tr : list Event)
  : list Obj * option (option Error) * list Event :=
  match fuel with
  | O => ([], None, tr)
  | S fuel' =>
      match parse_step g tr with
      | (PYield el, g1, tr1) =>
          let '(els, out, tr2) := collect fuel' g1 tr1 in (el :: els, out, tr2)
      | (PStop, _, tr1) => ([], Some None, tr1)
      | (PThrow e, _, tr1) => ([], Some (Some e), tr1)
      end
  end.

End WithClasses.

End OntologyIO.

(** * Properties *)

(** ** Strings *)

#[local] Arguments String.append !_ _ : simpl nomatch.

Lemma append_empty_r (s : string) : s +:+ EmptyString = s.
Proof. induction s as [|c s IH]; simpl; [reflexivity | now rewrite IH]. Qed.

Lemma append_assoc (a b c : string) : (a +:+ b) +:+ c = a +:+ (b +:+ c).
Proof. induction a as [|x a IH]; simpl; [reflexivity | now rewrite IH]. Qed.

Lemma join_empty_cons (l : string) (ls : list string) :
  PyStr.join "" (l :: ls) = l +:+ PyStr.join "" ls.
Proof.
  unfold PyStr.join. destruct ls as [|l' ls].
  - cbn [String.concat]. symmetry. apply append_empty_r.
  - reflexivity.
Qed.

(** ** The pushback reader and the sniffed prefix *)

Lemma cut_line_app (s : string) :
  fst (UndoHandle.cut_line s) +:+ snd (UndoHandle.cut_line s) = s.
Proof.
  induction s as [|c s IH]; simpl; [reflexivity|].
  destruct (Ascii.eqb c (ascii_of_nat 10)); simpl; [reflexivity|].
  destruct (UndoHandle.cut_line s) as [l r]; simpl in *. now rewrite IH.
Qed.

Lemma first_lines_empty (n : nat) : first_lines n EmptyString = EmptyString.
Proof. induction n as [|n IH]; simpl; [reflexivity | exact IH]. Qed.

(** The first lines of a non-empty text, character by character. *)
Lemma first_lines_step (n : nat) (c : ascii) (r : string) :
  first_lines (S n) (String c r) =
  String c (if Ascii.eqb c (ascii_of_nat 10) then first_lines n r else first_lines (S n) r).
Proof.
  cbn [first_lines UndoHandle.cut_line].
  destruct (Ascii.eqb c (ascii_of_nat 10)); [reflexivity|].
  destruct (UndoHandle.cut_line r) as [l r']. reflexivity.
Qed.

Lemma first_lines_is_empty (n : nat) (s : string) :
  first_lines (S n) s = EmptyString <-> s = EmptyString.
Proof.
  destruct s as [|c r].
  - rewrite first_lines_empty. tauto.
  - rewrite first_lines_step. split; discriminate.
Qed.

Lemma first_lines_is_space (n : nat) (s : string) :
  first_lines (S n) s = " " <-> s = " ".
Proof.
  destruct s as [|c r].
  - rewrite first_lines_empty. split; discriminate.
  - rewrite first_lines_step. split; intros H.
    + injection H as -> H. simpl in H.
      apply first_lines_is_empty in H. now subst.
    + injection H as -> ->. simpl. now rewrite first_lines_empty.
Qed.

(** A marker without a line feed starts the sniffed prefix exactly when
    it starts the whole body. *)
Lemma first_lines_prefix (n : nat) (p s : string) :
  PyStr.has_char (ascii_of_nat 10) p = false ->
  String.prefix p (first_lines (S n) s) = String.prefix p s.
Proof.
  revert p. induction s as [|c r IH]; intros p Hp.
  - now rewrite first_lines_empty.
  - rewrite first_lines_step. destruct p as [|a p]; [reflexivity|].
    cbn [PyStr.has_char] in Hp. apply orb_false_iff in Hp as [Ha Hp].
    cbn [String.prefix]. destruct (ascii_dec a c) as [->|]; [|reflexivity].
    rewrite Ascii.eqb_sym, Ha. now apply IH.
Qed.

(** Reading [n] lines off a fresh reader yields the first [n] lines and
    leaves the rest of the body in the stream. *)
Lemma readlines_stream (n : nat) (s : string) :
  exists lines r,
    readlines n (UndoHandle.mk [] s) = (lines, UndoHandle.mk [] r) /\
    PyStr.join "" lines = first_lines n s /\
    first_lines n s +:+ r = s.
Proof.
  revert s. induction n as [|n IH]; intros s.
  - exists [], s. simpl. auto.
  - cbn [readlines first_lines]. unfold UndoHandle.readline. cbn [UndoHandle.saved UndoHandle.stream].
    pose proof (cut_line_app s) as Hcut.
    destruct (UndoHandle.cut_line s) as [l r0]; simpl in Hcut.
    destruct (IH r0) as (lines & r & Hr & Hj & Happ). rewrite Hr.
    exists (l :: lines), r. split; [reflexivity|]. split.
    + now rewrite join_empty_cons, Hj.
    + now rewrite append_assoc, Happ.
Qed.

Lemma savelines_cons (l : string) (ls : list string) (h : UndoHandle) :
  savelines (l :: ls) h = UndoHandle.saveline l (savelines ls h).
Proof. unfold savelines. simpl. now rewrite foldl_app. Qed.

(** Pushing lines back keeps their text, in their order, before whatever
    had been pushed back earlier. *)
Lemma savelines_text (lines : list string) (h : UndoHandle) :
  PyStr.join "" (UndoHandle.saved (savelines lines h))
    = PyStr.join "" lines +:+ PyStr.join "" (UndoHandle.saved h) /\
  UndoHandle.stream (savelines lines h) = UndoHandle.stream h.
Proof.
  induction lines as [|l ls [IH1 IH2]].
  - split; reflexivity.
  - rewrite savelines_cons. destruct l as [|c l].
    + cbn [UndoHandle.saveline]. rewrite join_empty_cons, IH1, IH2. split; reflexivity.
    + cbn [UndoHandle.saveline UndoHandle.saved UndoHandle.stream].
      rewrite !join_empty_cons, IH1, IH2. now rewrite append_assoc.
Qed.

(** Sniffing and pushing back: what was read is the first ten lines, and
    the reader still delivers the whole body. *)
Lemma sniff_replays (n : nat) (s : string) :
  let '(lines, h) := readlines n (UndoHandle.wrap s) in
  PyStr.join "" lines = first_lines n s /\
  fst (UndoHandle.read (savelines lines h)) = s.
Proof.
  unfold UndoHandle.wrap.
  destruct (readlines_stream n s) as (lines & r & -> & Hj & Happ).
  split; [exact Hj|].
  unfold UndoHandle.read. cbn [fst].
  destruct (savelines_text lines (UndoHandle.mk [] r)) as [-> ->].
  cbn [UndoHandle.saved UndoHandle.stream]. rewrite Hj.
  unfold PyStr.join at 1. simpl String.concat. now rewrite append_empty_r.
Qed.

(** ** The monad *)

Lemma bind_assoc {A B C} (c : M A) (f : A -> M B) (g : B -> M C) (w : World) :
  bind (bind c f) g w = bind c (fun x => bind (f x) g) w.
Proof. unfold bind. destruct (c w) as [[a|e] w1]; reflexivity. Qed.

(** ** The response gate *)

Section Gate.

Variable net : nat -> Request -> Reply.

Lemma throttle_urlopen (url : string) (post : option (list (string * string))) (w : World) :
  (throttle >>
   match post with
   | Some (_ :: _) => urlopen net url post
   | _ => urlopen net url None
   end) w = (Ok (answer net url post w), sent net url post w).
Proof.
  assert (Hreq : forall w0,
    match post with
    | Some (_ :: _) => urlopen net url post
    | _ => urlopen net url None
    end w0 = urlopen net url (req_post (request_of url post)) w0 /\
    mkRequest url (req_post (request_of url post)) = request_of url post).
  { intros w0. destruct post as [[|kv kvs]|]; split; reflexivity. }
  unfold throttle, bind, time_time, time_sleep, gets, modify, answer, sent,
    dispatch_time, planned, waits, deficit.
  destruct w as [sn fn ff fm prev clk tm sl disp wrn]; cbn [clock previous timer slept].
  destruct (0 <? prev + delay - clk)%float.
  - rewrite (proj1 (Hreq _)). destruct (Hreq (boot 0)) as [_ Hrq].
    unfold urlopen, set_previous, set_clock, set_slept, set_dispatched.
    cbn [_search_db_names _fetch_db_names _fetch_db_fields _fetch_db_formats
         previous clock timer slept dispatched warned body latency].
    rewrite Hrq. reflexivity.
  - rewrite (proj1 (Hreq _)). destruct (Hreq (boot 0)) as [_ Hrq].
    unfold urlopen, set_previous, set_clock, set_slept, set_dispatched.
    cbn [_search_db_names _fetch_db_names _fetch_db_fields _fetch_db_formats
         previous clock timer slept dispatched warned body latency].
    rewrite Hrq. reflexivity.
Qed.

(** [_open] sends exactly one request, and what it returns is decided by
    the body alone. *)
Lemma open_gate (url : string) (post : option (list (string * string))) (w : World) :
  _open net url post w = (gate url (answer net url post w), sent net url post w).
Proof.
  unfold _open. rewrite <- bind_assoc. unfold bind at 1.
  rewrite throttle_urlopen.
  unfold gate, pushed_back.
  pose proof (sniff_replays 10 (answer net url post w)) as Hs.
  destruct (readlines 10 (UndoHandle.wrap (answer net url post w))) as [lines h].
  destruct Hs as [Hj _]. rewrite Hj. unfold check.
  rewrite (bool_decide_ext _ _ (first_lines_is_empty 9 (answer net url post w))).
  rewrite (bool_decide_ext _ _ (first_lines_is_space 9 (answer net url post w))).
  unfold PyStr.startswith. rewrite first_lines_prefix by reflexivity.
  unfold raise, ret.
  repeat match goal with |- context [if ?b then _ else _] => destruct b end; reflexivity.
Qed.

End Gate.

(** ** Classification of response bodies *)

Section Classification.

Variable net : nat -> Request -> Reply.

Lemma first_lines_one_line (n : nat) (s : string) :
  PyStr.has_char (ascii_of_nat 10) s = false -> first_lines (S n) s = s.
Proof.
  induction s as [|c r IH]; intros H.
  - apply first_lines_empty.
  - rewrite first_lines_step. cbn [PyStr.has_char] in H.
    apply orb_false_iff in H as [Hc Hr].
    rewrite Ascii.eqb_sym, Hc. now rewrite IH.
Qed.

(** C3 (amended).  [_open] sends its request and classifies the body [s]
    that comes back: the empty body raises the no-data error; the body of
    one space raises the single-space error; a body that begins with
    [Error: ] raises the service-reported error, whose message holds the
    first ten lines of the body (all of it when it is one line); a body
    that does not begin so and has the error-page title within its first
    ten lines raises the internal-error failure; every other body is
    returned in a handle that reads back the whole body. *)
Theorem open_classifies_body (url : string) (post : option (list (string * string)))
    (w : World) :
  let s := answer net url post w in
  let w' := sent net url post w in
  (s = EmptyString ->
     _open net url post w =
       (Raised (IOError ("TogoWS replied with no data:" +:+ nl +:+ "%s % url")), w')) /\
  (s = " " ->
     _open net url post w =
       (Raised (IOError ("TogoWS replied with just a single space:" +:+ nl +:+ url)), w')) /\
  (PyStr.startswith s "Error: " = true ->
     _open net url post w =
       (Raised (IOError ("TogoWS replied with an error message:" +:+ nl +:+ nl
                         +:+ first_lines 10 s +:+ nl +:+ nl +:+ url)), w') /\
     PyStr.startswith (first_lines 10 s) "Error: " = true /\
     (PyStr.has_char (ascii_of_nat 10) s = false -> first_lines 10 s = s)) /\
  (PyStr.startswith s "Error: " = false ->
   PyStr.str_in sorry_title (first_lines 10 s) = true ->
     _open net url post w =
       (Raised (IOError ("TogoWS replied: We're sorry, but something went wrong:"
                         +:+ nl +:+ url)), w')) /\
  (s <> EmptyString -> s <> " " ->
   PyStr.startswith s "Error: " = false ->
   PyStr.str_in sorry_title (first_lines 10 s) = false ->
     exists h, _open net url post w = (Ok h, w') /\ fst (UndoHandle.read h) = s).
Proof.
  intros s w'. rewrite open_gate. fold s w'. clearbody s w'. unfold gate.
  split; [|split; [|split; [|split]]].
  - intros ->. reflexivity.
  - intros ->. reflexivity.
  - intros H. split; [|split].
    + rewrite H. repeat case_bool_decide; subst; try (vm_compute in H; discriminate).
      reflexivity.
    + unfold PyStr.startswith. now rewrite first_lines_prefix.
    + apply first_lines_one_line.
  - intros H1 H2. rewrite H1, H2.
    repeat case_bool_decide; subst; try (vm_compute in H2; discriminate). reflexivity.
  - intros H1 H2 H3 H4. rewrite H3, H4.
    rewrite !bool_decide_eq_false_2 by assumption.
    exists (pushed_back s). split; [reflexivity|].
    unfold pushed_back. pose proof (sniff_replays 10 s) as Hs.
    destruct (readlines 10 (UndoHandle.wrap s)) as [lines h]. apply Hs.
Qed.

End Classification.

Lemma open_classifies_body_witness :
  let url := "http://togows.dbcls.jp/entry/pubmed/16381885" in
  fst (_open (Mock.constant "") url None (boot 0))
    = Raised (IOError ("TogoWS replied with no data:" +:+ nl +:+ "%s % url")) /\
  fst (_open (Mock.constant " ") url None (boot 0))
    = Raised (IOError ("TogoWS replied with just a single space:" +:+ nl +:+ url)) /\
  fst (_open (Mock.constant "Error: Invalid database.") url None (boot 0))
    = Raised (IOError ("TogoWS replied with an error message:" +:+ nl +:+ nl
                       +:+ "Error: Invalid database." +:+ nl +:+ nl +:+ url)) /\
  fst (_open (Mock.constant sorry_title) url None (boot 0))
    = Raised (IOError ("TogoWS replied: We're sorry, but something went wrong:"
                       +:+ nl +:+ url)) /\
  (exists h, fst (_open (Mock.constant "PMID- 16381885") url None (boot 0)) = Ok h /\
             fst (UndoHandle.read h) = "PMID- 16381885").
Proof.
  intros url.
  pose proof (open_classifies_body (Mock.constant "") url None (boot 0)) as (H1 & _).
  pose proof (open_classifies_body (Mock.constant " ") url None (boot 0)) as (_ & H2 & _).
  pose proof (open_classifies_body (Mock.constant "Error: Invalid database.") url None (boot 0))
    as (_ & _ & H3 & _).
  pose proof (open_classifies_body (Mock.constant sorry_title) url None (boot 0))
    as (_ & _ & _ & H4 & _).
  pose proof (open_classifies_body (Mock.constant "PMID- 16381885") url None (boot 0))
    as (_ & _ & _ & _ & H5).
  split; [|split; [|split; [|split]]].
  - now rewrite H1.
  - now rewrite H2.
  - destruct H3 as (H3 & _ & Hone); [reflexivity|].
    rewrite H3. cbn [fst]. rewrite Hone by reflexivity. reflexivity.
  - rewrite H4; reflexivity.
  - destruct H5 as (h & Hh & Hr); try reflexivity; try discriminate.
    exists h. rewrite Hh. split; [reflexivity | exact Hr].
Defined.

(** C3, as stated, fails: a body with the error-page title on its
    eleventh line contains the title and passes the checks. *)
Lemma late_title_passes :
  PyStr.str_in sorry_title Mock.late_title = true /\
  exists h,
    fst (_open (Mock.constant Mock.late_title)
               "http://togows.dbcls.jp/entry/pubmed/16381885" None (boot 0)) = Ok h /\
    fst (UndoHandle.read h) = Mock.late_title.
Proof.
  split; [vm_compute; reflexivity|].
  eexists. split; vm_compute; reflexivity.
Qed.

(** C9: the message of the no-data error is the same text for every URL,
    with the placeholder left in it, and does not hold the URL of the
    request. *)
Theorem no_data_message_lacks_url :
  let url := "http://togows.dbcls.jp/entry/pubmed/16381885.au" in
  exists e,
    fst (_open (Mock.constant "") url None (boot 0)) = Raised e /\
    message e = "TogoWS replied with no data:" +:+ nl +:+ "%s % url" /\
    PyStr.str_in url (message e) = false.
Proof. eexists. split; [vm_compute; reflexivity|]. split; vm_compute; reflexivity. Qed.

(** ** Properties that every function of the module keeps *)

Section Stability.

Variable net : nat -> Request -> Reply.
Variable P : World -> Prop.
Hypothesis HP : stable net P.

Lemma preserves_ret {A} (a : A) : preserves P (ret a).
Proof. intros w H. exact H. Qed.

Lemma preserves_raise {A} (e : Exn) : preserves P (@raise A e).
Proof. intros w H. exact H. Qed.

Lemma preserves_gets {A} (f : World -> A) : preserves P (gets f).
Proof. intros w H. exact H. Qed.

Lemma preserves_bind {A B} (c : M A) (k : A -> M B) :
  preserves P c -> (forall a, preserves P (k a)) -> preserves P (bind c k).
Proof.
  intros Hc Hk w H. unfold bind. specialize (Hc w H).
  destruct (c w) as [[a|e] w1]; cbn [snd] in *.
  - now apply Hk.
  - exact Hc.
Qed.

Lemma preserves_warn (msg : string) : preserves P (warnings_warn msg).
Proof. intros w H. now apply (stable_warned _ _ HP). Qed.

Lemma preserves_open (url : string) (post : option (list (string * string))) :
  preserves P (_open net url post).
Proof. intros w H. rewrite open_gate. now apply (stable_sent _ _ HP). Qed.

Lemma preserves_fill (f : World -> World) :
  (forall w, P w -> P (f w)) -> preserves P (modify f).
Proof. intros Hf w H. now apply Hf. Qed.

Ltac preserve :=
  repeat first
    [ apply preserves_ret | apply preserves_raise | apply preserves_gets
    | apply preserves_warn | apply preserves_open
    | apply preserves_fill; intros ? ?;
      first [ now apply (stable_search_db_names _ _ HP)
            | now apply (stable_fetch_db_names _ _ HP)
            | now apply (stable_fetch_db_fields _ _ HP) ]
    | apply preserves_bind; [|intros ?]
    | match goal with
      | |- preserves _ (if ?b then _ else _) => destruct b
      | |- preserves _ (match ?x with _ => _ end) => destruct x
      end ].

Lemma preserves_search_db_names : preserves P (search_db_names net).
Proof. unfold search_db_names. preserve. Qed.

Lemma preserves_tfetch (db : string) (id : PyId) (format field : option string) :
  preserves P (tfetch net db id format field).
Proof.
  unfold tfetch, check_db, check_field, check_format,
    fetch_db_names, fetch_db_fields, fetch_db_formats.
  preserve.
Qed.

Lemma preserves_tsearch_count (db query : string) : preserves P (tsearch_count net db query).
Proof. unfold tsearch_count, search_db_names. preserve. Qed.

Lemma preserves_tsearch (db query : string) (offset count : option Z) (format : option string) :
  preserves P (tsearch net db query offset count format).
Proof. unfold tsearch, search_db_names. preserve. Qed.

Lemma preserves_tconvert (data in_format out_format : string) :
  preserves P (tconvert net data in_format out_format).
Proof. unfold tconvert. preserve. Qed.

Lemma preserves_gen_step (g : Gen) (w : World) : P w -> P (snd (gen_step net g w)).
Proof.
  intros H. destruct g as [db query batch|db query batch remain offset
                           |db query batch remain offset ids|]; cbn [gen_step].
  - pose proof (preserves_tsearch_count db query w H) as Hc.
    destruct (tsearch_count net db query w) as [[count|e] w1]; cbn [snd] in *.
    + case_bool_decide; exact Hc.
    + exact Hc.
  - case_bool_decide; [exact H|].
    pose proof (preserves_tsearch db query (Some offset) (Some (Z.min batch remain)) None w H)
      as Hc.
    destruct (tsearch net db query _ _ None w) as [[handle|e] w1]; cbn [snd] in *.
    + case_bool_decide; exact Hc.
    + exact Hc.
  - destruct ids; exact H.
  - exact H.
Qed.

End Stability.

(** ** The throttle *)

(** *** Floats and the numbers they stand for *)

Lemma zero_ltb (x : float) :
  (0 <? x)%float =
  match Prim2SF x with
  | S754_finite s _ _ | S754_infinity s => negb s
  | _ => false
  end.
Proof.
  rewrite ltb_spec. change (Prim2SF 0) with (S754_zero false).
  unfold SFltb, SFcompare. destruct (Prim2SF x) as [s|s| |s m e]; try destruct s; reflexivity.
Qed.





Lemma positive_not_nan (x : float) : (0 <? x)%float = true -> Prim2SF x <> S754_nan.
Proof. rewrite zero_ltb. intros H E. rewrite E in H. discriminate. Qed.

Section Throttle.

Variable net : nat -> Request -> Reply.




End Throttle.



(** Rounding alone does it too: with a punctual timer and a clock that
    shows 1300000000 seconds, the sum [previous + delay] is rounded down,
    and two requests made one after the other leave less than [delay]
    apart. *)
Lemma rounding_shortens_gap :
  let m := Mock.constant "pubmed" in
  let url := "http://togows.dbcls.jp/entry" in
  let w2 := snd (_open m url None (snd (_open m url None (boot 1300000000)))) in
  reachable m w2 /\
  timer w2 = punctual /\
  ~ spaced (dispatch_times w2).
Proof.
  intros m url w2.
  assert (E : dispatch_times w2
              = ltac:(let v := eval vm_compute in (dispatch_times w2) in exact v))
    by (vm_compute; reflexivity).
  split; [|split].
  - do 2 apply reach_open. apply reach_boot.
  - reflexivity.
  - rewrite E. intros (H & _). revert H. vm_compute. intros H. apply H. reflexivity.
Qed.

(** ** Which requests a computation sends *)

Section Emission.

Variable net : nat -> Request -> Reply.
Variable S : string -> Prop.

Lemma emits_ret {A} (a : A) : emits S (ret a).
Proof. intros w. exists []. now rewrite app_nil_r. Qed.

Lemma emits_raise {A} (e : Exn) : emits S (@raise A e).
Proof. intros w. exists []. now rewrite app_nil_r. Qed.

Lemma emits_gets {A} (f : World -> A) : emits S (gets f).
Proof. intros w. exists []. now rewrite app_nil_r. Qed.

Lemma emits_modify (f : World -> World) :
  (forall w, dispatched (f w) = dispatched w) -> emits S (modify f).
Proof.
  intros Hf w. exists []. unfold urls, modify. cbn [snd].
  now rewrite Hf, app_nil_r.
Qed.

Lemma urls_sent (url : string) (post : option (list (string * string))) (w : World) :
  urls (sent net url post w) = urls w ++ [url].
Proof.
  unfold urls, sent. cbn [dispatched]. rewrite fmap_app. cbn.
  destruct post as [[|kv kvs]|]; reflexivity.
Qed.

Lemma emits_open (url : string) (post : option (list (string * string))) :
  S url -> emits S (_open net url post).
Proof.
  intros Hu w. exists [url]. rewrite open_gate. cbn [snd].
  split; [apply urls_sent | now constructor].
Qed.

Lemma emits_bind {A B} (c : M A) (k : A -> M B) :
  emits S c -> (forall a, emits S (k a)) -> emits S (bind c k).
Proof.
  intros Hc Hk w. unfold bind. destruct (Hc w) as (e1 & H1 & F1).
  destruct (c w) as [[a|e] w1]; cbn [snd] in *.
  - destruct (Hk a w1) as (e2 & H2 & F2). exists (e1 ++ e2).
    rewrite H2, H1, app_assoc. split; [reflexivity | now apply Forall_app].
  - exists e1. auto.
Qed.

End Emission.

Ltac emit_with tac :=
  repeat first
    [ apply emits_open; solve [tac]
    | apply emits_ret | apply emits_raise | apply emits_gets
    | apply emits_modify; intros ?; reflexivity
    | apply emits_bind; [|intros ?]
    | match goal with
      | |- emits _ (if ?b then _ else _) => destruct b
      | |- emits _ (match ?x with _ => _ end) => destruct x
      end ].

(** ** Validation in [tfetch] *)

Section FetchValidation.

Variable net : nat -> Request -> Reply.

Lemma emits_check_db (db : string) :
  emits (fun u => u ∈ entry_discovery db) (check_db net db).
Proof.
  unfold check_db, fetch_db_names, _get_entry_dbs, _get_fields.
  emit_with ltac:(unfold entry_discovery; set_solver).
Qed.

Lemma emits_check_field (db : string) (field : option string) :
  emits (fun u => u ∈ entry_discovery db) (check_field net db field).
Proof.
  unfold check_field, fetch_db_fields, _get_entry_fields, _get_fields, warnings_warn.
  emit_with ltac:(unfold entry_discovery; set_solver).
Qed.

Lemma emits_check_format (db : string) (format : option string) :
  emits (fun u => u ∈ entry_discovery db) (check_format net db format).
Proof.
  unfold check_format, fetch_db_formats, _get_entry_formats, _get_fields.
  emit_with ltac:(unfold entry_discovery; set_solver).
Qed.

(** The URL of an entry is none of the discovery URLs. *)
Lemma fetch_url_not_discovery (db : string) (id : PyId) (format field : option string) :
  fetch_url db id format field ∉ entry_discovery db.
Proof.
  assert (Hshape : exists tail,
    fetch_url db id format field = "http://togows.dbcls.jp/entry/" +:+ db +:+ "/" +:+ tail).
  { unfold fetch_url. destruct (truthy field), (truthy format);
      rewrite ?append_assoc; eexists; reflexivity. }
  destruct Hshape as [tail ->]. unfold entry_discovery.
  rewrite !elem_of_cons, elem_of_nil. intros [H|[H|[H|[]]]].
  - discriminate H.
  - apply (inj (String.append _)) in H. apply (inj (String.append _)) in H. discriminate H.
  - apply (inj (String.append _)) in H. apply (inj (String.append _)) in H. discriminate H.
Qed.

Lemma not_sent (db : string) (id : PyId) (format field : option string)
    (w w' : World) :
  (exists extra, urls w' = urls w ++ extra /\ Forall (fun u => u ∈ entry_discovery db) extra) ->
  exists extra, urls w' = urls w ++ extra /\ fetch_url db id format field ∉ extra.
Proof.
  intros (extra & He & Hf). exists extra. split; [exact He|].
  intros Hin. rewrite Forall_forall in Hf.
  exact (fetch_url_not_discovery db id format field (Hf _ Hin)).
Qed.

(** C2 (amended).  In [tfetch], a database that is not in the list of
    entry databases and a format that is not in the list of formats of
    the database are failures: a [ValueError] is raised and the entry is
    never requested.  A field that is not in the list of fields of the
    database only gives a warning: the call goes on to the check of the
    format and, when that check passes, requests the entry. *)
Theorem tfetch_validation (db : string) (id : PyId) (format field : option string)
    (w : World) :
  (forall names w1,
     fetch_db_names net w = (Ok names, w1) -> db ∉ names ->
     tfetch net db id format field w =
       (Raised (ValueError ("TogoWS entry fetch does not officially support "
                            +:+ "database '" +:+ db +:+ "'.")), w1) /\
     exists extra, urls w1 = urls w ++ extra /\ fetch_url db id format field ∉ extra) /\
  (forall w1 fields w2,
     check_db net db w = (Ok tt, w1) -> truthy field = true ->
     fetch_db_fields net db w1 = (Ok fields, w2) -> text field ∉ fields ->
     let w3 := set_warned
       (warned w2 ++ ["TogoWS entry fetch does not explicitly support "
                      +:+ "field '" +:+ text field +:+ "' for database '" +:+ db +:+ "'."]) w2 in
     forall w4, check_format net db format w3 = (Ok tt, w4) ->
       tfetch net db id format field w = _open net (fetch_url db id format field) None w4 /\
       last (urls (snd (tfetch net db id format field w)))
         = Some (fetch_url db id format field)) /\
  (forall w2 formats w3,
     (check_db net db >> check_field net db field) w = (Ok tt, w2) ->
     truthy format = true ->
     fetch_db_formats net db w2 = (Ok formats, w3) -> text format ∉ formats ->
     tfetch net db id format field w =
       (Raised (ValueError ("TogoWS entry fetch does not explicitly support "
                            +:+ "format '" +:+ text format +:+ "' for database '"
                            +:+ db +:+ "'.")), w3) /\
     exists extra, urls w3 = urls w ++ extra /\ fetch_url db id format field ∉ extra).
Proof.
  split; [|split].
  - intros names w1 Hn Hdb.
    assert (Heq : tfetch net db id format field w =
      (Raised (ValueError ("TogoWS entry fetch does not officially support "
                           +:+ "database '" +:+ db +:+ "'.")), w1)).
    { unfold tfetch, check_db. unfold bind at 1 2. rewrite Hn.
      rewrite bool_decide_eq_false_2 by exact Hdb. reflexivity. }
    split; [exact Heq|].
    apply not_sent.
    pose proof (emits_check_db db w) as He.
    replace (snd (check_db net db w)) with w1 in He; [exact He|].
    unfold check_db, bind. rewrite Hn.
    rewrite bool_decide_eq_false_2 by exact Hdb. reflexivity.
  - intros w1 fields w2 Hdb Hf Hfs Hnot w3 w4 Hfmt.
    assert (Heq : tfetch net db id format field w
                  = _open net (fetch_url db id format field) None w4).
    { unfold tfetch. unfold bind at 1. rewrite Hdb.
      unfold bind at 1. unfold check_field at 1. rewrite Hf.
      unfold bind at 1. rewrite Hfs.
      rewrite bool_decide_eq_false_2 by exact Hnot. cbn [negb].
      unfold warnings_warn, modify. fold w3.
      unfold bind at 1. rewrite Hfmt. reflexivity. }
    split; [exact Heq|].
    rewrite Heq, open_gate. cbn [snd]. rewrite urls_sent. apply last_snoc.
  - intros w2 formats w3 Hchk Hf Hfs Hnot.
    assert (Hfmt : check_format net db format w2 =
      (Raised (ValueError ("TogoWS entry fetch does not explicitly support "
                           +:+ "format '" +:+ text format +:+ "' for database '"
                           +:+ db +:+ "'.")), w3)).
    { unfold check_format. rewrite Hf. unfold bind. rewrite Hfs.
      rewrite bool_decide_eq_false_2 by exact Hnot. reflexivity. }
    assert (Heq : tfetch net db id format field w =
      (Raised (ValueError ("TogoWS entry fetch does not explicitly support "
                           +:+ "format '" +:+ text format +:+ "' for database '"
                           +:+ db +:+ "'.")), w3)).
    { unfold tfetch. rewrite <- bind_assoc. unfold bind at 1. rewrite Hchk.
      unfold bind at 1. rewrite Hfmt. reflexivity. }
    split; [exact Heq|].
    apply not_sent.
    assert (He : emits (fun u => u ∈ entry_discovery db)
                   ((check_db net db >> check_field net db field) >> check_format net db format)).
    { apply emits_bind; [apply emits_bind|]; intros;
        auto using emits_check_db, emits_check_field, emits_check_format. }
    specialize (He w). unfold bind at 1 in He. rewrite Hchk, Hfmt in He. exact He.
Qed.

End FetchValidation.

Lemma tfetch_validation_witness :
  let m := Mock.entry_service in
  let id := IdStr "16381885" in
  fst (tfetch m "ddbj" id None None (boot 0))
    = Raised (ValueError "TogoWS entry fetch does not officially support database 'ddbj'.") /\
  last (urls (snd (tfetch m "pubmed" id None (Some "length") (boot 0))))
    = Some "http://togows.dbcls.jp/entry/pubmed/16381885/length" /\
  fst (tfetch m "pubmed" id (Some "text") None (boot 0))
    = Raised (ValueError
        "TogoWS entry fetch does not explicitly support format 'text' for database 'pubmed'.").
Proof.
  intros m id. split; [|split].
  - pose proof (tfetch_validation m "ddbj" id None None (boot 0)) as (H & _ & _).
    edestruct H as [Heq _]; [vm_compute; reflexivity | compute_done |].
    rewrite Heq. reflexivity.
  - pose proof (tfetch_validation m "pubmed" id None (Some "length") (boot 0)) as (_ & H & _).
    edestruct H as [_ Hlast];
      [vm_compute; reflexivity | reflexivity | vm_compute; reflexivity | compute_done
      | vm_compute; reflexivity |].
    rewrite Hlast. reflexivity.
  - pose proof (tfetch_validation m "pubmed" id (Some "text") None (boot 0)) as (_ & _ & H).
    edestruct H as [Heq _];
      [vm_compute; reflexivity | reflexivity | vm_compute; reflexivity | compute_done |].
    rewrite Heq. reflexivity.
Defined.

(** C2, as stated, fails: a format that the database does not list stops
    the call with a [ValueError]; no warning is given and the entry is
    not requested. *)
Lemma unsupported_format_is_fatal :
  let r := tfetch Mock.entry_service "pubmed" (IdStr "16381885") (Some "text") None (boot 0) in
  fst r = Raised (ValueError
    "TogoWS entry fetch does not explicitly support format 'text' for database 'pubmed'.") /\
  warned (snd r) = [] /\
  urls (snd r) = ["http://togows.dbcls.jp/entry";
                  "http://togows.dbcls.jp/entry/pubmed?formats"].
Proof. vm_compute. repeat split; reflexivity. Qed.

(** ** The capability caches *)

(** No function of the module ever writes to [_fetch_db_formats]. *)
Lemma formats_cache_never_filled (net : nat -> Request -> Reply) (w : World) :
  reachable net w -> _fetch_db_formats w = ∅.
Proof.
  assert (Hst : stable net (fun w => _fetch_db_formats w = ∅)).
  { split; intros; assumption. }
  induction 1 as [t|w t1 tm _ IH|w url post _ IH|w db id format field _ IH|w db query _ IH
                 |w db query offset count format _ IH|w data fi fo _ IH|w g _ IH].
  - reflexivity.
  - exact IH.
  - now apply (preserves_open net _ Hst).
  - now apply (preserves_tfetch net _ Hst).
  - now apply (preserves_tsearch_count net _ Hst).
  - now apply (preserves_tsearch net _ Hst).
  - now apply (preserves_tconvert net _ Hst).
  - now apply (preserves_gen_step net _ Hst).
Qed.

(** C4: two fetches of the same entry in the same format.  The list of
    formats of the database is asked for by both: the answer to the first
    is stored under the fields of the database, and the cache of formats
    stays empty. *)
Theorem formats_discovered_twice :
  let m := Mock.entry_service in
  let w1 := snd (tfetch m "pubmed" (IdStr "16381885") (Some "xml") None (boot 0)) in
  let w2 := snd (tfetch m "pubmed" (IdStr "16381885") (Some "xml") None w1) in
  urls w2 = ["http://togows.dbcls.jp/entry";
             "http://togows.dbcls.jp/entry/pubmed?formats";
             "http://togows.dbcls.jp/entry/pubmed/16381885.xml";
             "http://togows.dbcls.jp/entry/pubmed?formats";
             "http://togows.dbcls.jp/entry/pubmed/16381885.xml"] /\
  _fetch_db_formats w2 = ∅ /\
  _fetch_db_fields w2 !! "pubmed" = Some ["xml"; "json"].
Proof. vm_compute. repeat split; reflexivity. Qed.

(** ** Validation in [tsearch] *)

Section SearchValidation.

Variable net : nat -> Request -> Reply.

Lemma gate_passes (url s : string) :
  passes s = true -> gate url s = Ok (pushed_back s).
Proof.
  unfold passes, gate. rewrite negb_true_iff, !orb_false_iff.
  intros [[[-> ->] ->] ->]. reflexivity.
Qed.

Lemma gate_fails (url s : string) :
  passes s = false -> exists msg, gate url s = Raised (IOError msg).
Proof.
  unfold passes, gate. rewrite negb_false_iff.
  repeat match goal with |- context [if ?b then _ else _] => destruct b end;
    intros H; try discriminate H; eexists; reflexivity.
Qed.

Lemma read_pushed_back (s : string) : fst (UndoHandle.read (pushed_back s)) = s.
Proof.
  unfold pushed_back. pose proof (sniff_replays 10 s) as Hs.
  destruct (readlines 10 (UndoHandle.wrap s)) as [lines h]. apply Hs.
Qed.

(** The list of search databases: from the cache when it is filled, and
    else from one request, which fills the cache when its body passes. *)
Lemma search_db_names_spec (w : World) :
  let url := "http://togows.dbcls.jp/search" in
  match _search_db_names w with
  | Some names => search_db_names net w = (Ok names, w)
  | None =>
      if passes (answer net url None w)
      then search_db_names net w =
             (Ok (ids_of (answer net url None w)),
              set_search_db_names (Some (ids_of (answer net url None w))) (sent net url None w))
      else exists msg, search_db_names net w = (Raised (IOError msg), sent net url None w)
  end.
Proof.
  intros url. destruct (_search_db_names w) as [names|] eqn:Hc.
  - unfold search_db_names, gets, bind. now rewrite Hc.
  - assert (Hcold : search_db_names net w =
      match gate url (answer net url None w) with
      | Ok h => (Ok (ids_of (fst (UndoHandle.read h))),
                 set_search_db_names (Some (ids_of (fst (UndoHandle.read h))))
                                     (sent net url None w))
      | Raised e => (Raised e, sent net url None w)
      end).
    { unfold search_db_names, gets, _get_fields, bind. rewrite Hc, open_gate.
      destruct (gate _ _); reflexivity. }
    rewrite Hcold. destruct (passes (answer net url None w)) eqn:Hp.
    + rewrite (gate_passes url _ Hp). now rewrite read_pushed_back.
    + destruct (gate_fails url _ Hp) as [msg ->]. now exists msg.
Qed.

(** C5 (amended).  A search call with a refused window never sends the
    search request.  When the list of search databases is already cached
    the call sends nothing at all and raises a [ValueError].  When it is
    not, the call first asks for that list, with one request, and then
    raises: the [ValueError] when the answer passes the checks of
    [_open], and else the error of [_open]. *)
Theorem tsearch_refuses_bad_window (db query : string) (offset count : option Z)
    (format : option string) (w : World) :
  bad_window offset count ->
  (forall names, _search_db_names w = Some names ->
     exists msg w',
       tsearch net db query offset count format w = (Raised (ValueError msg), w') /\
       dispatched w' = dispatched w) /\
  (_search_db_names w = None ->
     exists e w',
       tsearch net db query offset count format w = (Raised e, w') /\
       urls w' = urls w ++ ["http://togows.dbcls.jp/search"] /\
       (passes (answer net "http://togows.dbcls.jp/search" None w) = true ->
        exists msg, e = ValueError msg) /\
       (passes (answer net "http://togows.dbcls.jp/search" None w) = false ->
        exists msg, e = IOError msg)).
Proof.
  intros Hbad.
  assert (Hraise : forall (names : list string) w0, exists msg w',
    ((if negb (bool_decide (db ∈ names)) then
        warnings_warn ("TogoWS search does not explicitly support database '" +:+ db +:+ "'. "
                       +:+ "See http://togows.dbcls.jp/search/ for options.")
      else ret tt) >>
     let url := "http://togows.dbcls.jp/search/" +:+ db +:+ "/" +:+ query in
     let* url :=
       match offset, count with
       | Some offset, Some count =>
           if bool_decide (offset <= 0) then
             raise (ValueError "Offset should be at least one")
           else if bool_decide (count <= 0) then
             raise (ValueError "Count should be at least one")
           else ret (window_url db query offset count)
       | None, None => ret url
       | _, _ => raise (ValueError "Expect BOTH offset AND count to be provided (or neither)")
       end in
     let url := if truthy format then url +:+ "." +:+ text format else url in
     _open net url None) w0 = (Raised (ValueError msg), w') /\
    dispatched w' = dispatched w0).
  { intros names w0. unfold bind, warnings_warn, modify, ret, raise.
    destruct offset as [o|], count as [c|]; cbn [bad_window] in Hbad.
    - destruct (negb (bool_decide (db ∈ names)));
        repeat case_bool_decide; try lia; eexists _, _; split; reflexivity.
    - destruct (negb (bool_decide (db ∈ names))); eexists _, _; split; reflexivity.
    - destruct (negb (bool_decide (db ∈ names))); eexists _, _; split; reflexivity.
    - destruct Hbad. }
  pose proof (search_db_names_spec w) as Hspec. cbv zeta in Hspec.
  split.
  - intros names Hn. rewrite Hn in Hspec.
    destruct (Hraise names w) as (msg & w' & Heq & Hd).
    exists msg, w'. split; [|exact Hd].
    unfold tsearch. unfold bind at 1. rewrite Hspec. exact Heq.
  - intros Hn. rewrite Hn in Hspec.
    destruct (passes (answer net "http://togows.dbcls.jp/search" None w)) eqn:Hp.
    + destruct (Hraise (ids_of (answer net "http://togows.dbcls.jp/search" None w))
                  (set_search_db_names
                     (Some (ids_of (answer net "http://togows.dbcls.jp/search" None w)))
                     (sent net "http://togows.dbcls.jp/search" None w)))
        as (msg & w' & Heq & Hd).
      exists (ValueError msg), w'. split; [|split; [|split]].
      * unfold tsearch. unfold bind at 1. rewrite Hspec. exact Heq.
      * unfold urls at 1. rewrite Hd. apply (urls_sent net).
      * intros _. now exists msg.
      * discriminate.
    + destruct Hspec as [msg Hspec].
      exists (IOError msg), (sent net "http://togows.dbcls.jp/search" None w).
      split; [|split; [|split]].
      * unfold tsearch. unfold bind at 1. rewrite Hspec. reflexivity.
      * apply urls_sent.
      * discriminate.
      * intros _. now exists msg.
Qed.

End SearchValidation.

Lemma tsearch_refuses_bad_window_witness :
  let m := Mock.search_service in
  let w1 := snd (tsearch_count m "pubmed" "nothing" (boot 0)) in
  (exists msg w',
     tsearch m "pubmed" "cancer" (Some 0) (Some 100) None w1 = (Raised (ValueError msg), w') /\
     dispatched w' = dispatched w1) /\
  (exists e w',
     tsearch m "pubmed" "cancer" None (Some 100) None (boot 0) = (Raised e, w') /\
     urls w' = ["http://togows.dbcls.jp/search"]).
Proof.
  intros m w1. split.
  - assert (Hbad : bad_window (Some 0) (Some 100)) by (left; lia).
    destruct (tsearch_refuses_bad_window m "pubmed" "cancer" (Some 0) (Some 100) None w1 Hbad)
      as [Hwarm _].
    apply (Hwarm ["pubmed"; "uniprot"]). vm_compute. reflexivity.
  - assert (Hbad : bad_window None (Some 100)) by exact I.
    destruct (tsearch_refuses_bad_window m "pubmed" "cancer" None (Some 100) None (boot 0) Hbad)
      as [_ Hcold].
    destruct (Hcold eq_refl) as (e & w' & Heq & Hu & _ & _).
    exists e, w'. split; [exact Heq | exact Hu].
Defined.

(** C5, as stated, fails: called before the list of search databases is
    known, a search with an offset and no count sends the request for
    that list, and only then is refused. *)
Lemma refused_after_discovery :
  let r := tsearch Mock.search_service "pubmed" "cancer" (Some 1) None None (boot 0) in
  fst r = Raised (ValueError "Expect BOTH offset AND count to be provided (or neither)") /\
  urls (snd r) = ["http://togows.dbcls.jp/search"].
Proof. vm_compute. split; reflexivity. Qed.

(** ** The search pager *)

Section Pager.

Variable net : nat -> Request -> Reply.

(** A successful count leaves the list of search databases cached, and
    has sent the count request, after the request for that list when it
    was not cached yet. *)
Lemma tsearch_count_trace (db query : string) (w w1 : World) (c : Z) :
  tsearch_count net db query w = (Ok c, w1) ->
  urls w1 = urls w ++ match _search_db_names w with
                      | None => ["http://togows.dbcls.jp/search"]
                      | Some _ => []
                      end ++ [count_url db query] /\
  exists names, _search_db_names w1 = Some names.
Proof.
  intros H. unfold tsearch_count in H. unfold bind at 1 in H.
  pose proof (search_db_names_spec net w) as Hs. cbv zeta in Hs.
  assert (Htail : forall (names : list string) w0,
    _search_db_names w0 = Some names ->
    ((if negb (bool_decide (db ∈ names)) then
        warnings_warn ("TogoWS search does not officially support database '" +:+ db +:+ "'. "
                       +:+ "See http://togows.dbcls.jp/search/ for options.")
      else ret tt) >>
     let* handle := _open net (count_url db query) None in
     let answer := PyStr.strip (fst (UndoHandle.read handle)) in
     match PyStr.int answer with
     | Some count => ret count
     | None => raise (ValueError ("invalid literal for int() with base 10: "
                                  +:+ PyStr.repr answer))
     end) w0 = (Ok c, w1) ->
    urls w1 = urls w0 ++ [count_url db query] /\ _search_db_names w1 = Some names).
  { intros names w0 Hn. unfold bind, warnings_warn, modify, ret, raise.
    destruct (negb (bool_decide (db ∈ names))); rewrite open_gate;
      destruct (gate _ _) as [h|e]; try discriminate;
      destruct (PyStr.int _); try discriminate;
      intros [= _ <-]; rewrite urls_sent; split; try reflexivity; exact Hn. }
  destruct (_search_db_names w) as [names|] eqn:Hc.
  - rewrite Hs in H. destruct (Htail names w Hc H) as [Hu Hn].
    split; [exact Hu | now exists names].
  - destruct (passes (answer net "http://togows.dbcls.jp/search" None w)).
    + rewrite Hs in H. apply Htail in H; [|reflexivity]. destruct H as [Hu Hn].
      split; [|eauto]. rewrite Hu. unfold urls at 1. cbn [set_search_db_names dispatched].
      fold (urls (sent net "http://togows.dbcls.jp/search" None w)).
      now rewrite urls_sent, <- app_assoc.
    + destruct Hs as [msg Hs]. rewrite Hs in H. discriminate H.
Qed.

(** C6.  When the count is zero the generator stops at its first step:
    it yields nothing, and the world is the one that the count left, in
    which the only requests sent are the count request and, before it,
    the request for the list of search databases when that list was not
    cached. *)
Theorem tsearch_iter_nothing (db query : string) (batch : Z) (w w1 : World) :
  tsearch_count net db query w = (Ok 0, w1) ->
  (forall fuel, drain net (Datatypes.S fuel) (tsearch_iter db query batch) w
                = ([], Exhausted, w1)) /\
  urls w1 = urls w ++ match _search_db_names w with
                      | None => ["http://togows.dbcls.jp/search"]
                      | Some _ => []
                      end ++ [count_url db query].
Proof.
  intros H. split.
  - intros fuel. cbn [drain tsearch_iter gen_step]. rewrite H. reflexivity.
  - apply (tsearch_count_trace db query w w1 0 H).
Qed.

End Pager.

Lemma tsearch_iter_nothing_witness :
  let m := Mock.search_service in
  drain m 1 (tsearch_iter "pubmed" "nothing" 100) (boot 0)
    = ([], Exhausted, snd (tsearch_count m "pubmed" "nothing" (boot 0))) /\
  urls (snd (tsearch_count m "pubmed" "nothing" (boot 0)))
    = ["http://togows.dbcls.jp/search";
       "http://togows.dbcls.jp/search/pubmed/nothing/count"].
Proof.
  intros m.
  assert (H : tsearch_count m "pubmed" "nothing" (boot 0)
              = (Ok 0, snd (tsearch_count m "pubmed" "nothing" (boot 0))))
    by (vm_compute; reflexivity).
  destruct (tsearch_iter_nothing m "pubmed" "nothing" 100 _ _ H) as [Hd Hu].
  split; [apply Hd | rewrite Hu; reflexivity].
Defined.

(** ** Paging through the windows *)

Section Windows.

Variable net : nat -> Request -> Reply.

(** A window request with the list of search databases in the cache. *)
Lemma tsearch_window (names : list string) (db query : string) (o c : Z) (w : World) :
  _search_db_names w = Some names -> 0 < o -> 0 < c ->
  let u := window_url db query o c in
  tsearch net db query (Some o) (Some c) None w
    = (gate u (body (net (length (dispatched w)) (GET u))),
       sent net u None (search_warned db names w)).
Proof.
  intros Hn Ho Hc u. unfold tsearch. unfold bind at 1.
  pose proof (search_db_names_spec net w) as Hs. cbv zeta in Hs. rewrite Hn in Hs. rewrite Hs.
  unfold bind, warnings_warn, modify, ret, raise, search_warned.
  rewrite (bool_decide_eq_false_2 (o <= 0)) by lia.
  rewrite (bool_decide_eq_false_2 (c <= 0)) by lia.
  cbn [truthy]. fold u.
  case_bool_decide; cbn [negb]; rewrite open_gate; reflexivity.
Qed.

Lemma sent_search_warned (names : list string) (db u : string) (w : World) :
  let w' := sent net u None (search_warned db names w) in
  length (dispatched w') = Datatypes.S (length (dispatched w)) /\
  urls w' = urls w ++ [u] /\
  _search_db_names w' = _search_db_names w.
Proof.
  intros w'. subst w'. rewrite urls_sent. unfold sent, search_warned.
  case_bool_decide; cbn [dispatched _search_db_names set_warned];
    rewrite length_app; cbn [length]; (split; [lia|]); split; reflexivity.
Qed.

(** The [for] loop hands out the identifiers of the window one by one. *)
Lemma drain_yields (db query : string) (batch remain offset : Z) (ids : list string)
    (fuel : nat) (w : World) :
  drain net (length ids + fuel) (GFor db query batch remain offset ids) w =
  let '(ys, out, w2) := drain net fuel (GFor db query batch remain offset []) w in
  (ids ++ ys, out, w2).
Proof.
  induction ids as [|x ids IH].
  - cbn [length Nat.add app]. now destruct (drain net fuel _ w) as [[ys out] w2].
  - cbn [length Nat.add]. cbn [drain gen_step]. rewrite IH.
    now destruct (drain net fuel _ w) as [[ys out] w2].
Qed.

(** A finished iteration does not depend on the step budget. *)
Lemma drain_more (fuel : nat) :
  forall g w ys out w2,
    drain net fuel g w = (ys, out, w2) -> out <> Unfinished ->
    forall extra, drain net (fuel + extra) g w = (ys, out, w2).
Proof.
  induction fuel as [|fuel IH]; intros g w ys out w2 H Hout extra.
  - injection H as _ <- _. congruence.
  - cbn [Nat.add drain] in *.
    destruct (gen_step net g w) as [[[x| | |e] g1] w1]; try exact H.
    + destruct (drain net fuel g1 w1) as [[xs out1] w3] eqn:Hd.
      injection H as <- <- <-. now rewrite (IH _ _ _ _ _ Hd Hout).
    + now apply IH.
Qed.

(** One turn of the [while] loop whose window comes back as asked. *)
Lemma round_good (names : list string) (db query : string) (batch remain offset : Z)
    (fuel : nat) (w : World) :
  _search_db_names w = Some names ->
  remain <> 0 -> 0 < offset -> 0 < Z.min batch remain ->
  let k := Z.min batch remain in
  let u := window_url db query offset k in
  let b := body (net (length (dispatched w)) (GET u)) in
  passes b = true -> Z.of_nat (length (ids_of b)) = k ->
  drain net (Datatypes.S (length (ids_of b) + Datatypes.S fuel))
        (GWhile db query batch remain offset) w =
  let '(ys, out, w2) :=
    drain net fuel (GWhile db query k (remain - k) (offset + k))
          (sent net u None (search_warned db names w)) in
  (ids_of b ++ ys, out, w2).
Proof.
  intros Hn Hr Ho Hk k u b Hp Hlen.
  cbn [drain gen_step]. rewrite bool_decide_eq_false_2 by exact Hr.
  fold k. rewrite (tsearch_window names) by assumption. fold u b.
  rewrite (gate_passes u b Hp), read_pushed_back. fold (ids_of b).
  rewrite bool_decide_eq_true_2 by exact Hlen.
  rewrite drain_yields. reflexivity.
Qed.

(** One turn of the [while] loop whose window is refused by [_open] or
    has another number of identifiers than asked for. *)
Lemma round_bad (names : list string) (db query : string) (batch remain offset : Z)
    (fuel : nat) (w : World) :
  _search_db_names w = Some names ->
  remain <> 0 -> 0 < offset -> 0 < Z.min batch remain ->
  let k := Z.min batch remain in
  let u := window_url db query offset k in
  let b := body (net (length (dispatched w)) (GET u)) in
  passes b = false \/ Z.of_nat (length (ids_of b)) <> k ->
  exists e,
    drain net (Datatypes.S fuel) (GWhile db query batch remain offset) w
      = ([], Failed e, sent net u None (search_warned db names w)) /\
    (passes b = true ->
     e = AssertionError ("Got " +:+ PyStr.str_of_int (Z.of_nat (length (ids_of b)))
                         +:+ ", expected " +:+ PyStr.str_of_int k)).
Proof.
  intros Hn Hr Ho Hk k u b Hbad.
  cbn [drain gen_step]. rewrite bool_decide_eq_false_2 by exact Hr.
  fold k. rewrite (tsearch_window names) by assumption. fold u b.
  destruct (passes b) eqn:Hp.
  - destruct Hbad as [Hbad|Hlen]; [discriminate Hbad|].
    rewrite (gate_passes u b Hp), read_pushed_back. fold (ids_of b).
    rewrite bool_decide_eq_false_2 by exact Hlen.
    eexists. split; [reflexivity | intros _; reflexivity].
  - destruct (gate_fails u b Hp) as [msg ->].
    eexists. split; [reflexivity | discriminate].
Qed.

End Windows.

Section Pager250.

Variable net : nat -> Request -> Reply.

Lemma drain_start (db query : string) (batch count : Z) (fuel : nat) (w w1 : World) :
  tsearch_count net db query w = (Ok count, w1) -> count <> 0 ->
  drain net (Datatypes.S fuel) (tsearch_iter db query batch) w
    = drain net fuel (GWhile db query batch count 1) w1.
Proof.
  intros H Hc. cbn [drain tsearch_iter gen_step]. rewrite H.
  now rewrite bool_decide_eq_false_2 by exact Hc.
Qed.

(** C1.  A search whose count is 250, paged by 100.  [b1], [b2] and [b3]
    are the bodies that the service sends for the windows (1,100),
    (101,100) and (201,50), asked in this order after the count; a window
    is good when its body passes the checks of [_open] and has as many
    identifiers as the window asks for.  When the three windows are good,
    the generator yields the identifiers of the three bodies in order,
    250 in all, stops, and has sent exactly these three requests after
    the count.  When a window is not good, the iteration ends with an
    exception right there, the [AssertionError] of line 168 when the body
    passed the checks: the identifiers of the windows before it have been
    yielded, and no later window is asked for. *)
Theorem tsearch_iter_250_by_100 (db query : string) (w w1 : World) :
  tsearch_count net db query w = (Ok 250, w1) ->
  let n := length (dispatched w1) in
  let u1 := window_url db query 1 100 in
  let u2 := window_url db query 101 100 in
  let u3 := window_url db query 201 50 in
  let b1 := body (net n (GET u1)) in
  let b2 := body (net (Datatypes.S n) (GET u2)) in
  let b3 := body (net (Datatypes.S (Datatypes.S n)) (GET u3)) in
  let good (b : string) (k : nat) := passes b = true /\ length (ids_of b) = k in
  let mismatch (b : string) (k : Z) :=
    AssertionError ("Got " +:+ PyStr.str_of_int (Z.of_nat (length (ids_of b)))
                    +:+ ", expected " +:+ PyStr.str_of_int k) in
  forall fuel, (258 <= fuel)%nat ->
    let run := drain net fuel (tsearch_iter db query 100) w in
    (good b1 100%nat -> good b2 100%nat -> good b3 50%nat ->
       exists w2,
         run = (ids_of b1 ++ ids_of b2 ++ ids_of b3, Exhausted, w2) /\
         length (ids_of b1 ++ ids_of b2 ++ ids_of b3) = 250%nat /\
         urls w2 = urls w1 ++ [u1; u2; u3]) /\
    (~ good b1 100%nat ->
       exists e w2,
         run = ([], Failed e, w2) /\ urls w2 = urls w1 ++ [u1] /\
         (passes b1 = true -> e = mismatch b1 100)) /\
    (good b1 100%nat -> ~ good b2 100%nat ->
       exists e w2,
         run = (ids_of b1, Failed e, w2) /\ urls w2 = urls w1 ++ [u1; u2] /\
         (passes b2 = true -> e = mismatch b2 100)) /\
    (good b1 100%nat -> good b2 100%nat -> ~ good b3 50%nat ->
       exists e w2,
         run = (ids_of b1 ++ ids_of b2, Failed e, w2) /\
         urls w2 = urls w1 ++ [u1; u2; u3] /\
         (passes b3 = true -> e = mismatch b3 50)).
Proof.
  intros H n u1 u2 u3 b1 b2 b3 good mismatch fuel Hfuel run.
  destruct (tsearch_count_trace net db query w w1 250 H) as [_ [names Hn]].
  set (W1 := sent net u1 None (search_warned db names w1)).
  set (W2 := sent net u2 None (search_warned db names W1)).
  set (W3 := sent net u3 None (search_warned db names W2)).
  destruct (sent_search_warned net names db u1 w1) as (Hl1 & Hu1 & Hn1). fold W1 in Hl1, Hu1, Hn1.
  destruct (sent_search_warned net names db u2 W1) as (Hl2 & Hu2 & Hn2). fold W2 in Hl2, Hu2, Hn2.
  destruct (sent_search_warned net names db u3 W2) as (Hl3 & Hu3 & Hn3). fold W3 in Hl3, Hu3, Hn3.
  rewrite Hn in Hn1. rewrite Hn1 in Hn2. rewrite Hn2 in Hn3.
  fold n in Hl1. rewrite Hl1 in Hl2.
  (* the three turns of the loop, when their windows are good *)
  assert (R1 : forall f, good b1 100%nat ->
    drain net (Datatypes.S (length (ids_of b1) + Datatypes.S f)) (GWhile db query 100 250 1) w1 =
    let '(ys, out, w2) := drain net f (GWhile db query 100 150 101) W1 in
    (ids_of b1 ++ ys, out, w2)).
  { intros f [Hp Hlen].
    apply (round_good net names db query 100 250 1 f w1 Hn); try lia; try exact Hp.
    change (Z.of_nat (length (ids_of b1)) = 100). lia. }
  assert (R2 : forall f, good b2 100%nat ->
    drain net (Datatypes.S (length (ids_of b2) + Datatypes.S f)) (GWhile db query 100 150 101) W1 =
    let '(ys, out, w2) := drain net f (GWhile db query 100 50 201) W2 in
    (ids_of b2 ++ ys, out, w2)).
  { intros f [Hp Hlen].
    pose proof (round_good net names db query 100 150 101 f W1 Hn1) as R.
    cbv zeta in R. rewrite Hl1 in R. apply R; try lia; try exact Hp.
    change (Z.of_nat (length (ids_of b2)) = 100). lia. }
  assert (R3 : forall f, good b3 50%nat ->
    drain net (Datatypes.S (length (ids_of b3) + Datatypes.S f)) (GWhile db query 100 50 201) W2 =
    let '(ys, out, w2) := drain net f (GWhile db query 50 0 251) W3 in
    (ids_of b3 ++ ys, out, w2)).
  { intros f [Hp Hlen].
    pose proof (round_good net names db query 100 50 201 f W2 Hn2) as R.
    cbv zeta in R. rewrite Hl2 in R. apply R; try lia; try exact Hp.
    change (Z.of_nat (length (ids_of b3)) = 50). lia. }
  (* and when they are not *)
  assert (B1 : ~ good b1 100%nat -> exists e,
    drain net 1 (GWhile db query 100 250 1) w1 = ([], Failed e, W1) /\
    (passes b1 = true -> e = mismatch b1 100)).
  { intros Hlen.
    destruct (round_bad net names db query 100 250 1 0 w1 Hn) as (e & He & Hm); try lia.
    - change (passes b1 = false \/ Z.of_nat (length (ids_of b1)) <> 100).
      destruct (passes b1) eqn:Hp; [right|now left].
      intros Hl. apply Hlen. split; [exact Hp | lia].
    - exists e. split; [exact He | exact Hm]. }
  assert (B2 : ~ good b2 100%nat -> exists e,
    drain net 1 (GWhile db query 100 150 101) W1 = ([], Failed e, W2) /\
    (passes b2 = true -> e = mismatch b2 100)).
  { intros Hlen.
    pose proof (round_bad net names db query 100 150 101 0 W1 Hn1) as R.
    cbv zeta in R. rewrite Hl1 in R.
    destruct R as (e & He & Hm); try lia.
    - change (passes b2 = false \/ Z.of_nat (length (ids_of b2)) <> 100).
      destruct (passes b2) eqn:Hp; [right|now left].
      intros Hl. apply Hlen. split; [exact Hp | lia].
    - exists e. split; [exact He | exact Hm]. }
  assert (B3 : ~ good b3 50%nat -> exists e,
    drain net 1 (GWhile db query 100 50 201) W2 = ([], Failed e, W3) /\
    (passes b3 = true -> e = mismatch b3 50)).
  { intros Hlen.
    pose proof (round_bad net names db query 100 50 201 0 W2 Hn2) as R.
    cbv zeta in R. rewrite Hl2 in R.
    destruct R as (e & He & Hm); try lia.
    - change (passes b3 = false \/ Z.of_nat (length (ids_of b3)) <> 50).
      destruct (passes b3) eqn:Hp; [right|now left].
      intros Hl. apply Hlen. split; [exact Hp | lia].
    - exists e. split; [exact He | exact Hm]. }
  assert (Hstart : forall f, drain net (Datatypes.S f) (tsearch_iter db query 100) w
                             = drain net f (GWhile db query 100 250 1) w1).
  { intros f. apply drain_start; [exact H | lia]. }
  assert (Hlift : forall f ys out w2, (f <= 258)%nat ->
    drain net f (tsearch_iter db query 100) w = (ys, out, w2) -> out <> Unfinished ->
    run = (ys, out, w2)).
  { intros f ys out w2 Hf Hd Hout. subst run.
    replace fuel with (f + (fuel - f))%nat by lia. now apply drain_more. }
  split; [|split; [|split]].
  - intros G1 G2 G3. exists W3.
    pose proof G1 as [_ L1]. pose proof G2 as [_ L2]. pose proof G3 as [_ L3].
    split; [|split].
    + apply (Hlift (Datatypes.S (Datatypes.S (length (ids_of b1) + Datatypes.S
               (Datatypes.S (length (ids_of b2) + Datatypes.S
               (Datatypes.S (length (ids_of b3) + 2)))))))); [lia| |discriminate].
      rewrite Hstart, (R1 _ G1), (R2 _ G2), (R3 _ G3).
      change (drain net 1 (GWhile db query 50 0 251) W3) with ([] : list string, Exhausted, W3).
      cbv beta iota. now rewrite app_nil_r.
    + rewrite !length_app. lia.
    + rewrite Hu3, Hu2, Hu1, <- !app_assoc. reflexivity.
  - intros Hbad. destruct (B1 Hbad) as (e & He & Hm). exists e, W1.
    split; [|split; [exact Hu1 | exact Hm]].
    apply (Hlift 2%nat); [lia| |discriminate]. now rewrite Hstart.
  - intros G1 Hbad. destruct (B2 Hbad) as (e & He & Hm). exists e, W2.
    split; [|split; [|exact Hm]].
    + apply (Hlift (Datatypes.S (Datatypes.S (length (ids_of b1) + 2)))); [destruct G1; lia| |discriminate].
      rewrite Hstart, (R1 _ G1), He. cbv beta iota. now rewrite app_nil_r.
    + rewrite Hu2, Hu1, <- !app_assoc. reflexivity.
  - intros G1 G2 Hbad. destruct (B3 Hbad) as (e & He & Hm). exists e, W3.
    split; [|split; [|exact Hm]].
    + apply (Hlift (Datatypes.S (Datatypes.S (length (ids_of b1) + Datatypes.S
               (Datatypes.S (length (ids_of b2) + 2)))))); [destruct G1, G2; lia| |discriminate].
      rewrite Hstart, (R1 _ G1), (R2 _ G2), He. cbv beta iota. now rewrite app_nil_r.
    + rewrite Hu3, Hu2, Hu1, <- !app_assoc. reflexivity.
Qed.

End Pager250.

Lemma tsearch_iter_250_by_100_witness :
  (exists w2,
     drain Mock.search_service 258 (tsearch_iter "pubmed" "cancer" 100) (boot 0)
       = (replicate 100 "a" ++ replicate 100 "b" ++ replicate 50 "c", Exhausted, w2) /\
     urls w2 = ["http://togows.dbcls.jp/search";
                "http://togows.dbcls.jp/search/pubmed/cancer/count";
                "http://togows.dbcls.jp/search/pubmed/cancer/1,100";
                "http://togows.dbcls.jp/search/pubmed/cancer/101,100";
                "http://togows.dbcls.jp/search/pubmed/cancer/201,50"]) /\
  (exists w2,
     drain Mock.short_service 258 (tsearch_iter "pubmed" "cancer" 100) (boot 0)
       = (replicate 100 "a", Failed (AssertionError "Got 90, expected 100"), w2) /\
     urls w2 = ["http://togows.dbcls.jp/search";
                "http://togows.dbcls.jp/search/pubmed/cancer/count";
                "http://togows.dbcls.jp/search/pubmed/cancer/1,100";
                "http://togows.dbcls.jp/search/pubmed/cancer/101,100"]).
Proof.
  split.
  - assert (H : tsearch_count Mock.search_service "pubmed" "cancer" (boot 0)
                = (Ok 250, snd (tsearch_count Mock.search_service "pubmed" "cancer" (boot 0))))
      by (vm_compute; reflexivity).
    destruct (tsearch_iter_250_by_100 Mock.search_service "pubmed" "cancer" _ _ H 258%nat
                (le_n _)) as [Hgood _].
    destruct Hgood as (w2 & Hrun & _ & Hu);
      [split; vm_compute; reflexivity ..|].
    exists w2. split.
    + rewrite Hrun. vm_compute. reflexivity.
    + rewrite Hu. vm_compute. reflexivity.
  - assert (H : tsearch_count Mock.short_service "pubmed" "cancer" (boot 0)
                = (Ok 250, snd (tsearch_count Mock.short_service "pubmed" "cancer" (boot 0))))
      by (vm_compute; reflexivity).
    destruct (tsearch_iter_250_by_100 Mock.short_service "pubmed" "cancer" _ _ H 258%nat
                (le_n _)) as (_ & _ & Hshort & _).
    destruct Hshort as (e & w2 & Hrun & Hu & He);
      [split; vm_compute; reflexivity | intros [_ Hl]; vm_compute in Hl; discriminate Hl |].
    exists w2. split.
    + rewrite Hrun, He by (vm_compute; reflexivity). vm_compute. reflexivity.
    + rewrite Hu. vm_compute. reflexivity.
Defined.

(** ** The identifier argument of [tfetch] *)

Section Identifiers.

Variable net : nat -> Request -> Reply.

Lemma length_append (a b : string) :
  String.length (a +:+ b) = (String.length a + String.length b)%nat.
Proof. induction a as [|c a IH]; simpl; [reflexivity | now rewrite IH]. Qed.

Lemma length_repr_char (q c : ascii) : (1 <= String.length (PyStr.repr_char q c))%nat.
Proof.
  unfold PyStr.repr_char.
  repeat match goal with |- context [if ?b then _ else _] => destruct b end;
    cbn [String.length]; lia.
Qed.

Lemma length_repr_body (q : ascii) (s : string) :
  (String.length s <= String.length (PyStr.repr_body q s))%nat.
Proof.
  induction s as [|c s IH]; [reflexivity|].
  cbn [PyStr.repr_body String.length]. rewrite length_append.
  pose proof (length_repr_char q c). lia.
Qed.

Lemma length_repr (s : string) :
  (String.length s + 2 <= String.length (PyStr.repr s))%nat.
Proof.
  unfold PyStr.repr. cbv zeta.
  destruct (PyStr.has_char "'" s && negb (PyStr.has_char (ascii_of_nat 34) s))%bool;
    cbn [String.append String.length]; rewrite length_append;
    cbn [String.length];
    match goal with |- context [PyStr.repr_body ?q s] =>
      pose proof (length_repr_body q s) end; lia.
Qed.

Lemma length_join_repr (l : list string) :
  (String.length (PyStr.join "," l)
   <= String.length (PyStr.join ", " (PyStr.repr <$> l)))%nat.
Proof.
  unfold PyStr.join. induction l as [|x [|y l] IH].
  - reflexivity.
  - cbn [fmap list_fmap String.concat]. pose proof (length_repr x). lia.
  - change (String.concat "," (x :: y :: l)) with (x +:+ "," +:+ String.concat "," (y :: l)).
    change (String.concat ", " (PyStr.repr <$> x :: y :: l))
      with (PyStr.repr x +:+ ", " +:+ String.concat ", " (PyStr.repr <$> y :: l)).
    rewrite !length_append. cbn [String.length]. pose proof (length_repr x). lia.
Qed.

(** The text of a tuple is longer than its identifiers joined by commas. *)
Lemma length_str_of_tuple (l : list string) :
  (String.length (PyStr.join "," l) < String.length (PyStr.str_of_tuple l))%nat.
Proof.
  pose proof (length_join_repr l) as H.
  destruct l as [|x [|y l]]; unfold PyStr.str_of_tuple.
  - cbn. lia.
  - rewrite !length_append. pose proof (length_repr x).
    change (PyStr.join "," [x]) with x. cbn [String.length]. lia.
  - rewrite !length_append. cbn [String.length]. lia.
Qed.

(** The URL of an entry, with the text of the identifier in the middle. *)
Lemma fetch_url_shape (db : string) (id : PyId) (format field : option string) :
  fetch_url db id format field =
  "http://togows.dbcls.jp/entry/" +:+ db +:+ "/"
  +:+ match id with IdList l => PyStr.join "," l | _ => str_of_id id end
  +:+ (if truthy field then "/" +:+ text field else EmptyString)
  +:+ (if truthy format then "." +:+ text format else EmptyString).
Proof.
  unfold fetch_url.
  destruct id, (truthy field), (truthy format); cbn [str_of_id];
    rewrite ?append_assoc, ?append_empty_r; reflexivity.
Qed.

(** C7.  A fetch with the list of two identifiers and a fetch with the
    two identifiers joined by a comma build the same URL, and so are the
    same call. *)
Theorem tfetch_list_as_joined_string (db a b : string) (format field : option string)
    (w : World) :
  fetch_url db (IdList [a; b]) format field
    = fetch_url db (IdStr (a +:+ "," +:+ b)) format field /\
  tfetch net db (IdList [a; b]) format field w
    = tfetch net db (IdStr (a +:+ "," +:+ b)) format field w /\
  fetch_url "uniprot" (IdList ["A"; "B"]) None None
    = "http://togows.dbcls.jp/entry/uniprot/A,B".
Proof.
  assert (H : fetch_url db (IdList [a; b]) format field
              = fetch_url db (IdStr (a +:+ "," +:+ b)) format field) by reflexivity.
  split; [exact H|]. split; [|reflexivity].
  unfold tfetch. now rewrite H.
Qed.

(** C10.  Only a list is joined by commas.  Any other identifier goes
    into the URL as its text, the way string formatting writes it; for a
    tuple that text is never its identifiers joined by commas, so the
    fetch with a tuple does not build the URL of the joined string. *)
Theorem tfetch_joins_lists_only (db : string) (format field : option string) (w : World) :
  (forall l,
     fetch_url db (IdList l) format field
       = fetch_url db (IdStr (PyStr.join "," l)) format field) /\
  (forall id, (forall l, id <> IdList l) ->
     fetch_url db id format field = fetch_url db (IdStr (str_of_id id)) format field /\
     tfetch net db id format field w
       = tfetch net db (IdStr (str_of_id id)) format field w) /\
  (forall l,
     fetch_url db (IdTuple l) format field
       <> fetch_url db (IdStr (PyStr.join "," l)) format field) /\
  fetch_url "uniprot" (IdTuple ["A"; "B"]) None None
    = "http://togows.dbcls.jp/entry/uniprot/('A', 'B')".
Proof.
  split; [|split; [|split]].
  - intros l. reflexivity.
  - intros id Hid.
    assert (H : fetch_url db id format field
                = fetch_url db (IdStr (str_of_id id)) format field).
    { destruct id as [s|l|l|z]; try reflexivity. now destruct (Hid l). }
    split; [exact H|]. unfold tfetch. now rewrite H.
  - intros l H. rewrite !fetch_url_shape in H. cbn [str_of_id] in H.
    apply (f_equal String.length) in H. rewrite !length_append in H.
    pose proof (length_str_of_tuple l). lia.
  - reflexivity.
Qed.

End Identifiers.

Lemma tfetch_joins_lists_only_witness :
  fetch_url "uniprot" (IdTuple ["A1AG1_HUMAN"; "A1AG1_MOUSE"]) None None
    = fetch_url "uniprot" (IdStr "('A1AG1_HUMAN', 'A1AG1_MOUSE')") None None /\
  tfetch Mock.entry_service "uniprot" (IdTuple ["A1AG1_HUMAN"; "A1AG1_MOUSE"]) None None (boot 0)
    = tfetch Mock.entry_service "uniprot" (IdStr "('A1AG1_HUMAN', 'A1AG1_MOUSE')") None None
        (boot 0).
Proof.
  destruct (tfetch_joins_lists_only Mock.entry_service "uniprot" None None (boot 0))
    as (_ & H & _).
  apply (H (IdTuple ["A1AG1_HUMAN"; "A1AG1_MOUSE"])). intros l. discriminate.
Defined.

(** * Further properties of the module *)

(** ** One call of [_open] *)

Section OneCall.

Variable net : nat -> Request -> Reply.

(** X1.  Whatever the service answers, and whether [_open] returns a
    handle or raises, the call sends exactly one request: to its URL, as a
    POST with the form fields when [post] is a non-empty dictionary and as
    a GET otherwise; it touches no cache and gives no warning. *)
Theorem open_sends_one_request (url : string) (post : option (list (string * string)))
    (w : World) :
  let w' := snd (_open net url post w) in
  snd <$> dispatched w' = (snd <$> dispatched w) ++ [request_of url post] /\
  req_url (request_of url post) = url /\
  req_post (request_of url post) = match post with Some (_ :: _) => post | _ => None end /\
  _search_db_names w' = _search_db_names w /\
  _fetch_db_names w' = _fetch_db_names w /\
  _fetch_db_fields w' = _fetch_db_fields w /\
  _fetch_db_formats w' = _fetch_db_formats w /\
  warned w' = warned w.
Proof.
  intros w'. subst w'. rewrite open_gate. cbn [snd]. unfold sent.
  cbn [dispatched _search_db_names _fetch_db_names _fetch_db_fields _fetch_db_formats warned].
  rewrite fmap_app. cbn [fmap list_fmap snd].
  split; [reflexivity|]. split; [now destruct post as [[|kv kvs]|]|].
  split; [now destruct post as [[|kv kvs]|]|]. tauto.
Qed.


(** X3.  [tconvert] sends one request: a POST to the URL made of the two
    format names, with the record(s) in the form field [data] and never
    in the URL, also when the data are empty.  What it returns is decided
    by the body of the answer, and a body that passes the checks comes
    back whole from the handle. *)
Theorem tconvert_posts_data (data in_format out_format : string) (w : World) :
  let url := "http://togows.dbcls.jp/convert/" +:+ in_format +:+ "." +:+ out_format in
  let rq := mkRequest url (Some [("data", data)]) in
  let b := body (net (length (dispatched w)) rq) in
  let r := tconvert net data in_format out_format w in
  snd <$> dispatched (snd r) = (snd <$> dispatched w) ++ [rq] /\
  fst r = gate url b /\
  (passes b = true -> exists h, fst r = Ok h /\ fst (UndoHandle.read h) = b).
Proof.
  intros url rq b r. subst r. unfold tconvert. fold url. rewrite open_gate.
  cbn [fst snd]. split; [|split].
  - unfold sent. cbn [dispatched request_of]. rewrite fmap_app. reflexivity.
  - reflexivity.
  - intros Hp. exists (pushed_back b). split.
    + unfold answer. cbn [request_of]. fold rq b. now apply gate_passes.
    + apply read_pushed_back.
Qed.

End OneCall.


Lemma tconvert_posts_data_witness :
  exists h,
    fst (tconvert (Mock.constant ">seq") "LOCUS" "genbank" "fasta" (boot 0)) = Ok h /\
    fst (UndoHandle.read h) = ">seq".
Proof.
  destruct (tconvert_posts_data (Mock.constant ">seq") "LOCUS" "genbank" "fasta" (boot 0))
    as (_ & _ & H).
  apply H. vm_compute. reflexivity.
Defined.

(** ** Searches with the list of search databases in the cache *)

(** White space after the sign is skipped by [int]. *)
Lemma int_sign_space (c : ascii) (r : string) :
  PyStr.is_space c = true ->
  PyStr.int (String "-" (String c r)) = PyStr.int (String "-" r) /\
  PyStr.int (String "+" (String c r)) = PyStr.int (String "+" r).
Proof.
  intros Hc.
  assert (Hu : PyStr.unsigned (String c r) = PyStr.unsigned r).
  { unfold PyStr.unsigned, PyStr.strip. cbn [PyStr.lstrip]. now rewrite Hc. }
  split.
  - change (Z.opp <$> PyStr.unsigned (String c r) = Z.opp <$> PyStr.unsigned r).
    now rewrite Hu.
  - change (PyStr.unsigned (String c r) = PyStr.unsigned r). exact Hu.
Qed.

Section WarmSearch.

Variable net : nat -> Request -> Reply.

Lemma tsearch_warm (names : list string) (db query : string) (offset count : option Z)
    (format : option string) (w : World) :
  _search_db_names w = Some names -> ~ bad_window offset count ->
  let u := search_url db query offset count format in
  tsearch net db query offset count format w
    = (gate u (body (net (length (dispatched w)) (GET u))),
       sent net u None (search_warned db names w)).
Proof.
  intros Hn Hok u. unfold tsearch. unfold bind at 1.
  pose proof (search_db_names_spec net w) as Hs. cbv zeta in Hs. rewrite Hn in Hs. rewrite Hs.
  unfold bind, warnings_warn, modify, ret, raise, search_warned.
  subst u. unfold search_url.
  destruct offset as [o|], count as [c|]; cbn [bad_window] in Hok; try (now destruct Hok).
  - rewrite (bool_decide_eq_false_2 (o <= 0)) by lia.
    rewrite (bool_decide_eq_false_2 (c <= 0)) by lia.
    case_bool_decide; cbn [negb]; rewrite open_gate; reflexivity.
  - case_bool_decide; cbn [negb]; rewrite open_gate; reflexivity.
Qed.

Lemma tsearch_count_warm (names : list string) (db query : string) (w : World) :
  _search_db_names w = Some names ->
  let u := count_url db query in
  let b := body (net (length (dispatched w)) (GET u)) in
  tsearch_count net db query w
    = (match gate u b with
       | Raised e => Raised e
       | Ok h =>
           match PyStr.int (PyStr.strip (fst (UndoHandle.read h))) with
           | Some c => Ok c
           | None => Raised (ValueError ("invalid literal for int() with base 10: "
                                         +:+ PyStr.repr (PyStr.strip (fst (UndoHandle.read h)))))
           end
       end,
       sent net u None (count_warned db names w)).
Proof.
  intros Hn u b. unfold tsearch_count. unfold bind at 1.
  pose proof (search_db_names_spec net w) as Hs. cbv zeta in Hs. rewrite Hn in Hs. rewrite Hs.
  unfold bind, warnings_warn, modify, ret, raise, count_warned. fold u.
  case_bool_decide; cbn [negb]; rewrite open_gate; unfold answer; cbn [request_of dispatched set_warned];
    fold b; destruct (gate u b) as [h|e]; try reflexivity;
    destruct (PyStr.int _); reflexivity.
Qed.

Lemma urls_sent_warned (names : list string) (db u : string) (w : World) :
  urls (sent net u None (search_warned db names w)) = urls w ++ [u] /\
  urls (sent net u None (count_warned db names w)) = urls w ++ [u].
Proof.
  rewrite !urls_sent. unfold search_warned, count_warned.
  split; case_bool_decide; reflexivity.
Qed.

(** X4.  For a search, a database that is not in the list of search
    databases is no failure: with that list in the cache and an
    acceptable window, [tsearch] gives one warning that names the
    database (none when the database is listed) and sends exactly one
    request, to the URL of the search; what it returns is decided by the
    body of the answer. *)
Theorem tsearch_unlisted_database_warns (names : list string) (db query : string)
    (offset count : option Z) (format : option string) (w : World) :
  _search_db_names w = Some names -> ~ bad_window offset count ->
  let u := search_url db query offset count format in
  let r := tsearch net db query offset count format w in
  urls (snd r) = urls w ++ [u] /\
  fst r = gate u (body (net (length (dispatched w)) (GET u))) /\
  (db ∈ names -> warned (snd r) = warned w) /\
  (db ∉ names ->
   warned (snd r) =
     warned w ++ ["TogoWS search does not explicitly support database '" +:+ db +:+ "'. "
                  +:+ "See http://togows.dbcls.jp/search/ for options."]).
Proof.
  intros Hn Hok u r. subst r. rewrite (tsearch_warm names) by assumption. fold u.
  cbn [fst snd]. split; [apply urls_sent_warned|]. split; [reflexivity|].
  unfold sent, search_warned. split; intros Hdb.
  - rewrite bool_decide_eq_true_2 by exact Hdb. reflexivity.
  - rewrite bool_decide_eq_false_2 by exact Hdb. reflexivity.
Qed.

(** X5.  With the list of search databases in the cache, [tsearch_count]
    sends exactly one request, to the count URL.  When the body of the
    answer passes the checks of [_open], the call returns the integer
    that the body spells for [int] of Python 2, white space around it and
    after its sign aside, and raises a [ValueError] when the body spells
    none. *)
Theorem tsearch_count_reads_integer (names : list string) (db query : string) (w : World) :
  _search_db_names w = Some names ->
  let b := body (net (length (dispatched w)) (GET (count_url db query))) in
  let r := tsearch_count net db query w in
  urls (snd r) = urls w ++ [count_url db query] /\
  (passes b = true ->
   forall c, PyStr.int (PyStr.strip b) = Some c -> fst r = Ok c) /\
  (passes b = true ->
   PyStr.int (PyStr.strip b) = None -> exists msg, fst r = Raised (ValueError msg)).
Proof.
  intros Hn b r. subst r. rewrite (tsearch_count_warm names) by assumption. fold b.
  cbn [fst snd]. split; [apply urls_sent_warned|].
  split; intros Hp.
  - intros c Hc. rewrite (gate_passes _ b Hp), read_pushed_back, Hc. reflexivity.
  - intros Hc. rewrite (gate_passes _ b Hp), read_pushed_back, Hc. eexists. reflexivity.
Qed.

End WarmSearch.

Lemma tsearch_unlisted_database_warns_witness :
  let w := snd (tsearch_count Mock.search_service "pubmed" "nothing" (boot 0)) in
  let r := tsearch Mock.search_service "genbank" "cancer" None None (Some "json") w in
  urls (snd r) = urls w ++ ["http://togows.dbcls.jp/search/genbank/cancer.json"] /\
  warned (snd r) =
    ["TogoWS search does not explicitly support database 'genbank'. See http://togows.dbcls.jp/search/ for options."].
Proof.
  intros w r.
  assert (Hn : _search_db_names w = Some ["pubmed"; "uniprot"]) by (vm_compute; reflexivity).
  assert (Hok : ~ bad_window None None) by (intros []).
  destruct (tsearch_unlisted_database_warns Mock.search_service _ "genbank" "cancer"
              None None (Some "json") w Hn Hok) as (Hu & _ & _ & Hw).
  split; [exact Hu|]. subst r. rewrite Hw by compute_done. reflexivity.
Defined.

Lemma tsearch_count_reads_integer_witness :
  let w := snd (tsearch_count Mock.search_service "pubmed" "nothing" (boot 0)) in
  fst (tsearch_count Mock.search_service "pubmed" "cancer" w) = Ok 250 /\
  fst (tsearch_count (Mock.constant "- 5") "pubmed" "cancer" w) = Ok (-5) /\
  exists msg,
    fst (tsearch_count (Mock.constant "many") "pubmed" "cancer" w) = Raised (ValueError msg).
Proof.
  intros w.
  assert (Hn : _search_db_names w = Some ["pubmed"; "uniprot"]) by (vm_compute; reflexivity).
  split; [|split].
  - destruct (tsearch_count_reads_integer Mock.search_service _ "pubmed" "cancer" w Hn)
      as (_ & H & _).
    apply H; vm_compute; reflexivity.
  - destruct (tsearch_count_reads_integer (Mock.constant "- 5") _ "pubmed" "cancer" w Hn)
      as (_ & H & _).
    apply H; vm_compute; reflexivity.
  - destruct (tsearch_count_reads_integer (Mock.constant "many") _ "pubmed" "cancer" w Hn)
      as (_ & _ & H).
    apply H; vm_compute; reflexivity.
Defined.

(** ** What the module never forgets *)

Section Keeping.

Variable net : nat -> Request -> Reply.

Lemma keeps_refl (w : World) : keeps w w.
Proof.
  repeat split; auto; exists []; now rewrite app_nil_r.
Qed.

Lemma keeps_trans (w1 w2 w3 : World) : keeps w1 w2 -> keeps w2 w3 -> keeps w1 w3.
Proof.
  intros (S1 & F1 & D1 & [e1 R1] & [x1 W1]) (S2 & F2 & D2 & [e2 R2] & [x2 W2]).
  split; [|split; [|split; [|split]]]; auto.
  - exists (e1 ++ e2). now rewrite R2, R1, app_assoc.
  - exists (x1 ++ x2). now rewrite W2, W1, app_assoc.
Qed.

Lemma keeps_sent (url : string) (post : option (list (string * string))) (w : World) :
  keeps w (sent net url post w).
Proof.
  unfold sent. split; [|split; [|split; [|split]]];
    cbn [_search_db_names _fetch_db_names _fetch_db_fields dispatched warned]; auto.
  - eexists. reflexivity.
  - exists []. now rewrite app_nil_r.
Qed.

Lemma keeps_warned (msg : string) (w : World) : keeps w (set_warned (warned w ++ [msg]) w).
Proof.
  split; [|split; [|split; [|split]]];
    cbn [set_warned _search_db_names _fetch_db_names _fetch_db_fields dispatched warned]; auto.
  - exists []. now rewrite app_nil_r.
  - eexists. reflexivity.
Qed.

Lemma keeps_clock (t : float) (tm : float -> float -> float) (w : World) :
  keeps w (set_timer tm (set_clock t w)).
Proof.
  split; [|split; [|split; [|split]]];
    cbn [set_timer set_clock _search_db_names _fetch_db_names _fetch_db_fields
         dispatched warned]; auto;
    exists []; now rewrite app_nil_r.
Qed.

Lemma keeps_fields (db : string) (l : list string) (w : World) :
  keeps w (set_fetch_db_fields (<[db := l]> (_fetch_db_fields w)) w).
Proof.
  split; [|split; [|split; [|split]]];
    cbn [set_fetch_db_fields _search_db_names _fetch_db_names _fetch_db_fields dispatched warned];
    auto.
  - intros db' H. destruct (decide (db = db')) as [->|Hne].
    + rewrite lookup_insert_eq. eauto.
    + now rewrite lookup_insert_ne.
  - exists []. now rewrite app_nil_r.
  - exists []. now rewrite app_nil_r.
Qed.

Lemma keeping_ret {A} (a : A) : keeping (ret a).
Proof. intros w. apply keeps_refl. Qed.

Lemma keeping_raise {A} (e : Exn) : keeping (@raise A e).
Proof. intros w. apply keeps_refl. Qed.

Lemma keeping_gets {A} (f : World -> A) : keeping (gets f).
Proof. intros w. apply keeps_refl. Qed.

Lemma keeping_warn (msg : string) : keeping (warnings_warn msg).
Proof. intros w. apply keeps_warned. Qed.

Lemma keeping_open (url : string) (post : option (list (string * string))) :
  keeping (_open net url post).
Proof. intros w. rewrite open_gate. apply keeps_sent. Qed.

Lemma keeping_bind {A B} (c : M A) (k : A -> M B) :
  keeping c -> (forall a, keeping (k a)) -> keeping (bind c k).
Proof.
  intros Hc Hk w. unfold bind. specialize (Hc w).
  destruct (c w) as [[a|e] w1]; cbn [snd] in *; [|exact Hc].
  exact (keeps_trans _ _ _ Hc (Hk a w1)).
Qed.

Lemma keeping_get_fields (url : string) : keeping (_get_fields net url).
Proof.
  unfold _get_fields. apply keeping_bind; [apply keeping_open | intros; apply keeping_ret].
Qed.

(** A list of databases is stored only when none is cached. *)
Lemma keeping_search_db_names : keeping (search_db_names net).
Proof.
  intros w. pose proof (search_db_names_spec net w) as Hs. cbv zeta in Hs.
  destruct (_search_db_names w) as [names|] eqn:Hc.
  - rewrite Hs. apply keeps_refl.
  - destruct (passes _).
    + rewrite Hs. cbn [snd]. apply keeps_trans with (sent net "http://togows.dbcls.jp/search" None w);
        [apply keeps_sent|].
      split; [|split; [|split; [|split]]];
        cbn [set_search_db_names _search_db_names _fetch_db_names _fetch_db_fields
             dispatched warned sent]; auto.
      * rewrite Hc. discriminate.
      * exists []. now rewrite app_nil_r.
      * exists []. now rewrite app_nil_r.
    + destruct Hs as [msg ->]. apply keeps_sent.
Qed.

Lemma keeping_fetch_db_names : keeping (fetch_db_names net).
Proof.
  intros w. unfold fetch_db_names, gets. unfold bind at 1.
  destruct (_fetch_db_names w) as [names|] eqn:Hc; [apply keeps_refl|].
  unfold _get_entry_dbs, _get_fields, bind. rewrite open_gate.
  destruct (gate _ _) as [h|e]; cbn [snd ret modify]; [|apply keeps_sent].
  apply keeps_trans with (sent net "http://togows.dbcls.jp/entry" None w); [apply keeps_sent|].
  split; [|split; [|split; [|split]]];
    cbn [set_fetch_db_names _search_db_names _fetch_db_names _fetch_db_fields
         dispatched warned sent]; auto.
  - rewrite Hc. discriminate.
  - exists []. now rewrite app_nil_r.
  - exists []. now rewrite app_nil_r.
Qed.

Lemma keeping_store_fields (db : string) (l : list string) :
  keeping (modify (fun w => set_fetch_db_fields (<[db := l]> (_fetch_db_fields w)) w)).
Proof. intros w. apply keeps_fields. Qed.

Ltac keep :=
  repeat first
    [ apply keeping_search_db_names | apply keeping_fetch_db_names
    | apply keeping_get_fields | apply keeping_open | apply keeping_store_fields
    | apply keeping_warn | apply keeping_ret | apply keeping_raise | apply keeping_gets
    | apply keeping_bind; [|intros ?]
    | match goal with
      | |- keeping (if ?b then _ else _) => destruct b
      | |- keeping (match ?x with _ => _ end) => destruct x
      end ].

Lemma keeping_tfetch (db : string) (id : PyId) (format field : option string) :
  keeping (tfetch net db id format field).
Proof.
  unfold tfetch, check_db, check_field, check_format, fetch_db_fields, fetch_db_formats,
    _get_entry_fields, _get_entry_formats.
  keep.
Qed.

Lemma keeping_tsearch_count (db query : string) : keeping (tsearch_count net db query).
Proof. unfold tsearch_count. keep. Qed.

Lemma keeping_tsearch (db query : string) (offset count : option Z) (format : option string) :
  keeping (tsearch net db query offset count format).
Proof. unfold tsearch. keep. Qed.

Lemma keeping_tconvert (data in_format out_format : string) :
  keeping (tconvert net data in_format out_format).
Proof. unfold tconvert. keep. Qed.

Lemma keeps_gen_step (g : Gen) (w : World) : keeps w (snd (gen_step net g w)).
Proof.
  destruct g as [db query batch|db query batch remain offset
                |db query batch remain offset ids|]; cbn [gen_step].
  - pose proof (keeping_tsearch_count db query w) as Hc.
    destruct (tsearch_count net db query w) as [[count|e] w1]; cbn [snd] in *; [|exact Hc].
    case_bool_decide; exact Hc.
  - case_bool_decide; [apply keeps_refl|].
    pose proof (keeping_tsearch db query (Some offset) (Some (Z.min batch remain)) None w) as Hc.
    destruct (tsearch net db query _ _ None w) as [[handle|e] w1]; cbn [snd] in *; [|exact Hc].
    case_bool_decide; exact Hc.
  - destruct ids; apply keeps_refl.
  - apply keeps_refl.
Qed.

(** X6.  Nothing is ever forgotten: in every world that comes after a
    world [w0], a list of search databases or of entry databases that was
    cached in [w0] is still cached, unchanged; a database whose fields
    were cached still has an entry in that cache; and the requests sent
    and the warnings given up to [w0] are still there, with the later
    ones after them. *)
Theorem caches_are_never_invalidated (w0 w : World) :
  evolves net w0 w -> keeps w0 w.
Proof.
  induction 1 as [|w t tm _ IH|w url post _ IH|w db id format field _ IH|w db query _ IH
                 |w db query offset count format _ IH|w data fi fo _ IH|w g _ IH].
  - apply keeps_refl.
  - exact (keeps_trans _ _ _ IH (keeps_clock t tm w)).
  - exact (keeps_trans _ _ _ IH (keeping_open url post w)).
  - exact (keeps_trans _ _ _ IH (keeping_tfetch db id format field w)).
  - exact (keeps_trans _ _ _ IH (keeping_tsearch_count db query w)).
  - exact (keeps_trans _ _ _ IH (keeping_tsearch db query offset count format w)).
  - exact (keeps_trans _ _ _ IH (keeping_tconvert data fi fo w)).
  - exact (keeps_trans _ _ _ IH (keeps_gen_step g w)).
Qed.

End Keeping.

Lemma caches_are_never_invalidated_witness :
  let m := Mock.search_service in
  let w0 := snd (tsearch_count m "pubmed" "nothing" (boot 0)) in
  let w := snd (tsearch m "uniprot" "cancer" None None None
                  (snd (tfetch m "pubmed" (IdStr "1") None None w0))) in
  _search_db_names w = Some ["pubmed"; "uniprot"].
Proof.
  intros m w0 w.
  assert (He : evolves m w0 w) by (apply ev_tsearch, ev_tfetch, ev_here).
  destruct (caches_are_never_invalidated m w0 w He) as (Hs & _).
  apply Hs. vm_compute. reflexivity.
Defined.

(** ** Lists that are asked for once *)

Section AskedOnce.

Variable net : nat -> Request -> Reply.

Lemma search_db_names_ok (w w' : World) (l : list string) :
  search_db_names net w = (Ok l, w') -> _search_db_names w' = Some l.
Proof.
  intros H. pose proof (search_db_names_spec net w) as Hs. cbv zeta in Hs.
  destruct (_search_db_names w) as [names|] eqn:Hc.
  - rewrite Hs in H. now injection H as <- <-.
  - destruct (passes _).
    + rewrite Hs in H. now injection H as <- <-.
    + destruct Hs as [msg Hs]. rewrite Hs in H. discriminate H.
Qed.

Lemma tsearch_ok_cached (db query : string) (offset count : option Z)
    (format : option string) (w w1 : World) (h : UndoHandle) :
  tsearch net db query offset count format w = (Ok h, w1) ->
  exists names, _search_db_names w1 = Some names.
Proof.
  intros H. unfold tsearch in H. unfold bind at 1 in H.
  destruct (search_db_names net w) as [[l|e] wa] eqn:Hsd; [|discriminate H].
  apply search_db_names_ok in Hsd.
  assert (Hrun : tsearch net db query offset count format wa = (Ok h, w1)).
  { unfold tsearch. unfold bind at 1.
    pose proof (search_db_names_spec net wa) as Hs. cbv zeta in Hs. rewrite Hsd in Hs.
    rewrite Hs. exact H. }
  pose proof (keeping_tsearch net db query offset count format wa) as (Hk & _).
  rewrite Hrun in Hk. exists l. now apply Hk.
Qed.

(** X7.  The list of search databases is asked for once.  After a call
    of [tsearch_count] or [tsearch] that returned normally, and whatever
    is called afterwards, every [tsearch_count] sends exactly one
    request, to its count URL, and every [tsearch] with an acceptable
    window sends exactly one request, to the URL of the search: the
    request for the list is never sent again. *)
Theorem search_list_is_asked_once (w0 w1 w : World) :
  (exists db query c, tsearch_count net db query w0 = (Ok c, w1)) \/
  (exists db query offset count format h,
     tsearch net db query offset count format w0 = (Ok h, w1)) ->
  evolves net w1 w ->
  forall db query,
    urls (snd (tsearch_count net db query w)) = urls w ++ [count_url db query] /\
    forall offset count format, ~ bad_window offset count ->
      urls (snd (tsearch net db query offset count format w))
        = urls w ++ [search_url db query offset count format].
Proof.
  intros Hfirst Hev db query.
  assert (Hn1 : exists names, _search_db_names w1 = Some names).
  { destruct Hfirst as [(db0 & q0 & c & H)|(db0 & q0 & o & c & f & h & H)].
    - apply (tsearch_count_trace net db0 q0 w0 w1 c H).
    - apply (tsearch_ok_cached db0 q0 o c f w0 w1 h H). }
  destruct Hn1 as [names Hn1].
  destruct (caches_are_never_invalidated net w1 w Hev) as (Hs & _).
  specialize (Hs names Hn1). split.
  - rewrite (tsearch_count_warm net names) by exact Hs. apply urls_sent_warned.
  - intros offset count format Hok.
    rewrite (tsearch_warm net names) by assumption. apply urls_sent_warned.
Qed.

Lemma fetch_db_names_ok (w w' : World) (l : list string) :
  fetch_db_names net w = (Ok l, w') -> _fetch_db_names w' = Some l.
Proof.
  unfold fetch_db_names, gets. unfold bind at 1.
  destruct (_fetch_db_names w) as [names|] eqn:Hc.
  - intros [= <- <-]. exact Hc.
  - unfold _get_entry_dbs, _get_fields, bind. rewrite open_gate.
    destruct (gate _ _) as [h|e]; cbn [ret modify]; [|discriminate].
    now intros [= <- <-].
Qed.

Lemma fetch_db_names_warm (w : World) (l : list string) :
  _fetch_db_names w = Some l -> fetch_db_names net w = (Ok l, w).
Proof. intros H. unfold fetch_db_names, gets, bind. now rewrite H. Qed.

Lemma keeping_check_field (db : string) (field : option string) :
  keeping (check_field net db field).
Proof.
  unfold check_field, fetch_db_fields, _get_entry_fields.
  repeat first
    [ apply keeping_get_fields | apply keeping_store_fields
    | apply keeping_warn | apply keeping_ret | apply keeping_gets
    | apply keeping_bind; [|intros ?]
    | match goal with
      | |- keeping (if ?b then _ else _) => destruct b
      | |- keeping (match ?x with _ => _ end) => destruct x
      end ].
Qed.

Lemma keeping_check_format (db : string) (format : option string) :
  keeping (check_format net db format).
Proof.
  unfold check_format, fetch_db_formats, _get_entry_formats.
  repeat first
    [ apply keeping_get_fields | apply keeping_store_fields
    | apply keeping_raise | apply keeping_ret | apply keeping_gets
    | apply keeping_bind; [|intros ?]
    | match goal with
      | |- keeping (if ?b then _ else _) => destruct b
      | |- keeping (match ?x with _ => _ end) => destruct x
      end ].
Qed.

Lemma check_field_ok (db : string) (field : option string) (w w' : World) :
  truthy field = true ->
  check_field net db field w = (Ok tt, w') ->
  is_Some (_fetch_db_fields w' !! db).
Proof.
  intros Hf. unfold check_field. rewrite Hf. unfold fetch_db_fields, gets.
  unfold bind at 1 2.
  destruct (_fetch_db_fields w !! db) as [fs|] eqn:Hc.
  - unfold ret, warnings_warn, modify.
    destruct (negb _); intros [= <-]; cbn [set_warned _fetch_db_fields]; rewrite Hc; eauto.
  - unfold _get_entry_fields, _get_fields, bind. rewrite open_gate.
    destruct (gate _ _) as [h|e]; cbn [ret modify]; [|discriminate].
    unfold warnings_warn, modify, ret.
    destruct (negb _); intros [= <-];
      cbn [set_warned set_fetch_db_fields _fetch_db_fields];
      rewrite lookup_insert_eq; eauto.
Qed.

(** X8.  The list of entry databases and the list of fields of a
    database are asked for once.  After a fetch with a field that
    returned normally, and whatever is called afterwards, every fetch
    from the same database without a format, with or without a field,
    sends exactly one request, the one for the entry. *)
Theorem entry_lists_are_asked_once (db : string) (id : PyId) (format field : option string)
    (h : UndoHandle) (w0 w1 w : World) :
  tfetch net db id format field w0 = (Ok h, w1) ->
  truthy field = true ->
  evolves net w1 w ->
  forall id' field',
    urls (snd (tfetch net db id' None field' w))
      = urls w ++ [fetch_url db id' None field'].
Proof.
  intros H Hf Hev id' field'.
  (* what the first fetch has left in the caches *)
  assert (Hleft : exists names,
    _fetch_db_names w1 = Some names /\ db ∈ names /\ is_Some (_fetch_db_fields w1 !! db)).
  { unfold tfetch in H. unfold bind at 1 in H. unfold check_db in H. unfold bind at 1 in H.
    destruct (fetch_db_names net w0) as [[names|e] wa] eqn:Hn; [|discriminate H].
    apply fetch_db_names_ok in Hn.
    case_bool_decide as Hdb; cbn [negb] in H; [|discriminate H]. unfold ret in H.
    unfold bind at 1 in H.
    destruct (check_field net db field wa) as [[[]|e] wb] eqn:Hcf; [|discriminate H].
    pose proof (keeping_check_field db field wa) as (_ & Ka & _). rewrite Hcf in Ka.
    unfold bind at 1 in H.
    pose proof (keeping_check_format db format wb) as (_ & Kb & Db & _).
    destruct (check_format net db format wb) as [[[]|e] wc]; [|discriminate H].
    pose proof (keeping_open net (fetch_url db id format field) None wc) as (_ & Kc & Dc & _).
    rewrite H in Kc, Dc. cbn [snd] in *.
    exists names. split; [auto|]. split; [exact Hdb|].
    apply Dc, Db. exact (check_field_ok db field wa wb Hf Hcf). }
  destruct Hleft as (names & Hn1 & Hdb & Hfs1).
  destruct (caches_are_never_invalidated net w1 w Hev) as (_ & Kn & Kf & _).
  specialize (Kn names Hn1). destruct (Kf db Hfs1) as [fs Hfs].
  (* the later fetch *)
  unfold tfetch, check_db. unfold bind at 1 2. rewrite (fetch_db_names_warm w names Kn).
  rewrite bool_decide_eq_true_2 by exact Hdb. cbn [negb]. unfold ret at 1.
  unfold bind at 1. unfold check_field, fetch_db_fields, gets.
  destruct (truthy field').
  - unfold bind at 1 2. rewrite Hfs. unfold ret at 1.
    unfold warnings_warn, modify, ret.
    destruct (negb _); unfold check_format, bind; cbn [truthy]; unfold ret;
      rewrite open_gate; cbn [snd]; rewrite urls_sent; reflexivity.
  - unfold check_format, bind. cbn [truthy]. unfold ret. rewrite open_gate. cbn [snd].
    apply urls_sent.
Qed.

(** X9.  An answer to a discovery request that [_open] refuses is not
    cached.  When the list of entry databases is not cached and the body
    of the answer to the request for it does not pass the checks, [tfetch]
    raises the [IOError] of [_open], has sent only that request, and
    leaves the cache empty, so that the next call asks again; and the
    same holds of [tsearch_count] and the list of search databases. *)
Theorem refused_discovery_is_not_cached (db query : string) (id : PyId)
    (format field : option string) (w : World) :
  (_fetch_db_names w = None ->
   passes (answer net "http://togows.dbcls.jp/entry" None w) = false ->
   let r := tfetch net db id format field w in
   exists msg,
     fst r = Raised (IOError msg) /\
     _fetch_db_names (snd r) = None /\
     urls (snd r) = urls w ++ ["http://togows.dbcls.jp/entry"]) /\
  (_search_db_names w = None ->
   passes (answer net "http://togows.dbcls.jp/search" None w) = false ->
   let r := tsearch_count net db query w in
   exists msg,
     fst r = Raised (IOError msg) /\
     _search_db_names (snd r) = None /\
     urls (snd r) = urls w ++ ["http://togows.dbcls.jp/search"]).
Proof.
  split; intros Hc Hp r; subst r.
  - destruct (gate_fails "http://togows.dbcls.jp/entry" _ Hp) as [msg Hg].
    exists msg.
    assert (Heq : tfetch net db id format field w
                  = (Raised (IOError msg), sent net "http://togows.dbcls.jp/entry" None w)).
    { unfold tfetch, check_db, fetch_db_names, gets, _get_entry_dbs, _get_fields, bind.
      rewrite Hc. cbv beta iota. rewrite open_gate, Hg. reflexivity. }
    rewrite Heq. cbn [fst snd]. split; [reflexivity|]. split; [exact Hc | apply urls_sent].
  - pose proof (search_db_names_spec net w) as Hs. cbv zeta in Hs. rewrite Hc, Hp in Hs.
    destruct Hs as [msg Hs]. exists msg.
    assert (Heq : tsearch_count net db query w
                  = (Raised (IOError msg), sent net "http://togows.dbcls.jp/search" None w)).
    { unfold tsearch_count. unfold bind at 1. now rewrite Hs. }
    rewrite Heq. cbn [fst snd]. split; [reflexivity|]. split; [exact Hc | apply urls_sent].
Qed.

End AskedOnce.

Lemma search_list_is_asked_once_witness :
  let m := Mock.search_service in
  let w1 := snd (tsearch_count m "pubmed" "nothing" (boot 0)) in
  let w := snd (tfetch m "pubmed" (IdStr "1") None None w1) in
  urls (snd (tsearch_count m "pubmed" "cancer" w))
    = urls w ++ ["http://togows.dbcls.jp/search/pubmed/cancer/count"].
Proof.
  intros m w1 w.
  assert (H : tsearch_count m "pubmed" "nothing" (boot 0) = (Ok 0, w1))
    by (vm_compute; reflexivity).
  assert (He : evolves m w1 w) by (apply ev_tfetch, ev_here).
  apply (search_list_is_asked_once m (boot 0) w1 w); [|exact He].
  left. now exists "pubmed", "nothing", 0.
Defined.

Lemma entry_lists_are_asked_once_witness :
  let m := Mock.entry_service in
  let w1 := snd (tfetch m "pubmed" (IdStr "16381885") None (Some "length") (boot 0)) in
  urls (snd (tfetch m "pubmed" (IdStr "16381885") None (Some "au") w1))
    = urls w1 ++ ["http://togows.dbcls.jp/entry/pubmed/16381885/au"].
Proof.
  intros m w1.
  assert (H : tfetch m "pubmed" (IdStr "16381885") None (Some "length") (boot 0)
              = (Ok (pushed_back "42"), w1)) by (vm_compute; reflexivity).
  apply (entry_lists_are_asked_once m "pubmed" _ None (Some "length") _ (boot 0) w1 w1 H
           eq_refl (ev_here m w1)).
Defined.

Lemma refused_discovery_is_not_cached_witness :
  let r := tfetch (Mock.constant "") "pubmed" (IdStr "16381885") None None (boot 0) in
  exists msg,
    fst r = Raised (IOError msg) /\
    _fetch_db_names (snd r) = None /\
    urls (snd r) = ["http://togows.dbcls.jp/entry"].
Proof.
  destruct (refused_discovery_is_not_cached (Mock.constant "") "pubmed" "cancer"
              (IdStr "16381885") None None (boot 0)) as [H _].
  apply H; vm_compute; reflexivity.
Defined.

(** ** The pager in general *)

Section PagerInGeneral.

Variable net : nat -> Request -> Reply.

(** The loop, when every window comes back as asked. *)
Lemma loop_served (names : list string) (db query : string) (n : nat) :
  forall batch remain offset w,
    _search_db_names w = Some names ->
    0 < batch -> 0 <= remain -> 0 < offset -> (Z.to_nat remain <= n)%nat ->
    let ws := windows n batch remain offset in
    served net db query (length (dispatched w)) ws ->
    exists fuel w2,
      (fuel <= Z.to_nat (3 * remain) + 1)%nat /\
      drain net fuel (GWhile db query batch remain offset) w
        = (harvest net db query (length (dispatched w)) ws, Exhausted, w2) /\
      urls w2 = urls w ++ window_urls db query ws /\
      Z.of_nat (length (harvest net db query (length (dispatched w)) ws)) = remain.
Proof.
  induction n as [|n IH]; intros batch remain offset w Hn Hb Hr Ho Hm ws Hs; subst ws.
  - assert (remain = 0) as -> by lia.
    exists 1%nat, w. cbn [windows harvest window_urls fmap list_fmap length].
    rewrite app_nil_r. split; [lia|]. split; [|split; reflexivity].
    cbn [drain gen_step]. now rewrite bool_decide_eq_true_2 by reflexivity.
  - cbn [windows] in *. case_bool_decide as Hz.
    + subst remain. exists 1%nat, w. cbn [harvest window_urls fmap list_fmap length].
      rewrite app_nil_r. split; [lia|]. split; [|split; reflexivity].
      cbn [drain gen_step]. now rewrite bool_decide_eq_true_2 by reflexivity.
    + cbn [served] in Hs. destruct Hs as (Hp & Hlen & Hrest).
      set (k := Z.min batch remain) in *.
      set (u := window_url db query offset k) in *.
      set (b := body (net (length (dispatched w)) (GET u))) in *.
      set (W := sent net u None (search_warned db names w)).
      destruct (sent_search_warned net names db u w) as (Hl & Hu & Hn').
      fold W in Hl, Hu, Hn'. rewrite Hn in Hn'.
      assert (Hk : 0 < k) by (subst k; lia).
      assert (Hkr : k <= remain) by (subst k; lia).
      rewrite <- Hl in Hrest.
      destruct (IH k (remain - k) (offset + k) W Hn' Hk ltac:(lia) ltac:(lia) ltac:(lia) Hrest)
        as (fuel & w2 & Hfuel & Hd & Hurls & Hcount).
      exists (Datatypes.S (length (ids_of b) + Datatypes.S fuel)), w2.
      cbn [harvest window_urls fmap list_fmap fst snd]. fold u b.
      rewrite <- Hl. split; [lia|]. split; [|split].
      * pose proof (round_good net names db query batch remain offset fuel w Hn Hz Ho Hk) as R.
        cbv zeta in R. fold k u b W in R. rewrite (R Hp Hlen), Hd. reflexivity.
      * rewrite Hurls, Hu, <- app_assoc. reflexivity.
      * rewrite length_app. lia.
Qed.

(** X10.  The pager for any count and any batch size.  When the count is
    [count > 0], the batch size is positive, and the service answers each
    window of the plan with a body that passes the checks of [_open] and
    has as many identifiers as the window asks for, the iteration ends
    normally, for every step budget of at least [3 * count + 2]: it has yielded
    the identifiers of the windows in order, [count] in all, and has sent
    after the count exactly the requests for the windows of the plan, in
    order. *)
Theorem tsearch_iter_pages_all (db query : string) (batch count : Z) (w w1 : World) :
  tsearch_count net db query w = (Ok count, w1) ->
  0 < count -> 0 < batch ->
  let n := length (dispatched w1) in
  served net db query n (plan batch count) ->
  exists w2,
    (forall fuel, (Z.to_nat (3 * count) + 2 <= fuel)%nat ->
       drain net fuel (tsearch_iter db query batch) w
         = (harvest net db query n (plan batch count), Exhausted, w2)) /\
    Z.of_nat (length (harvest net db query n (plan batch count))) = count /\
    urls w2 = urls w1 ++ window_urls db query (plan batch count).
Proof.
  intros H Hc Hb n Hs.
  destruct (tsearch_count_trace net db query w w1 count H) as [_ [names Hn]].
  destruct (loop_served names db query (Z.to_nat count) batch count 1 w1 Hn Hb
              ltac:(lia) ltac:(lia) ltac:(lia) Hs) as (fuel & w2 & Hfuel & Hd & Hu & Hl).
  exists w2. split; [|split; assumption].
  intros fuel' Hf. replace fuel' with (Datatypes.S fuel + (fuel' - Datatypes.S fuel))%nat by lia.
  apply drain_more; [|discriminate].
  rewrite (drain_start net db query batch count fuel w w1 H) by lia. exact Hd.
Qed.

(** The sizes of the windows: full batches, and then what is left. *)
Lemma windows_sizes (n : nat) :
  forall batch remain offset,
    0 < batch -> 0 <= remain -> (Z.to_nat remain <= n)%nat ->
    snd <$> windows n batch remain offset
      = replicate (Z.to_nat (remain / batch)) batch
        ++ (if bool_decide (remain mod batch = 0) then [] else [remain mod batch]).
Proof.
  induction n as [|n IH]; intros batch remain offset Hb Hr Hm.
  - assert (remain = 0) as -> by lia. cbn [windows fmap list_fmap].
    rewrite Z.div_0_l, Z.mod_0_l by lia. reflexivity.
  - cbn [windows]. case_bool_decide as Hz.
    + subst remain. rewrite Z.div_0_l, Z.mod_0_l by lia. reflexivity.
    + cbn [fmap list_fmap snd]. destruct (Z_lt_le_dec remain batch) as [Hlt|Hge].
      * rewrite Z.min_r by lia. replace (remain - remain) with 0 by lia.
        rewrite Z.div_small, Z.mod_small by lia.
        rewrite bool_decide_eq_false_2 by exact Hz.
        destruct n; cbn [windows]; [reflexivity|].
        rewrite bool_decide_eq_true_2 by reflexivity. reflexivity.
      * rewrite Z.min_l by lia.
        rewrite (IH batch (remain - batch) (offset + batch)) by lia.
        replace (remain - batch) with (remain + (-1) * batch) by lia.
        rewrite Z.div_add, Z.mod_add by lia.
        assert (1 <= remain / batch) by (apply Z.div_le_lower_bound; lia).
        replace (Z.to_nat (remain / batch))
          with (Datatypes.S (Z.to_nat (remain / batch + -1))) by lia.
        reflexivity.
Qed.

Lemma windows_tile (n : nat) :
  forall batch remain offset, tiles offset (windows n batch remain offset).
Proof.
  induction n as [|n IH]; intros batch remain offset; cbn [windows]; [exact I|].
  case_bool_decide; [exact I|]. split; [reflexivity | apply IH].
Qed.

(** X11.  The windows that the pager asks for.  For a positive batch size
    they are [count / batch] windows of the batch size, followed by one
    window with the remainder when the batch size does not divide the
    count; the first starts at offset 1 and each of the others where the
    one before it ends. *)
Theorem plan_is_full_batches_then_rest (batch count : Z) :
  0 < batch -> 0 <= count ->
  snd <$> plan batch count
    = replicate (Z.to_nat (count / batch)) batch
      ++ (if bool_decide (count mod batch = 0) then [] else [count mod batch]) /\
  tiles 1 (plan batch count).
Proof.
  intros Hb Hc. split.
  - apply windows_sizes; lia.
  - apply windows_tile.
Qed.

(** An iteration that ends normally from inside the loop has yielded what
    was left to yield. *)
Lemma loop_yields_remain (fuel : nat) :
  forall g w ys w2,
    drain net fuel g w = (ys, Exhausted, w2) ->
    match g with
    | GStart _ _ _ => True
    | GWhile _ _ _ remain _ => Z.of_nat (length ys) = remain
    | GFor _ _ batch remain _ ids => Z.of_nat (length ys) = Z.of_nat (length ids) + (remain - batch)
    | GEnd => ys = []
    end.
Proof.
  induction fuel as [|fuel IH]; intros g w ys w2 H; [discriminate H|].
  cbn [drain] in H.
  destruct g as [db query batch|db query batch remain offset
                |db query batch remain offset ids|]; cbn [gen_step] in H.
  - exact I.
  - case_bool_decide as Hz; [injection H as <- _; cbn; lia|].
    destruct (tsearch net db query _ _ None w) as [[h|e] wa]; [|discriminate H].
    case_bool_decide as Hlen; [|discriminate H].
    apply IH in H. lia.
  - destruct ids as [|x ids].
    + apply IH in H. cbn [length]. lia.
    + destruct (drain net fuel _ w) as [[xs out] w3] eqn:Hd.
      injection H as <- -> <-. apply IH in Hd. cbn [length] in *. lia.
  - now injection H as <- _.
Qed.

(** X12.  Whatever the service answers and whatever the batch size, an
    iteration over [tsearch_iter] that ends normally has yielded exactly
    as many identifiers as the count request reported. *)
Theorem tsearch_iter_yields_count (db query : string) (batch : Z) (fuel : nat)
    (w w2 : World) (ys : list string) :
  drain net fuel (tsearch_iter db query batch) w = (ys, Exhausted, w2) ->
  exists count w1,
    tsearch_count net db query w = (Ok count, w1) /\
    Z.of_nat (length ys) = count.
Proof.
  intros H. destruct fuel as [|fuel]; [discriminate H|].
  cbn [drain tsearch_iter gen_step] in H.
  destruct (tsearch_count net db query w) as [[count|e] w1] eqn:Hc; [|discriminate H].
  exists count, w1. split; [reflexivity|].
  case_bool_decide as Hz.
  - injection H as <- _. subst count. reflexivity.
  - exact (loop_yields_remain fuel _ _ _ _ H).
Qed.

(** X13.  A batch size that is not positive, or a count that the service
    reports as negative, stops the pager at the first window: it yields
    nothing, sends no request after the count, and the iteration ends
    with the [ValueError] of [tsearch] about the count of a window. *)
Theorem tsearch_iter_refuses_empty_window (db query : string) (batch count : Z)
    (w w1 : World) :
  tsearch_count net db query w = (Ok count, w1) ->
  count <> 0 -> Z.min batch count <= 0 ->
  forall fuel, (2 <= fuel)%nat ->
    exists w2,
      drain net fuel (tsearch_iter db query batch) w
        = ([], Failed (ValueError "Count should be at least one"), w2) /\
      dispatched w2 = dispatched w1.
Proof.
  intros H Hc Hk fuel Hf.
  destruct (tsearch_count_trace net db query w w1 count H) as [_ [names Hn]].
  exists (search_warned db names w1). split.
  - replace fuel with (2 + (fuel - 2))%nat by lia. apply drain_more; [|discriminate].
    rewrite (drain_start net db query batch count 1 w w1 H Hc).
    cbn [drain gen_step]. rewrite bool_decide_eq_false_2 by exact Hc.
    unfold tsearch. unfold bind at 1.
    pose proof (search_db_names_spec net w1) as Hs. cbv zeta in Hs. rewrite Hn in Hs.
    rewrite Hs. unfold bind, warnings_warn, modify, ret, raise, search_warned.
    rewrite (bool_decide_eq_false_2 (1 <= 0)) by lia.
    rewrite (bool_decide_eq_true_2 (Z.min batch count <= 0)) by exact Hk.
    case_bool_decide; reflexivity.
  - unfold search_warned. case_bool_decide; reflexivity.
Qed.

End PagerInGeneral.

Lemma tsearch_iter_pages_all_witness :
  exists w2,
    drain flu_service 23 (tsearch_iter "pubmed" "flu" 3) (boot 0)
      = (["a"; "b"; "c"; "d"; "e"; "f"; "g"], Exhausted, w2) /\
    urls w2 = ["http://togows.dbcls.jp/search";
               "http://togows.dbcls.jp/search/pubmed/flu/count";
               "http://togows.dbcls.jp/search/pubmed/flu/1,3";
               "http://togows.dbcls.jp/search/pubmed/flu/4,3";
               "http://togows.dbcls.jp/search/pubmed/flu/7,1"].
Proof.
  assert (H : tsearch_count flu_service "pubmed" "flu" (boot 0)
              = (Ok 7, snd (tsearch_count flu_service "pubmed" "flu" (boot 0))))
    by (vm_compute; reflexivity).
  destruct (tsearch_iter_pages_all flu_service "pubmed" "flu" 3 7 _ _ H)
    as (w2 & Hrun & _ & Hu); [reflexivity | reflexivity | vm_compute; tauto |].
  exists w2. split.
  - rewrite (Hrun 23%nat (le_n _)). vm_compute. reflexivity.
  - rewrite Hu. vm_compute. reflexivity.
Defined.

Lemma plan_is_full_batches_then_rest_witness :
  snd <$> plan 100 250 = [100; 100; 50] /\ tiles 1 (plan 100 250).
Proof.
  destruct (plan_is_full_batches_then_rest 100 250) as [Hs Ht];
    [reflexivity | discriminate |].
  split; [rewrite Hs; reflexivity | exact Ht].
Defined.

Lemma tsearch_iter_yields_count_witness :
  exists count w1,
    tsearch_count flu_service "pubmed" "flu" (boot 0) = (Ok count, w1) /\
    Z.of_nat (length ["a"; "b"; "c"; "d"; "e"; "f"; "g"]) = count.
Proof.
  apply (tsearch_iter_yields_count flu_service "pubmed" "flu" 3 20 (boot 0)
           (snd (drain flu_service 20 (tsearch_iter "pubmed" "flu" 3) (boot 0)))).
  vm_compute. reflexivity.
Defined.

Lemma tsearch_iter_refuses_empty_window_witness :
  exists w2,
    drain flu_service 2 (tsearch_iter "pubmed" "flu" 0) (boot 0)
      = ([], Failed (ValueError "Count should be at least one"), w2) /\
    dispatched w2 = dispatched (snd (tsearch_count flu_service "pubmed" "flu" (boot 0))).
Proof.
  assert (H : tsearch_count flu_service "pubmed" "flu" (boot 0)
              = (Ok 7, snd (tsearch_count flu_service "pubmed" "flu" (boot 0))))
    by (vm_compute; reflexivity).
  apply (tsearch_iter_refuses_empty_window flu_service "pubmed" "flu" 0 7 _ _ H);
    [discriminate | discriminate | apply le_n].
Defined.

(** ** Discovery lists *)

Section DiscoveryLists.

Variable net : nat -> Request -> Reply.

Lemma words_cons (c : ascii) (s : string) :
  PyStr.words (String c s) =
  let '(t, ts) := PyStr.words s in
  if PyStr.is_space c then (EmptyString, PyStr.cons_token t ts) else (String c t, ts).
Proof. reflexivity. Qed.

Lemma words_rstrip (s : string) : PyStr.words (PyStr.rstrip s) = PyStr.words s.
Proof.
  induction s as [|c r IH]; [reflexivity|].
  cbn [PyStr.rstrip]. destruct (PyStr.rstrip r) as [|c' r'] eqn:Hr.
  - rewrite (words_cons c r), <- IH.
    destruct (PyStr.is_space c) eqn:Hc; [reflexivity|].
    rewrite words_cons, Hc. reflexivity.
  - rewrite (words_cons c r), (words_cons c (String c' r')), IH. reflexivity.
Qed.

Lemma split_space (c : ascii) (s : string) :
  PyStr.is_space c = true -> PyStr.split (String c s) = PyStr.split s.
Proof.
  intros Hc. unfold PyStr.split. cbn [PyStr.words].
  destruct (PyStr.words s) as [t ts]. now rewrite Hc.
Qed.

Lemma split_lstrip (s : string) : PyStr.split (PyStr.lstrip s) = PyStr.split s.
Proof.
  induction s as [|c r IH]; [reflexivity|].
  cbn [PyStr.lstrip]. destruct (PyStr.is_space c) eqn:Hc; [|reflexivity].
  now rewrite IH, split_space.
Qed.

(** Stripping a text before splitting it changes nothing. *)
Lemma split_strip (s : string) : PyStr.split (PyStr.strip s) = PyStr.split s.
Proof.
  unfold PyStr.strip. rewrite <- (split_lstrip s).
  unfold PyStr.split. now rewrite words_rstrip.
Qed.

Lemma words_names (s : string) :
  has_space (fst (PyStr.words s)) = false /\ Forall is_name (snd (PyStr.words s)).
Proof.
  induction s as [|c r [IHt IHts]]; [split; [reflexivity | constructor]|].
  cbn [PyStr.words]. destruct (PyStr.words r) as [t ts]. cbn [fst snd] in *.
  destruct (PyStr.is_space c) eqn:Hc; cbn [fst snd].
  - split; [reflexivity|]. destruct t as [|a t]; cbn [PyStr.cons_token]; [exact IHts|].
    constructor; [|exact IHts]. split; [discriminate | exact IHt].
  - split; [|exact IHts]. cbn [has_space]. now rewrite Hc, IHt.
Qed.

Lemma split_names (s : string) : Forall is_name (PyStr.split s).
Proof.
  unfold PyStr.split. destruct (words_names s) as [Ht Hts].
  destruct (PyStr.words s) as [t ts]. cbn [fst snd] in *.
  destruct t as [|a t]; cbn [PyStr.cons_token]; [exact Hts|].
  constructor; [|exact Hts]. split; [discriminate | exact Ht].
Qed.

Lemma words_name_then_space (x : string) (c : ascii) (r : string) :
  has_space x = false -> PyStr.is_space c = true ->
  PyStr.words (x +:+ String c r) = (x, PyStr.split r).
Proof.
  intros Hx Hc. induction x as [|a x IH].
  - cbn [String.append PyStr.words]. unfold PyStr.split.
    destruct (PyStr.words r) as [t ts]. now rewrite Hc.
  - cbn [has_space] in Hx. apply orb_false_iff in Hx as [Ha Hx].
    cbn [String.append PyStr.words]. rewrite (IH Hx), Ha. reflexivity.
Qed.

Lemma split_listing (names : list string) :
  Forall is_name names -> PyStr.split (listing names) = names.
Proof.
  induction 1 as [|x names [Hne Hx] _ IH]; [reflexivity|].
  cbn [listing]. unfold nl. cbn [String.append].
  unfold PyStr.split at 1.
  rewrite (words_name_then_space x _ _ Hx) by reflexivity.
  rewrite IH. destruct x; [now destruct Hne | reflexivity].
Qed.

(** X14.  What [_get_fields] returns.  It sends one request, and when
    the body of the answer passes the checks of [_open] it returns the
    words of the body: the maximal runs of characters that are not white
    space, in order, so that every one of them is a non-empty text
    without white space.  A body of white space only gives the empty
    list. *)
Theorem get_fields_returns_words (url : string) (w : World) :
  let b := answer net url None w in
  passes b = true ->
  _get_fields net url w = (Ok (PyStr.split b), sent net url None w) /\
  Forall is_name (PyStr.split b) /\
  (PyStr.lstrip b = EmptyString -> PyStr.split b = []).
Proof.
  intros b Hp. split; [|split].
  - unfold _get_fields, bind. rewrite open_gate. fold b.
    rewrite (gate_passes url b Hp), read_pushed_back, split_strip. reflexivity.
  - apply split_names.
  - intros Hl. now rewrite <- split_lstrip, Hl.
Qed.

(** X15.  A discovery list read back.  When the service answers with
    names one per line, each a non-empty text without white space, and
    that body passes the checks of [_open], then [_get_fields] returns
    exactly these names, in their order. *)
Theorem get_fields_reads_listing (url : string) (names : list string) (w : World) :
  Forall is_name names ->
  answer net url None w = listing names ->
  passes (listing names) = true ->
  _get_fields net url w = (Ok names, sent net url None w).
Proof.
  intros Hn Ha Hp.
  destruct (get_fields_returns_words url w) as [Heq _]; [now rewrite Ha|].
  now rewrite Heq, Ha, split_listing.
Qed.

End DiscoveryLists.

Lemma get_fields_returns_words_witness :
  fst (_get_fields Mock.entry_service "http://togows.dbcls.jp/entry/pubmed?formats" (boot 0))
    = Ok ["xml"; "json"].
Proof.
  destruct (get_fields_returns_words Mock.entry_service
              "http://togows.dbcls.jp/entry/pubmed?formats" (boot 0)) as [Heq _];
    [vm_compute; reflexivity|].
  rewrite Heq. reflexivity.
Defined.

Lemma get_fields_reads_listing_witness :
  fst (_get_fields flu_service "http://togows.dbcls.jp/search" (boot 0))
    = Ok ["pubmed"; "uniprot"].
Proof.
  rewrite (get_fields_reads_listing flu_service "http://togows.dbcls.jp/search"
             ["pubmed"; "uniprot"] (boot 0)).
  - reflexivity.
  - repeat constructor; discriminate.
  - reflexivity.
  - reflexivity.
Defined.

(** * Bio.Ontology.IO *)

Section OntologyFormats.

Variable Obj : Type.
Variable as_handle : Obj -> string -> OntologyIO.Res Obj.
Variable write_file : OntologyIO.Writer -> Obj -> Obj -> option Obj -> option OntologyIO.Error.
Variable print_with :
  OntologyIO.Printer -> Obj -> option Obj -> Obj -> Obj -> option OntologyIO.Error.
Variable iterate : OntologyIO.Iterator -> Obj -> list Obj * option OntologyIO.Error.

Lemma writer_of_format (fmt : string) (c : OntologyIO.Writer) :
  OntologyIO._FormatToWriter !! fmt = Some c <->
  (fmt = "obo" /\ c = OntologyIO.OboWriter) \/ (fmt = "gml" /\ c = OntologyIO.GmlWriter).
Proof.
  unfold OntologyIO._FormatToWriter.
  rewrite !lookup_insert_Some, lookup_empty. split.
  - intros [[<- <-]|[? [[<- <-]|[? ?]]]]; auto. discriminate.
  - intros [[-> ->]|[-> ->]]; [left; auto | right; split; [discriminate | left; auto]].
Qed.

Lemma printer_of_format (fmt : string) :
  fmt <> "gml" -> fmt <> "png" -> fmt <> "txt" -> fmt <> "html" ->
  OntologyIO._FormatToPrinter !! fmt = None.
Proof.
  intros. unfold OntologyIO._FormatToPrinter.
  rewrite !lookup_insert_ne by congruence. apply lookup_empty.
Qed.

Lemma iterator_of_format (fmt : string) (c : OntologyIO.Iterator) :
  OntologyIO._FormatToIterator !! fmt = Some c <->
  (fmt = "obo" /\ c = OntologyIO.OboIterator) \/
  (fmt = "tsv" /\ c = OntologyIO.TsvIterator) \/
  (fmt = "gaf" /\ c = OntologyIO.GafIterator).
Proof.
  unfold OntologyIO._FormatToIterator.
  rewrite !lookup_insert_Some, lookup_empty. split.
  - intros [[<- <-]|[? [[<- <-]|[? [[<- <-]|[? ?]]]]]]; auto. discriminate.
  - intros [[-> ->]|[[-> ->]|[-> ->]]].
    + left; auto.
    + right; split; [discriminate|]. left; auto.
    + right; split; [discriminate|]. right; split; [discriminate|]. left; auto.
Qed.

(** X17.  [write] and [pretty_print] look the format up only after the
    handle has been opened for writing.  For a format name that is not
    empty and is not one of the names of their table, matched letter for
    letter, they enter the handle in mode [w] and leave it again, run no
    writer and no printer, and raise the [ValueError] that names the
    format. *)
Theorem unknown_format_opens_the_handle (fmt : string) (handle fp : Obj)
    (tr : list (OntologyIO.Event Obj)) :
  fmt <> EmptyString ->
  as_handle handle "w" = OntologyIO.Good fp ->
  (fmt <> "obo" -> fmt <> "gml" ->
   forall data version,
     OntologyIO.write Obj as_handle write_file data handle (OntologyIO.Text fmt) version tr
       = (OntologyIO.Bad (OntologyIO.ValueError ("Unknown format '" +:+ fmt +:+ "'")),
          tr ++ [OntologyIO.Enter Obj handle "w"; OntologyIO.Exit Obj handle])) /\
  (fmt <> "gml" -> fmt <> "png" -> fmt <> "txt" -> fmt <> "html" ->
   forall enrichment graph params,
     OntologyIO.pretty_print Obj as_handle print_with enrichment graph handle
       (OntologyIO.Text fmt) params tr
       = (OntologyIO.Bad (OntologyIO.ValueError ("Unknown format '" +:+ fmt +:+ "'")),
          tr ++ [OntologyIO.Enter Obj handle "w"; OntologyIO.Exit Obj handle])).
Proof.
  intros Hne Hh. split.
  - intros H1 H2 data version. unfold OntologyIO.write, OntologyIO.with_handle.
    rewrite bool_decide_eq_false_2 by exact Hne. rewrite Hh.
    assert (Hl : OntologyIO._FormatToWriter !! fmt = None).
    { destruct (OntologyIO._FormatToWriter !! fmt) as [c|] eqn:Hc; [|reflexivity].
      apply writer_of_format in Hc as [[-> _]|[-> _]]; congruence. }
    rewrite Hl. now rewrite <- app_assoc.
  - intros H1 H2 H3 H4 enrichment graph params.
    unfold OntologyIO.pretty_print, OntologyIO.with_handle.
    rewrite bool_decide_eq_false_2 by exact Hne. rewrite Hh.
    rewrite printer_of_format by assumption. now rewrite <- app_assoc.
Qed.

(** X18.  When [write] returns normally, the format was [obo] or [gml],
    and between entering the handle in mode [w] and leaving it exactly
    one writer ran: the writer of that format, on the data and the
    version given.  And a call whose format is not a string, or is the
    empty string, raises before anything is opened. *)
Theorem write_runs_one_writer (data handle : Obj) (file_format : OntologyIO.PyObj)
    (version : option Obj) (tr tr' : list (OntologyIO.Event Obj)) :
  (OntologyIO.write Obj as_handle write_file data handle file_format version tr
     = (OntologyIO.Good tt, tr') ->
   exists fmt c,
     file_format = OntologyIO.Text fmt /\
     ((fmt = "obo" /\ c = OntologyIO.OboWriter) \/ (fmt = "gml" /\ c = OntologyIO.GmlWriter)) /\
     tr' = tr ++ [OntologyIO.Enter Obj handle "w";
                  OntologyIO.WriteFile Obj c data version;
                  OntologyIO.Exit Obj handle]) /\
  (file_format = OntologyIO.NotText \/ file_format = OntologyIO.Text EmptyString ->
   exists e,
     OntologyIO.write Obj as_handle write_file data handle file_format version tr
       = (OntologyIO.Bad e, tr)).
Proof.
  split.
  - unfold OntologyIO.write, OntologyIO.with_handle.
    destruct file_format as [fmt|]; [|discriminate].
    case_bool_decide; [discriminate|].
    destruct (as_handle handle "w") as [fp|e]; [|discriminate].
    destruct (OntologyIO._FormatToWriter !! fmt) as [c|] eqn:Hc; [|discriminate].
    destruct (write_file c fp data version); [discriminate|].
    cbn [OntologyIO.of_option]. intros [= <-].
    exists fmt, c. split; [reflexivity|]. split; [now apply writer_of_format|].
    now rewrite <- !app_assoc.
  - intros [->| ->]; eexists; reflexivity.
Qed.

Lemma lower_of_keys (fmt : string) (c : OntologyIO.Iterator) :
  OntologyIO._FormatToIterator !! fmt = Some c -> fmt = OntologyIO.lower fmt.
Proof.
  intros H. apply iterator_of_format in H as [[-> _]|[[-> _]|[-> _]]]; reflexivity.
Qed.

(** X19.  [parse] is a generator: calling it does nothing, and its checks
    run at the first step.  A format that is not a string, the empty
    format, and a format that is not equal to its lower-case form end the
    iteration at that step with an exception, before the handle is
    opened; for the last of these the message is one fixed text, which
    does not show the format.  A lower-case format that is not in the
    table raises only after the handle has been entered in mode [rU],
    and left. *)
Theorem parse_checks_at_first_step (handle : Obj) (tr : list (OntologyIO.Event Obj))
    (fuel : nat) :
  let run f := OntologyIO.collect Obj as_handle iterate (S fuel)
                 (OntologyIO.parse Obj handle f) tr in
  run OntologyIO.NotText
    = ([], Some (Some (OntologyIO.TypeError "Need a string for the file format (lower case)")),
       tr) /\
  run (OntologyIO.Text EmptyString)
    = ([], Some (Some (OntologyIO.ValueError "Format required (lower case string)")), tr) /\
  (forall fmt, fmt <> OntologyIO.lower fmt ->
     run (OntologyIO.Text fmt)
       = ([], Some (Some (OntologyIO.ValueError
                            "Format string '<built-in function format>' should be lower case")),
          tr)) /\
  (forall fmt fp, fmt <> EmptyString -> fmt = OntologyIO.lower fmt ->
     fmt <> "obo" -> fmt <> "tsv" -> fmt <> "gaf" ->
     as_handle handle "rU" = OntologyIO.Good fp ->
     run (OntologyIO.Text fmt)
       = ([], Some (Some (OntologyIO.ValueError ("Unknown format '" +:+ fmt +:+ "'"))),
          tr ++ [OntologyIO.Enter Obj handle "rU"; OntologyIO.Exit Obj handle])).
Proof.
  intros run. subst run. cbn [OntologyIO.collect OntologyIO.parse OntologyIO.parse_step].
  split; [reflexivity|]. split; [reflexivity|]. split.
  - intros fmt Hl.
    assert (fmt <> EmptyString) by (intros ->; now apply Hl).
    rewrite bool_decide_eq_false_2 by assumption.
    rewrite (bool_decide_eq_false_2 (fmt = OntologyIO.lower fmt)) by exact Hl.
    reflexivity.
  - intros fmt fp Hne Hl H1 H2 H3 Hh.
    rewrite bool_decide_eq_false_2 by exact Hne.
    rewrite (bool_decide_eq_true_2 (fmt = OntologyIO.lower fmt)) by exact Hl.
    cbn [negb]. rewrite Hh.
    destruct (OntologyIO._FormatToIterator !! fmt) as [c|] eqn:Hc; [|reflexivity].
    apply iterator_of_format in Hc as [[-> _]|[[-> _]|[-> _]]]; congruence.
Qed.

Lemma collect_loop (handle : Obj) (els : list Obj) (ending : option OntologyIO.Error)
    (tr : list (OntologyIO.Event Obj)) (fuel : nat) :
  OntologyIO.collect Obj as_handle iterate (S (length els + fuel))
    (OntologyIO.PLoop Obj handle els ending) tr
  = (els, Some ending, tr ++ [OntologyIO.Exit Obj handle]).
Proof.
  induction els as [|el els IH].
  - cbn [OntologyIO.collect OntologyIO.parse_step OntologyIO.loop_step].
    destruct ending; reflexivity.
  - cbn [length Nat.add]. cbn [OntologyIO.collect OntologyIO.parse_step OntologyIO.loop_step].
    cbn [OntologyIO.collect OntologyIO.parse_step OntologyIO.loop_step] in IH.
    now rewrite IH.
Qed.

(** X20.  For the formats [obo], [tsv] and [gaf], an iteration over
    [parse] enters the handle in mode [rU], yields the elements of the
    iterator of the format, in their order, and leaves the handle; it
    ends the way the iterator ends, with its exception when it raises
    one, and then after the elements that came before. *)
Theorem parse_yields_the_elements (handle fp : Obj) (fmt : string) (c : OntologyIO.Iterator)
    (els : list Obj) (ending : option OntologyIO.Error)
    (tr : list (OntologyIO.Event Obj)) (fuel : nat) :
  (fmt = "obo" /\ c = OntologyIO.OboIterator) \/
  (fmt = "tsv" /\ c = OntologyIO.TsvIterator) \/
  (fmt = "gaf" /\ c = OntologyIO.GafIterator) ->
  as_handle handle "rU" = OntologyIO.Good fp ->
  iterate c fp = (els, ending) ->
  OntologyIO.collect Obj as_handle iterate (S (length els + fuel))
    (OntologyIO.parse Obj handle (OntologyIO.Text fmt)) tr
  = (els, Some ending,
     tr ++ [OntologyIO.Enter Obj handle "rU"; OntologyIO.Exit Obj handle]).
Proof.
  intros Hc Hh Hit. apply iterator_of_format in Hc.
  pose proof (lower_of_keys fmt c Hc) as Hl.
  assert (Hne : fmt <> EmptyString).
  { intros ->. apply iterator_of_format in Hc as [[? _]|[[? _]|[? _]]]; discriminate. }
  pose proof (collect_loop handle els ending (tr ++ [OntologyIO.Enter Obj handle "rU"]) fuel)
    as Hloop.
  rewrite <- app_assoc in Hloop. cbn [app] in Hloop. rewrite <- Hloop.
  destruct els as [|el els];
    cbn [length Nat.add OntologyIO.collect OntologyIO.parse OntologyIO.parse_step];
    rewrite bool_decide_eq_false_2 by exact Hne;
    rewrite (bool_decide_eq_true_2 (fmt = OntologyIO.lower fmt)) by exact Hl;
    cbn [negb]; rewrite Hh, Hc, Hit; reflexivity.
Qed.

End OntologyFormats.

(** * The format list of a database *)

Section FormatList.

Variable net : nat -> Request -> Reply.

Lemma stable_no_formats : stable net (fun w => _fetch_db_formats w = ∅).
Proof. split; intros; assumption. Qed.

Ltac untouched :=
  repeat first
    [ apply preserves_ret | apply preserves_raise | apply preserves_gets
    | apply (preserves_warn net _ stable_no_formats)
    | apply (preserves_open net _ stable_no_formats)
    | apply preserves_fill; intros ? ?; assumption
    | apply preserves_bind; [|intros ?]
    | match goal with
      | |- preserves _ (if ?b then _ else _) => destruct b
      | |- preserves _ (match ?x with _ => _ end) => destruct x
      end ].

Lemma urls_set_fields (v : gmap string (list string)) (w : World) :
  urls (set_fetch_db_fields v w) = urls w.
Proof. reflexivity. Qed.

Lemma checks_leave_formats_empty (db : string) (field : option string) :
  preserves (fun w => _fetch_db_formats w = ∅) (check_db net db >> check_field net db field).
Proof.
  unfold check_db, check_field, fetch_db_names, fetch_db_fields.
  untouched.
Qed.

(** X16.  The list of formats of a database is never cached.  In every
    world that the module can reach, a fetch with a format that returns
    normally has asked for the list of formats of the database right
    before it asked for the entry; it has stored that list, the words of
    the answer to that request, which holds the format, as the list of
    fields of the database; and the cache of formats is empty afterwards
    as it was before. *)
Theorem format_list_is_asked_every_time (db : string) (id : PyId)
    (format field : option string) (h : UndoHandle) (w w' : World) :
  reachable net w ->
  truthy format = true ->
  tfetch net db id format field w = (Ok h, w') ->
  exists formats extra,
    urls w' = urls w ++ extra
              ++ ["http://togows.dbcls.jp/entry/" +:+ db +:+ "?formats";
                  fetch_url db id format field] /\
    text format ∈ formats /\
    _fetch_db_fields w' !! db = Some formats /\
    _fetch_db_formats w' = ∅ /\
    formats = ids_of (body (net (length (urls w ++ extra))
                                (GET ("http://togows.dbcls.jp/entry/" +:+ db +:+ "?formats")))).
Proof.
  intros Hr Hf H.
  pose proof (formats_cache_never_filled net w Hr) as Hempty.
  unfold tfetch in H. rewrite <- bind_assoc in H. unfold bind at 1 in H.
  pose proof (checks_leave_formats_empty db field w Hempty) as Hb.
  assert (He : emits (fun u => u ∈ entry_discovery db)
                 (check_db net db >> check_field net db field)).
  { apply emits_bind; intros; [apply emits_check_db | apply emits_check_field]. }
  destruct (He w) as (extra & Hextra & _).
  destruct ((check_db net db >> check_field net db field) w) as [[[]|e] wb];
    [|discriminate H].
  cbn [snd] in Hb, Hextra.
  unfold bind at 1 in H. unfold check_format in H. rewrite Hf in H.
  unfold fetch_db_formats, gets in H. unfold bind at 1 2 in H.
  rewrite Hb, lookup_empty in H.
  unfold _get_entry_formats, _get_fields, bind in H. rewrite open_gate in H.
  destruct (gate _ _) as [hf|e] eqn:Hg; [|discriminate H].
  cbn [ret modify] in H.
  case_bool_decide as Hin; cbn [negb] in H; [|discriminate H].
  unfold ret in H. rewrite open_gate in H. injection H as _ <-.
  exists (PyStr.split (PyStr.strip (fst (UndoHandle.read hf)))), extra.
  split; [|split; [exact Hin|split; [|split]]].
  - rewrite urls_sent, urls_set_fields, urls_sent, Hextra, <- !app_assoc. reflexivity.
  - unfold sent. cbn [_fetch_db_fields set_fetch_db_fields]. apply lookup_insert_eq.
  - unfold sent. cbn [_fetch_db_formats set_fetch_db_fields]. exact Hb.
  - rewrite <- Hextra. unfold urls. rewrite length_fmap.
    match type of Hg with gate ?u ?b = _ =>
      destruct (passes b) eqn:Hp;
      [rewrite (gate_passes u b Hp) in Hg
      |destruct (gate_fails u b Hp) as [msg Hm]; rewrite Hm in Hg; discriminate Hg]
    end.
    injection Hg as <-. rewrite read_pushed_back. reflexivity.
Qed.

End FormatList.

Lemma format_list_is_asked_every_time_witness :
  let m := Mock.entry_service in
  let w := snd (tfetch m "pubmed" (IdStr "16381885") (Some "xml") None (boot 0)) in
  exists (formats extra : list string),
    urls (snd (tfetch m "pubmed" (IdStr "16381885") (Some "xml") None w))
      = urls w ++ extra ++ ["http://togows.dbcls.jp/entry/pubmed?formats";
                            "http://togows.dbcls.jp/entry/pubmed/16381885.xml"] /\
    "xml" ∈ formats.
Proof.
  intros m w.
  assert (Hr : reachable m w) by (apply reach_tfetch, reach_boot).
  assert (H : tfetch m "pubmed" (IdStr "16381885") (Some "xml") None w
              = (Ok (pushed_back "<PubmedArticle/>"),
                 snd (tfetch m "pubmed" (IdStr "16381885") (Some "xml") None w)))
    by (vm_compute; reflexivity).
  destruct (format_list_is_asked_every_time m "pubmed" _ (Some "xml") None _ w _ Hr eq_refl H)
    as (formats & extra & Hu & Hin & _).
  exists formats, extra. split; [exact Hu | exact Hin].
Defined.

Lemma unknown_format_opens_the_handle_witness :
  OntologyIO.write string (fun h _ => OntologyIO.Good h) (fun _ _ _ _ => None)
    "terms" "out.obo" (OntologyIO.Text "OBO") None []
  = (OntologyIO.Bad (OntologyIO.ValueError "Unknown format 'OBO'"),
     [OntologyIO.Enter string "out.obo" "w"; OntologyIO.Exit string "out.obo"]).
Proof.
  destruct (unknown_format_opens_the_handle string (fun h _ => OntologyIO.Good h)
              (fun _ _ _ _ => None) (fun _ _ _ _ _ => None) "OBO" "out.obo" "out.obo" [])
    as [H _]; [discriminate | reflexivity |].
  apply H; discriminate.
Defined.

Lemma write_runs_one_writer_witness :
  exists fmt c,
    OntologyIO.Text "gml" = OntologyIO.Text fmt /\
    ((fmt = "obo" /\ c = OntologyIO.OboWriter) \/ (fmt = "gml" /\ c = OntologyIO.GmlWriter)) /\
    [OntologyIO.Enter string "out.gml" "w";
     OntologyIO.WriteFile string OntologyIO.GmlWriter "graph" None;
     OntologyIO.Exit string "out.gml"]
    = [] ++ [OntologyIO.Enter string "out.gml" "w";
             OntologyIO.WriteFile string c "graph" None;
             OntologyIO.Exit string "out.gml"].
Proof.
  destruct (write_runs_one_writer string (fun h _ => OntologyIO.Good h) (fun _ _ _ _ => None)
              "graph" "out.gml" (OntologyIO.Text "gml") None []
              [OntologyIO.Enter string "out.gml" "w";
               OntologyIO.WriteFile string OntologyIO.GmlWriter "graph" None;
               OntologyIO.Exit string "out.gml"]) as [H _].
  apply H. reflexivity.
Defined.

Lemma parse_checks_at_first_step_witness :
  OntologyIO.collect string (fun h _ => OntologyIO.Good h) (fun _ _ => (["GO:1"], None)) 1
    (OntologyIO.parse string "in.obo" (OntologyIO.Text "Obo")) []
  = ([], Some (Some (OntologyIO.ValueError
                       "Format string '<built-in function format>' should be lower case")),
     []).
Proof.
  destruct (parse_checks_at_first_step string (fun h _ => OntologyIO.Good h)
              (fun _ _ => (["GO:1"], None)) "in.obo" [] 0) as (_ & _ & H & _).
  apply H. discriminate.
Defined.

Lemma parse_yields_the_elements_witness :
  OntologyIO.collect string (fun h _ => OntologyIO.Good h)
    (fun _ _ => (["GO:1"; "GO:2"], None)) 3
    (OntologyIO.parse string "in.obo" (OntologyIO.Text "obo")) []
  = (["GO:1"; "GO:2"], Some None,
     [OntologyIO.Enter string "in.obo" "rU"; OntologyIO.Exit string "in.obo"]).
Proof.
  apply (parse_yields_the_elements string (fun h _ => OntologyIO.Good h)
           (fun _ _ => (["GO:1"; "GO:2"], None)) "in.obo" "in.obo" "obo"
           OntologyIO.OboIterator ["GO:1"; "GO:2"] None [] 0).
  - left. split; reflexivity.
  - reflexivity.
  - reflexivity.
Defined.

(** * The pager ends *)

Section PagerEnds.

Variable net : nat -> Request -> Reply.

(** A search with a refused window never returns a handle. *)
Lemma tsearch_bad_window_raises (db query : string) (offset count : option Z)
    (format : option string) (w : World) :
  bad_window offset count ->
  exists e w', tsearch net db query offset count format w = (Raised e, w').
Proof.
  intros Hbad. unfold tsearch. unfold bind at 1.
  destruct (search_db_names net w) as [[names|e] wa]; [|eauto].
  unfold bind, warnings_warn, modify, ret, raise.
  destruct offset as [o|], count as [c|]; cbn [bad_window] in Hbad;
    destruct (negb (bool_decide (db ∈ names)));
    repeat case_bool_decide; try lia; try (now destruct Hbad); eauto.
Qed.

Lemma loop_ends (db query : string) (n : nat) :
  forall batch remain offset w,
    (Z.to_nat remain <= n)%nat ->
    exists fuel ys out w2,
      drain net fuel (GWhile db query batch remain offset) w = (ys, out, w2) /\
      out <> Unfinished.
Proof.
  induction n as [|n IH]; intros batch remain offset w Hm.
  all: destruct (decide (remain = 0)) as [Hz|Hz];
    [ exists 1%nat, [], Exhausted, w; cbn [drain gen_step];
      rewrite bool_decide_eq_true_2 by exact Hz; split; [reflexivity | discriminate] |].
  all: set (k := Z.min batch remain).
  all: destruct (tsearch net db query (Some offset) (Some k) None w) as [[h|e] wa] eqn:Ht;
    [| exists 1%nat, [], (Failed e), wa; cbn [drain gen_step];
       rewrite bool_decide_eq_false_2 by exact Hz; fold k; rewrite Ht;
       split; [reflexivity | discriminate] ].
  all: assert (Hk : 0 < k)
    by (destruct (Z_lt_le_dec 0 k) as [?|Hle]; [assumption|];
        destruct (tsearch_bad_window_raises db query (Some offset) (Some k) None w)
          as (e & w' & He); [right; exact Hle | congruence]).
  all: set (ids := PyStr.split (PyStr.strip (fst (UndoHandle.read h)))).
  all: destruct (decide (Z.of_nat (length ids) = k)) as [Hlen|Hlen];
    [| eexists 1%nat, [], (Failed _), wa; cbn [drain gen_step];
       rewrite bool_decide_eq_false_2 by exact Hz; fold k; rewrite Ht; fold ids;
       rewrite bool_decide_eq_false_2 by exact Hlen;
       split; [reflexivity | discriminate] ].
  - subst k. lia.
  - destruct (IH k (remain - k) (offset + k) wa ltac:(subst k; lia))
      as (fuel & ys & out & w2 & Hd & Hout).
    exists (Datatypes.S (length ids + Datatypes.S fuel)), (ids ++ ys), out, w2.
    split; [|exact Hout].
    cbn [drain gen_step]. rewrite bool_decide_eq_false_2 by exact Hz.
    fold k. rewrite Ht. fold ids. rewrite bool_decide_eq_true_2 by exact Hlen.
    rewrite drain_yields. cbn [drain gen_step]. rewrite Hd. reflexivity.
Qed.

(** X21.  The pager always comes to an end.  Whatever the service
    answers, whatever the batch size, and whether or not the lists are
    cached, there is a step budget within which the iteration over
    [tsearch_iter] ends, normally or with an exception; a larger budget
    gives the same identifiers, the same ending and the same world. *)
Theorem tsearch_iter_always_ends (db query : string) (batch : Z) (w : World) :
  exists fuel ys out w2,
    out <> Unfinished /\
    forall more,
      drain net (fuel + more) (tsearch_iter db query batch) w = (ys, out, w2).
Proof.
  destruct (tsearch_count net db query w) as [[count|e] w1] eqn:Hc.
  - destruct (decide (count = 0)) as [->|Hz].
    + exists 1%nat, [], Exhausted, w1. split; [discriminate|]. intros more.
      cbn [Nat.add drain tsearch_iter gen_step]. rewrite Hc. reflexivity.
    + destruct (loop_ends db query (Z.to_nat count) batch count 1 w1 (le_n _))
        as (fuel & ys & out & w2 & Hd & Hout).
      exists (Datatypes.S fuel), ys, out, w2. split; [exact Hout|]. intros more.
      apply drain_more; [|exact Hout].
      now rewrite (drain_start net db query batch count fuel w w1 Hc Hz).
  - exists 1%nat, [], (Failed e), w1. split; [discriminate|]. intros more.
    cbn [Nat.add drain tsearch_iter gen_step]. rewrite Hc. reflexivity.
Qed.

End PagerEnds.
